(** * Meta Ads MCP server: API client and error normalisation

    A shallow embedding of [src/utils/errors.ts], [src/types/env.ts] and
    [src/client.ts], and the properties of the specification that concern
    them.

    Conventions of the embedding.
    - A JavaScript string is a Rocq [string]: a sequence of bytes holding the
      UTF-8 encoding of the text (for a header value, one byte per character).
    - A JavaScript [number] is [Js.number]: an integer, an infinity or
      [NaN].  The integers the embedding computes are doubles
      ([Number.parseInt] rounds), and [String(n)] prints an integer that is
      not one as the double nearest to it.  Fractions do not occur in the
      identifiers, codes, page sizes and budgets this client handles, and are
      not represented.
    - An optional property ([x?: T], [T | undefined]) is an [option].
    - Values read from a response or from an upstream error object are taken
      at the type the source asserts for them with [as].
    - An [async] method is a tree of outbound calls ([Async.IO]): each node
      is one [fetch] and the subtree depends on the response. *)

From Stdlib Require Import ZArith List String Ascii Bool Lia DecimalString.
From Stdlib Require DecimalPos.
Import ListNotations.
Open Scope string_scope.
Open Scope Z_scope.

Set Implicit Arguments.
Set Warnings "-register-all".

(* ------------------------------------------------------------------------- *)
(** * JavaScript primitives used by the sources *)
(* ------------------------------------------------------------------------- *)

Module Js.

Inductive number : Type :=
| Num (z : Z)
| NaN
| Infinity (negative : bool).

Definition number_eqb (a b : number) : bool :=
  match a, b with
  | Num x, Num y => x =? y
  | Infinity x, Infinity y => Bool.eqb x y
  | _, _ => false                       (* NaN === NaN is false *)
  end.

(** The Number value of a mathematical integer: the nearest double, the one
    with an even significand when two are as near, and an infinity when that
    is 2^1024 or more.  Up to 2^53 every integer is a double. *)
Definition roundToDouble (z : Z) : number :=
  let a := Z.abs z in
  if a <=? 2 ^ 53 then Num z
  else
    let e := Z.log2 a - 52 in               (* the bits below the significand *)
    let q := Z.shiftr a e in                (* 2^52 <= q < 2^53 *)
    let r := a - Z.shiftl q e in
    let half := Z.shiftl 1 (e - 1) in
    let q' := if r <? half then q
              else if half <? r then q + 1
              else if Z.even q then q else q + 1 in
    let v := Z.shiftl q' e in
    if 2 ^ 1024 <=? v then Infinity (z <? 0) else Num (Z.sgn z * v).

(** The decimal numeral of an integer. *)
Definition decimal (z : Z) : string := NilZero.string_of_int (Z.to_int z).

(** ** [String(n)]

    The digits printed are the fewest that still denote the double, and of
    the numerals with that many digits the one nearest to it; they are
    followed by zeros up to 21 digits, and by an exponent beyond.  Up to
    2^53 this is the decimal numeral of the integer. *)

(** The integer with the fewest significant digits that denotes the same
    double as [x], for [x] positive: the candidates with [k] significant
    digits are the two multiples of 10^(d-k) around [x], [d] being the number
    of digits of [x]. *)
Definition shortest_at (x : Z) (k : Z) : option Z :=
  let d := Z.of_nat (String.length (decimal x)) in
  let p := 10 ^ (Z.max 0 (d - k)) in
  let v0 := (x / p) * p in
  let v1 := v0 + p in
  let same (v : Z) : bool :=
    match roundToDouble v, roundToDouble x with
    | Num a, Num b => a =? b
    | Infinity _, Infinity _ => true
    | _, _ => false
    end in
  match same v0, same v1 with
  | true, true =>
      if x - v0 <? v1 - x then Some v0
      else if v1 - x <? x - v0 then Some v1
      else if Z.even (x / p) then Some v0 else Some v1
  | true, false => Some v0
  | false, true => Some v1
  | false, false => None
  end.

Fixpoint shortest_from (x : Z) (k : Z) (fuel : nat) : Z :=
  match fuel with
  | O => x
  | S fuel' =>
      match shortest_at x k with
      | Some v => v
      | None => shortest_from x (k + 1) fuel'
      end
  end.

(** Seventeen digits always tell a double from its neighbours. *)
Definition shortest (x : Z) : Z := shortest_from x 1 17.

Fixpoint all_zeros (s : string) : bool :=
  match s with
  | String c s' => (Ascii.eqb c "0" && all_zeros s')%bool
  | EmptyString => true
  end.

(** The digits of a fraction without its trailing zeros. *)
Fixpoint significant (s : string) : string :=
  match s with
  | String c s' => if all_zeros s then "" else String c (significant s')
  | EmptyString => ""
  end.

(** The text of a numeral of more than 21 digits: [d.ddde+n]. *)
Definition exponential (digits : string) : string :=
  match digits with
  | String c rest =>
      String c ((match significant rest with
                 | EmptyString => ""
                 | fraction => "." ++ fraction
                 end)
                ++ "e+" ++ decimal (Z.of_nat (String.length rest)))
  | EmptyString => digits
  end.

(** The text of a positive integer above 2^53. *)
Definition ToString_large (x : Z) : string :=
  let digits := decimal (shortest x) in
  if Nat.leb (String.length digits) 21 then digits else exponential digits.

Definition ToString (n : number) : string :=
  match n with
  | Num z =>
      if Z.abs z <=? 2 ^ 53 then decimal z
      else if z <? 0 then "-" ++ ToString_large (Z.abs z)
      else ToString_large z
  | NaN => "NaN"
  | Infinity negative => if negative then "-Infinity" else "Infinity"
  end.

(** [String(b)] *)
Definition ToString_boolean (b : bool) : string :=
  if b then "true" else "false".

(** Truthiness ([ToBoolean]) at each type the sources test. *)
Definition truthy_number (n : number) : bool :=
  match n with
  | Num z => negb (z =? 0)
  | NaN => false
  | Infinity _ => true
  end.

Definition truthy_string (s : string) : bool :=
  match s with
  | EmptyString => false
  | String _ _ => true
  end.

(** [v || d] for an optional [v] and a default [d] of the same type. *)
Definition or_default {A : Type} (truthy : A -> bool) (v : option A) (d : A) : A :=
  match v with
  | Some a => if truthy a then a else d
  | None => d
  end.

(** [s.startsWith(p)] *)
Definition startsWith (s p : string) : bool := String.prefix p s.

(** The double quote character, and a string made of it. *)
Definition dquote_char : ascii := ascii_of_nat 34.
Definition dquote : string := String dquote_char EmptyString.

(** ** [Number.parseInt(s, 10)]

    Leading white space is skipped, one sign is read, and the longest run of
    decimal digits that follows is the value, as a Number: the double
    nearest to the integer the digits denote; no digit gives [NaN].  The
    white space characters are those of a header value (one byte per
    character): TAB, LF, VT, FF, CR, SPACE and NBSP.  (ECMA-262 lets an
    implementation read the digits after the twentieth as zeros; V8, on
    which the server runs, reads them all.) *)

Definition is_white_space (c : ascii) : bool :=
  let n := nat_of_ascii c in
  (Nat.eqb n 9 || Nat.eqb n 10 || Nat.eqb n 11 || Nat.eqb n 12
   || Nat.eqb n 13 || Nat.eqb n 32 || Nat.eqb n 160)%bool.

Fixpoint trim_start (s : string) : string :=
  match s with
  | String c s' => if is_white_space c then trim_start s' else s
  | EmptyString => s
  end.

Definition digit_value (c : ascii) : option Z :=
  let n := nat_of_ascii c in
  if (Nat.leb 48 n && Nat.leb n 57)%bool then Some (Z.of_nat n - 48) else None.

(** The digits of the longest decimal prefix of [s], read with the
    accumulator [acc]; [seen] tells whether a digit was read. *)
Fixpoint parse_digits (s : string) (acc : Z) (seen : bool) : option Z :=
  match s with
  | String c s' =>
      match digit_value c with
      | Some d => parse_digits s' (10 * acc + d) true
      | None => if seen then Some acc else None
      end
  | EmptyString => if seen then Some acc else None
  end.

Definition parseInt10 (input : string) : number :=
  let s := trim_start input in
  let '(sign, rest) :=
    match s with
    | String "-" r => (-1, r)
    | String "+" r => (1, r)
    | _ => (1, s)
    end in
  match parse_digits rest 0 false with
  | Some m => roundToDouble (sign * m)
  | None => NaN
  end.

(** ** [JSON.stringify] *)

Definition hex_digit (n : nat) : ascii :=
  if Nat.ltb n 10 then ascii_of_nat (48 + n) else ascii_of_nat (87 + n).

(** [QuoteJSONString], one character at a time. *)
Definition quote_char (c : ascii) : string :=
  let n := nat_of_ascii c in
  if Nat.eqb n 8 then "\b"
  else if Nat.eqb n 9 then "\t"
  else if Nat.eqb n 10 then "\n"
  else if Nat.eqb n 12 then "\f"
  else if Nat.eqb n 13 then "\r"
  else if Nat.eqb n 34 then String "\" dquote
  else if Nat.eqb n 92 then "\\"
  else if Nat.ltb n 32 then
    "\u00" ++ String (hex_digit (Nat.div n 16)) (String (hex_digit (Nat.modulo n 16)) "")
  else String c "".

Fixpoint quote_chars (s : string) : string :=
  match s with
  | String c s' => quote_char c ++ quote_chars s'
  | EmptyString => ""
  end.

Definition quote (s : string) : string := dquote ++ quote_chars s ++ dquote.

(** [xs.join(sep)] for strings. *)
Fixpoint join (sep : string) (xs : list string) : string :=
  match xs with
  | [] => ""
  | [x] => x
  | x :: rest => x ++ sep ++ join sep rest
  end.

(** [JSON.stringify(a)] for [a : string[]]. *)
Definition stringify_strings (a : list string) : string :=
  "[" ++ join "," (map quote a) ++ "]".

(** Plain data: the values of the structured inputs (targeting, creative
    and promoted-object specifications) that the client only serialises. *)
Inductive Json : Type :=
| JNull
| JBool (b : bool)
| JNumber (n : number)
| JString (s : string)
| JArray (items : list Json)
| JObject (props : list (string * Json)).

(** [JSON.stringify(v)] without indentation. *)
Fixpoint stringify (v : Json) : string :=
  match v with
  | JNull => "null"
  | JBool b => ToString_boolean b
  | JNumber NaN => "null"
  | JNumber (Infinity _) => "null"
  | JNumber n => ToString n
  | JString s => quote s
  | JArray items =>
      "[" ++ join "," (map stringify items) ++ "]"
  | JObject props =>
      "{" ++ join "," (map (fun kv => quote (fst kv) ++ ":" ++ stringify (snd kv)) props) ++ "}"
  end.

(** ** [Number.parseInt(s, 10)] on any text

    The same reading for a string that holds UTF-8 text: the white space
    skipped is every [WhiteSpace] and [LineTerminator] code point, in its
    UTF-8 encoding. *)

Definition byte_is (c : ascii) (n : nat) : bool := Nat.eqb (nat_of_ascii c) n.

(** TAB, LF, VT, FF, CR and SPACE. *)
Definition is_ascii_white_space (c : ascii) : bool :=
  let n := nat_of_ascii c in
  (Nat.eqb n 9 || Nat.eqb n 10 || Nat.eqb n 11 || Nat.eqb n 12
   || Nat.eqb n 13 || Nat.eqb n 32)%bool.

(** U+00A0, encoded on two bytes. *)
Definition is_white_space2 (a b : ascii) : bool :=
  (byte_is a 194 && byte_is b 160)%bool.

(** U+1680, U+2000..U+200A, U+2028, U+2029, U+202F, U+205F, U+3000 and
    U+FEFF, encoded on three bytes. *)
Definition is_white_space3 (a b c : ascii) : bool :=
  let n := nat_of_ascii c in
  ((byte_is a 225 && byte_is b 154 && byte_is c 128)
   || (byte_is a 226 && byte_is b 128
       && ((Nat.leb 128 n && Nat.leb n 138) || Nat.eqb n 168 || Nat.eqb n 169
           || Nat.eqb n 175))
   || (byte_is a 226 && byte_is b 129 && byte_is c 159)
   || (byte_is a 227 && byte_is b 128 && byte_is c 128)
   || (byte_is a 239 && byte_is b 187 && byte_is c 191))%bool.

Fixpoint trim_start_text (s : string) : string :=
  match s with
  | String a r =>
      if is_ascii_white_space a then trim_start_text r
      else
        match r with
        | String b r2 =>
            if is_white_space2 a b then trim_start_text r2
            else
              match r2 with
              | String c r3 =>
                  if is_white_space3 a b c then trim_start_text r3 else s
              | EmptyString => s
              end
        | EmptyString => s
        end
  | EmptyString => s
  end.

Definition parseInt10_text (input : string) : number :=
  let s := trim_start_text input in
  let '(sign, rest) :=
    match s with
    | String "-" r => (-1, r)
    | String "+" r => (1, r)
    | _ => (1, s)
    end in
  match parse_digits rest 0 false with
  | Some m => roundToDouble (sign * m)
  | None => NaN
  end.

(** ** [JSON.stringify(v, null, gap)] for a non-empty [gap] *)

Definition newline : string := String (ascii_of_nat 10) EmptyString.

(** The text of a non-empty object or array from the texts of its members. *)
Definition wrap_members (opening closing indent gap : string) (members : list string)
  : string :=
  match members with
  | [] => opening ++ closing
  | _ =>
      opening ++ newline ++ indent ++ gap
      ++ join ("," ++ newline ++ indent ++ gap) members
      ++ newline ++ indent ++ closing
  end.

Fixpoint stringify_indented (gap indent : string) (v : Json) : string :=
  match v with
  | JNull => "null"
  | JBool b => ToString_boolean b
  | JNumber NaN => "null"
  | JNumber (Infinity _) => "null"
  | JNumber n => ToString n
  | JString s => quote s
  | JArray items =>
      wrap_members "[" "]" indent gap
        (map (stringify_indented gap (indent ++ gap)) items)
  | JObject props =>
      wrap_members "{" "}" indent gap
        (map (fun kv => quote (fst kv) ++ ": "
                        ++ stringify_indented gap (indent ++ gap) (snd kv)) props)
  end.

(** [JSON.stringify(v, null, 2)] *)
Definition stringify2 (v : Json) : string := stringify_indented "  " "" v.

(** An object literal some of whose properties may hold [undefined]. *)
Definition Props : Type := list (string * option Json).

(** The properties [JSON.stringify] keeps: those with a defined value. *)
Fixpoint definedProps (props : Props) : list (string * Json) :=
  match props with
  | [] => []
  | (k, Some v) :: rest => (k, v) :: definedProps rest
  | (_, None) :: rest => definedProps rest
  end.

End Js.

(* ------------------------------------------------------------------------- *)
(** * Error taxonomy ([src/utils/errors.ts]) *)
(* ------------------------------------------------------------------------- *)

Module Errors.

Import Js.

(** The class of an error object ([this.name]). *)
Inductive ErrorName : Type :=
| MetaAdsApiErrorName
| RateLimitErrorName
| AuthenticationErrorName
| PermissionErrorName
| NotFoundErrorName
| ValidationErrorName.

(** The optional last argument of the base constructor. *)
Record Extra : Type := {
  extra_errorSubcode : option number;
  extra_errorUserTitle : option string;
  extra_errorUserMsg : option string;
  extra_fbTraceId : option string
}.

(** An instance of [MetaAdsApiError] or of one of its subclasses.  The two
    fields that only a subclass declares are absent ([None]) elsewhere. *)
Record MetaAdsApiError : Type := {
  name : ErrorName;
  message : string;
  statusCode : option Z;
  code : string;
  errorSubcode : option number;
  errorUserTitle : option string;
  errorUserMsg : option string;
  fbTraceId : option string;
  retryable : bool;
  retryAfterSeconds : option number;               (* RateLimitError *)
  details : option (list (string * list string))   (* ValidationError *)
}.

(** [new MetaAdsApiError(message, statusCode, code, retryable, extra)];
    [retryable] defaults to [false] at the call sites that omit it. *)
Definition newMetaAdsApiError (message : string) (statusCode : option Z)
    (code : option string) (retryable : bool) (extra : option Extra)
  : MetaAdsApiError :=
  {| name := MetaAdsApiErrorName;
     message := message;
     statusCode := statusCode;
     code := or_default truthy_string code "META_ADS_ERROR";
     errorSubcode := match extra with Some x => extra_errorSubcode x | None => None end;
     errorUserTitle := match extra with Some x => extra_errorUserTitle x | None => None end;
     errorUserMsg := match extra with Some x => extra_errorUserMsg x | None => None end;
     fbTraceId := match extra with Some x => extra_fbTraceId x | None => None end;
     retryable := retryable;
     retryAfterSeconds := None;
     details := None |}.

(** An object literal [{ errorSubcode, fbTraceId }]. *)
Definition extra_of (errorSubcode : option number) (fbTraceId : option string) : Extra :=
  {| extra_errorSubcode := errorSubcode;
     extra_errorUserTitle := None;
     extra_errorUserMsg := None;
     extra_fbTraceId := fbTraceId |}.

Definition set_name (n : ErrorName) (e : MetaAdsApiError) : MetaAdsApiError :=
  {| name := n; message := message e; statusCode := statusCode e; code := code e;
     errorSubcode := errorSubcode e; errorUserTitle := errorUserTitle e;
     errorUserMsg := errorUserMsg e; fbTraceId := fbTraceId e;
     retryable := retryable e; retryAfterSeconds := retryAfterSeconds e;
     details := details e |}.

Definition set_retryAfterSeconds (s : number) (e : MetaAdsApiError) : MetaAdsApiError :=
  {| name := name e; message := message e; statusCode := statusCode e; code := code e;
     errorSubcode := errorSubcode e; errorUserTitle := errorUserTitle e;
     errorUserMsg := errorUserMsg e; fbTraceId := fbTraceId e;
     retryable := retryable e; retryAfterSeconds := Some s;
     details := details e |}.

Definition set_details (d : list (string * list string)) (e : MetaAdsApiError)
  : MetaAdsApiError :=
  {| name := name e; message := message e; statusCode := statusCode e; code := code e;
     errorSubcode := errorSubcode e; errorUserTitle := errorUserTitle e;
     errorUserMsg := errorUserMsg e; fbTraceId := fbTraceId e;
     retryable := retryable e; retryAfterSeconds := retryAfterSeconds e;
     details := Some d |}.

(** [new RateLimitError(message, retryAfterSeconds, fbTraceId)] *)
Definition newRateLimitError (message : string) (retryAfterSeconds : number)
    (fbTraceId : option string) : MetaAdsApiError :=
  set_retryAfterSeconds retryAfterSeconds
    (set_name RateLimitErrorName
       (newMetaAdsApiError message (Some 429) (Some "RATE_LIMIT_EXCEEDED") true
          (Some (extra_of None fbTraceId)))).

(** [new AuthenticationError(message, errorSubcode, fbTraceId)] *)
Definition newAuthenticationError (message : string) (errorSubcode : option number)
    (fbTraceId : option string) : MetaAdsApiError :=
  set_name AuthenticationErrorName
    (newMetaAdsApiError message (Some 401) (Some "AUTHENTICATION_FAILED") false
       (Some (extra_of errorSubcode fbTraceId))).

(** [new PermissionError(message, errorSubcode, fbTraceId)] *)
Definition newPermissionError (message : string) (errorSubcode : option number)
    (fbTraceId : option string) : MetaAdsApiError :=
  set_name PermissionErrorName
    (newMetaAdsApiError message (Some 403) (Some "PERMISSION_DENIED") false
       (Some (extra_of errorSubcode fbTraceId))).

(** [new NotFoundError(entityType, id, fbTraceId)] *)
Definition newNotFoundError (entityType id : string) (fbTraceId : option string)
  : MetaAdsApiError :=
  set_name NotFoundErrorName
    (newMetaAdsApiError (entityType ++ " with ID '" ++ id ++ "' not found")
       (Some 404) (Some "NOT_FOUND") false (Some (extra_of None fbTraceId))).

(** [new ValidationError(message, details, fbTraceId)] *)
Definition newValidationError (message : string) (details : list (string * list string))
    (fbTraceId : option string) : MetaAdsApiError :=
  set_details details
    (set_name ValidationErrorName
       (newMetaAdsApiError message (Some 400) (Some "VALIDATION_ERROR") false
          (Some (extra_of None fbTraceId)))).

(** The [error] member of an upstream error body, with each property at the
    type [parseMetaApiError] asserts for it. *)
Module Upstream.
Record Error : Type := {
  message : option string;
  code : option number;
  error_subcode : option number;
  error_user_title : option string;
  error_user_msg : option string;
  fbtrace_id : option string
}.
End Upstream.

(** [errorBody : Record<string, unknown>], of which only [error] is read. *)
Record ErrorBody : Type := {
  error : option Upstream.Error
}.

(** The empty object [{}]. *)
Definition emptyBody : ErrorBody := {| error := None |}.

(** [parseMetaApiError(errorBody, statusCode)] *)
Definition parseMetaApiError (errorBody : ErrorBody) (statusCode : Z) : MetaAdsApiError :=
  match error errorBody with
  | None =>
      newMetaAdsApiError ("API error: " ++ ToString (Num statusCode))
        (Some statusCode) (Some "UNKNOWN_ERROR") false None
  | Some error =>
      let message := or_default truthy_string (Upstream.message error) "Unknown error" in
      let code := Upstream.code error in
      let errorSubcode := Upstream.error_subcode error in
      let errorUserTitle := Upstream.error_user_title error in
      let errorUserMsg := Upstream.error_user_msg error in
      let fbTraceId := Upstream.fbtrace_id error in
      let code_is (k : Z) : bool :=
        match code with Some c => number_eqb c (Num k) | None => false end in
      let within (lo hi : Z) : bool :=       (* code && code >= lo && code < hi *)
        match code with
        | Some (Num c) => (negb (c =? 0) && (lo <=? c) && (c <? hi))%bool
        | _ => false
        end in
      (* OAuth errors (code 190) *)
      if code_is 190 then
        newAuthenticationError message errorSubcode fbTraceId
      (* Permission errors (codes 10, 200-299) *)
      else if (code_is 10 || within 200 300)%bool then
        newPermissionError message errorSubcode fbTraceId
      (* Rate limit errors (code 4, 17, 32, 613) *)
      else if (code_is 4 || code_is 17 || code_is 32 || code_is 613)%bool then
        newRateLimitError message (Num 60) fbTraceId
      (* Validation errors (code 100) *)
      else if code_is 100 then
        newValidationError message [] fbTraceId
      (* Default error *)
      else
        newMetaAdsApiError message (Some statusCode)
          (Some (match code with
                 | Some c => if truthy_number c then ToString c else "UNKNOWN_ERROR"
                 | None => "UNKNOWN_ERROR"
                 end))
          false
          (Some {| extra_errorSubcode := errorSubcode;
                   extra_errorUserTitle := errorUserTitle;
                   extra_errorUserMsg := errorUserMsg;
                   extra_fbTraceId := fbTraceId |})
  end.

(** [error.message.includes(needle)] *)
Fixpoint includes (s needle : string) : bool :=
  (String.prefix needle s ||
   match s with
   | String _ s' => includes s' needle
   | EmptyString => false
   end)%bool.

(** What a [throw] or a rejected promise carries. *)
Inductive Thrown : Type :=
| ApiError (e : MetaAdsApiError)        (* an instance of [MetaAdsApiError] *)
| PlainError (name message : string).   (* any other [Error] *)

Definition thrown_message (t : Thrown) : string :=
  match t with
  | ApiError e => message e
  | PlainError _ m => m
  end.

(** [isRetryableError(error)] *)
Definition isRetryableError (t : Thrown) : bool :=
  match t with
  | ApiError e => retryable e
  | PlainError _ m =>
      (includes m "network" || includes m "timeout" || includes m "ECONNRESET")%bool
  end.

(** The class name an instance reports as [error.name]. *)
Definition ErrorName_string (n : ErrorName) : string :=
  match n with
  | MetaAdsApiErrorName => "MetaAdsApiError"
  | RateLimitErrorName => "RateLimitError"
  | AuthenticationErrorName => "AuthenticationError"
  | PermissionErrorName => "PermissionError"
  | NotFoundErrorName => "NotFoundError"
  | ValidationErrorName => "ValidationError"
  end.

(** [error instanceof RateLimitError], [error instanceof ValidationError] *)
Definition isRateLimitError (e : MetaAdsApiError) : bool :=
  match name e with RateLimitErrorName => true | _ => false end.

Definition isValidationError (e : MetaAdsApiError) : bool :=
  match name e with ValidationErrorName => true | _ => false end.

(** A [Record<string, string[]>] as plain data. *)
Definition detailsJson (d : list (string * list string)) : Json :=
  JObject (map (fun kv => (fst kv, JArray (map JString (snd kv)))) d).

(** [...(cond && { ... })]: the properties are added when [cond] is truthy. *)
Definition spreadIf (cond : bool) (props : Props) : Props :=
  if cond then props else [].

(** [formatErrorForLogging(error)]; [stack] is the [stack] property the
    platform gave a plain error. *)
Definition formatErrorForLogging (error : Thrown) (stack : option string) : Props :=
  match error with
  | ApiError e =>
      ([("name", Some (JString (ErrorName_string (name e))));
        ("message", Some (JString (message e)));
        ("code", Some (JString (code e)));
        ("statusCode", option_map (fun z => JNumber (Num z)) (statusCode e));
        ("retryable", Some (JBool (retryable e)))]
       ++ spreadIf (isRateLimitError e)
            [("retryAfterSeconds", option_map JNumber (retryAfterSeconds e))]
       ++ spreadIf (isValidationError e)
            [("details", option_map detailsJson (details e))]
       ++ spreadIf (match errorSubcode e with Some n => truthy_number n | None => false end)
            [("errorSubcode", option_map JNumber (errorSubcode e))]
       ++ spreadIf (match errorUserTitle e with Some t => truthy_string t | None => false end)
            [("errorUserTitle", option_map JString (errorUserTitle e))]
       ++ spreadIf (match errorUserMsg e with Some t => truthy_string t | None => false end)
            [("errorUserMsg", option_map JString (errorUserMsg e))]
       ++ spreadIf (match fbTraceId e with Some t => truthy_string t | None => false end)
            [("fbTraceId", option_map JString (fbTraceId e))])%list
  | PlainError n m =>
      [("name", Some (JString n));
       ("message", Some (JString m));
       ("stack", option_map JString stack)]
  end.

End Errors.

(* ------------------------------------------------------------------------- *)
(** * Tenant credentials ([src/types/env.ts]) *)
(* ------------------------------------------------------------------------- *)

Module Env.

Import Js Errors.

Record TenantCredentials : Type := {
  accessToken : string;
  adAccountId : option string;
  businessId : option string;
  appId : option string;
  appSecret : option string;
  apiVersion : option string
}.

(** [headers.get(h) || undefined] *)
Definition header_or_undefined (v : option string) : option string :=
  match v with
  | Some s => if truthy_string s then Some s else None
  | None => None
  end.

(** [parseTenantCredentials(request)], from [request.headers.get]. *)
Definition parseTenantCredentials (get : string -> option string) : TenantCredentials :=
  {| accessToken := or_default truthy_string (get "X-Meta-Access-Token") "";
     adAccountId := header_or_undefined (get "X-Meta-Ad-Account-Id");
     businessId := header_or_undefined (get "X-Meta-Business-Id");
     appId := header_or_undefined (get "X-Meta-App-Id");
     appSecret := header_or_undefined (get "X-Meta-App-Secret");
     apiVersion := header_or_undefined (get "X-Meta-Api-Version") |}.

(** [validateCredentials(credentials)]: returns, or throws a plain [Error]. *)
Definition validateCredentials (credentials : TenantCredentials) : Thrown + unit :=
  if negb (truthy_string (accessToken credentials)) then
    inl (PlainError "Error" "Missing credentials. Provide X-Meta-Access-Token header.")
  else inr tt.

(** The keys of [Env]: four variables, then three bindings. *)
Inductive EnvKey : Type :=
| CHARACTER_LIMIT | DEFAULT_PAGE_SIZE | MAX_PAGE_SIZE | META_API_VERSION
| OAUTH_KV | MCP_SESSIONS | AI.

(** The variables of an [Env], each with its value when that is a string
    ([None] when the variable is not set). *)
Record EnvVars : Type := {
  var_CHARACTER_LIMIT : option string;
  var_DEFAULT_PAGE_SIZE : option string;
  var_MAX_PAGE_SIZE : option string;
  var_META_API_VERSION : option string
}.

(** [env[key]] when [typeof env[key] === 'string']; a binding is an object
    or is absent. *)
Definition envString (env : EnvVars) (key : EnvKey) : option string :=
  match key with
  | CHARACTER_LIMIT => var_CHARACTER_LIMIT env
  | DEFAULT_PAGE_SIZE => var_DEFAULT_PAGE_SIZE env
  | MAX_PAGE_SIZE => var_MAX_PAGE_SIZE env
  | META_API_VERSION => var_META_API_VERSION env
  | OAUTH_KV | MCP_SESSIONS | AI => None
  end.

(** [Number.isNaN(n)] *)
Definition isNaN (n : number) : bool :=
  match n with NaN => true | Num _ | Infinity _ => false end.

(** [getEnvNumber(env, key, defaultValue)] *)
Definition getEnvNumber (env : EnvVars) (key : EnvKey) (defaultValue : number) : number :=
  match envString env key with
  | Some value =>
      let parsed := parseInt10_text value in
      if isNaN parsed then defaultValue else parsed
  | None => defaultValue
  end.

Definition getCharacterLimit (env : EnvVars) : number :=
  getEnvNumber env CHARACTER_LIMIT (Num 50000).

Definition getDefaultPageSize (env : EnvVars) : number :=
  getEnvNumber env DEFAULT_PAGE_SIZE (Num 25).

Definition getMaxPageSize (env : EnvVars) : number :=
  getEnvNumber env MAX_PAGE_SIZE (Num 100).

(** [getMetaApiVersion(env)] *)
Definition getMetaApiVersion (env : EnvVars) : string :=
  or_default truthy_string (var_META_API_VERSION env) "v21.0".

End Env.

(* ------------------------------------------------------------------------- *)
(** * Outbound calls: URLs, requests, responses *)
(* ------------------------------------------------------------------------- *)

Module Http.

Import Js Errors.

(** The list of name/value pairs of a [URLSearchParams] or a [FormData]. *)
Definition Entries : Type := list (string * string).

(** [entries.get(name)]: the value of the first pair named [name]. *)
Fixpoint get (name : string) (q : Entries) : option string :=
  match q with
  | [] => None
  | (k, v) :: rest => if String.eqb k name then Some v else get name rest
  end.

Definition remove (name : string) (q : Entries) : Entries :=
  filter (fun kv => negb (String.eqb (fst kv) name)) q.

(** [searchParams.set(name, value)]: the first pair named [name] takes the
    value and the others are removed; without such a pair, one is appended. *)
Fixpoint set (name value : string) (q : Entries) : Entries :=
  match q with
  | [] => [(name, value)]
  | (k, v) :: rest =>
      if String.eqb k name then (name, value) :: remove name rest
      else (k, v) :: set name value rest
  end.

(** [formData.append(name, value)] *)
Definition append (name value : string) (q : Entries) : Entries :=
  (q ++ [(name, value)])%list.

(** The names of the pairs, in order. *)
Definition names (q : Entries) : list string := map fst q.

(** ** [searchParams.toString()]: [application/x-www-form-urlencoded] *)

Definition upper_hex_digit (n : nat) : ascii :=
  if Nat.ltb n 10 then ascii_of_nat (48 + n) else ascii_of_nat (55 + n).

(** Bytes left as they are: ASCII letters and digits, [*], [-], [.], [_]. *)
Definition is_unreserved (c : ascii) : bool :=
  let n := nat_of_ascii c in
  ((Nat.leb 48 n && Nat.leb n 57) || (Nat.leb 65 n && Nat.leb n 90)
   || (Nat.leb 97 n && Nat.leb n 122)
   || Nat.eqb n 42 || Nat.eqb n 45 || Nat.eqb n 46 || Nat.eqb n 95)%bool.

Definition encode_byte (c : ascii) : string :=
  let n := nat_of_ascii c in
  if is_unreserved c then String c ""
  else if Nat.eqb n 32 then "+"
  else String "%" (String (upper_hex_digit (Nat.div n 16))
                     (String (upper_hex_digit (Nat.modulo n 16)) "")).

Fixpoint encode (s : string) : string :=
  match s with
  | String c s' => encode_byte c ++ encode s'
  | EmptyString => ""
  end.

Definition toString (q : Entries) : string :=
  join "&" (map (fun kv => encode (fst kv) ++ "=" ++ encode (snd kv)) q).

(** The second argument of [fetch]. *)
Record RequestInit : Type := {
  method : option string;                 (* absent: GET *)
  headers : list (string * string);
  body : option Entries                   (* a [FormData] *)
}.

(** [{}] *)
Definition noOptions : RequestInit :=
  {| method := None; headers := []; body := None |}.

(** [{ method: m }] *)
Definition withMethod (m : string) : RequestInit :=
  {| method := Some m; headers := []; body := None |}.

(** One call of [fetch(url, init)]. *)
Record HttpRequest : Type := {
  url : string;
  init : RequestInit
}.

(** A settled promise. *)
Inductive Settled (A : Type) : Type :=
| Fulfilled (a : A)
| Rejected (reason : Thrown).

Arguments Fulfilled {A} a.
Arguments Rejected {A} reason.

(** What a JSON body parses to, for code that takes it as a record of type
    [A] without a check: [null], of which reading a property throws, or any
    other value, read at [A] (a number, a string or an array read as a record
    has none of the properties). *)
Inductive Parsed (A : Type) : Type :=
| Null
| Value (a : A).

Arguments Null {A}.
Arguments Value {A} a.

(** What the client reads of a [Response] whose body it expects at type [T]:
    the status, [headers.get('Retry-After')], and [json()] read as an error
    body (on the failure path) and as [T] (on the success path). *)
Record Response (T : Type) : Type := {
  status : Z;
  header_Retry_After : option string;
  json_error : Settled (Parsed ErrorBody);
  json : Settled T
}.

(** [response.ok] *)
Definition ok {T : Type} (response : Response T) : bool :=
  ((200 <=? status response) && (status response <=? 299))%bool.

End Http.

(* ------------------------------------------------------------------------- *)
(** * Asynchronous computations *)
(* ------------------------------------------------------------------------- *)

Module Async.

Import Errors Http.

(** An [async] body: it returns, throws, or awaits one [fetch] and goes on
    with what the call settles to. *)
Inductive IO (A : Type) : Type :=
| Ret (a : A)
| Throw (t : Thrown)
| Fetch (T : Type) (request : HttpRequest) (k : Settled (Response T) -> IO A).

Arguments Ret {A} a.
Arguments Throw {A} t.
Arguments Fetch {A} T request k.

Fixpoint bind {A B : Type} (m : IO A) (f : A -> IO B) : IO B :=
  match m with
  | Ret a => f a
  | Throw t => Throw t
  | Fetch T r k => Fetch T r (fun x => bind (k x) f)
  end.

(** The calls a computation has made when it stops, and how it stops, when
    the network answers each call in turn with [answers]. *)
Inductive Outcome (A : Type) : Type :=
| Returned (a : A)
| Threw (t : Thrown)
| Pending (request : HttpRequest).      (* still awaiting this call *)

Arguments Returned {A} a.
Arguments Threw {A} t.
Arguments Pending {A} request.

(** The requests a computation dispatches, in order. *)
Fixpoint dispatched {A : Type} (m : IO A)
    (answers : list (forall T : Type, Settled (Response T)))
  : list HttpRequest * Outcome A :=
  match m with
  | Ret a => ([], Returned a)
  | Throw t => ([], Threw t)
  | Fetch T r k =>
      match answers with
      | [] => ([r], Pending r)
      | answer :: rest =>
          let '(sent, out) := dispatched (k (answer T)) rest in
          (r :: sent, out)
      end
  end.

(** [try { ... } catch (error) { ... }] around an [async] body. *)
Fixpoint catch {A : Type} (m : IO A) (h : Thrown -> IO A) : IO A :=
  match m with
  | Ret a => Ret a
  | Throw t => h t
  | Fetch T r k => Fetch T r (fun x => catch (k x) h)
  end.

(** [runs m sent out]: for some behaviour of the network, [m] makes the
    calls [sent], in this order, and then returns or throws [out]. *)
Fixpoint runs {A : Type} (m : IO A) (sent : list HttpRequest) (out : Thrown + A)
  : Prop :=
  match m with
  | Ret a => sent = [] /\ out = inr a
  | Throw t => sent = [] /\ out = inl t
  | Fetch T r k => exists x sent', sent = r :: sent' /\ runs (k x) sent' out
  end.

End Async.

Declare Scope io_scope.
Delimit Scope io_scope with io.
Notation "x <- m ;; k" := (Async.bind m (fun x => k))
  (at level 61, m at next level, right associativity) : io_scope.

(* ------------------------------------------------------------------------- *)
(** * Entity types ([src/types/entities.ts]) *)
(* ------------------------------------------------------------------------- *)

Module Entities.

Import Js.

(** [CampaignStatus], [AdSetStatus] and [AdStatus] are the same union. *)
Inductive Status : Type := ACTIVE | PAUSED | DELETED | ARCHIVED.

Definition Status_string (s : Status) : string :=
  match s with
  | ACTIVE => "ACTIVE"
  | PAUSED => "PAUSED"
  | DELETED => "DELETED"
  | ARCHIVED => "ARCHIVED"
  end.

Definition CampaignStatus : Type := Status.
Definition AdSetStatus : Type := Status.
Definition AdStatus : Type := Status.

Inductive CampaignObjective : Type :=
| OUTCOME_AWARENESS | OUTCOME_ENGAGEMENT | OUTCOME_LEADS | OUTCOME_SALES
| OUTCOME_TRAFFIC | OUTCOME_APP_PROMOTION
| BRAND_AWARENESS | REACH | LINK_CLICKS | POST_ENGAGEMENT | VIDEO_VIEWS
| LEAD_GENERATION | MESSAGES | CONVERSIONS | PRODUCT_CATALOG_SALES
| APP_INSTALLS | STORE_VISITS.

Definition CampaignObjective_string (o : CampaignObjective) : string :=
  match o with
  | OUTCOME_AWARENESS => "OUTCOME_AWARENESS"
  | OUTCOME_ENGAGEMENT => "OUTCOME_ENGAGEMENT"
  | OUTCOME_LEADS => "OUTCOME_LEADS"
  | OUTCOME_SALES => "OUTCOME_SALES"
  | OUTCOME_TRAFFIC => "OUTCOME_TRAFFIC"
  | OUTCOME_APP_PROMOTION => "OUTCOME_APP_PROMOTION"
  | BRAND_AWARENESS => "BRAND_AWARENESS"
  | REACH => "REACH"
  | LINK_CLICKS => "LINK_CLICKS"
  | POST_ENGAGEMENT => "POST_ENGAGEMENT"
  | VIDEO_VIEWS => "VIDEO_VIEWS"
  | LEAD_GENERATION => "LEAD_GENERATION"
  | MESSAGES => "MESSAGES"
  | CONVERSIONS => "CONVERSIONS"
  | PRODUCT_CATALOG_SALES => "PRODUCT_CATALOG_SALES"
  | APP_INSTALLS => "APP_INSTALLS"
  | STORE_VISITS => "STORE_VISITS"
  end.

Inductive BidStrategy : Type :=
| LOWEST_COST_WITHOUT_CAP | LOWEST_COST_WITH_BID_CAP | COST_CAP
| LOWEST_COST_WITH_MIN_ROAS.

Definition BidStrategy_string (b : BidStrategy) : string :=
  match b with
  | LOWEST_COST_WITHOUT_CAP => "LOWEST_COST_WITHOUT_CAP"
  | LOWEST_COST_WITH_BID_CAP => "LOWEST_COST_WITH_BID_CAP"
  | COST_CAP => "COST_CAP"
  | LOWEST_COST_WITH_MIN_ROAS => "LOWEST_COST_WITH_MIN_ROAS"
  end.

Inductive SpecialAdCategory : Type :=
| NONE | EMPLOYMENT | HOUSING | CREDIT | ISSUES_ELECTIONS_POLITICS
| ONLINE_GAMBLING_AND_GAMING.

Definition SpecialAdCategory_string (c : SpecialAdCategory) : string :=
  match c with
  | NONE => "NONE"
  | EMPLOYMENT => "EMPLOYMENT"
  | HOUSING => "HOUSING"
  | CREDIT => "CREDIT"
  | ISSUES_ELECTIONS_POLITICS => "ISSUES_ELECTIONS_POLITICS"
  | ONLINE_GAMBLING_AND_GAMING => "ONLINE_GAMBLING_AND_GAMING"
  end.

(** ['AUCTION' | 'RESERVED'] *)
Inductive BuyingType : Type := AUCTION | RESERVED.

Definition BuyingType_string (b : BuyingType) : string :=
  match b with
  | AUCTION => "AUCTION"
  | RESERVED => "RESERVED"
  end.

Module BillingEvent.
Inductive t : Type :=
| APP_INSTALLS | IMPRESSIONS | LINK_CLICKS | OFFER_CLAIMS | PAGE_LIKES
| POST_ENGAGEMENT | THRUPLAY | PURCHASE | LISTING_INTERACTION.

Definition to_string (b : t) : string :=
  match b with
  | APP_INSTALLS => "APP_INSTALLS"
  | IMPRESSIONS => "IMPRESSIONS"
  | LINK_CLICKS => "LINK_CLICKS"
  | OFFER_CLAIMS => "OFFER_CLAIMS"
  | PAGE_LIKES => "PAGE_LIKES"
  | POST_ENGAGEMENT => "POST_ENGAGEMENT"
  | THRUPLAY => "THRUPLAY"
  | PURCHASE => "PURCHASE"
  | LISTING_INTERACTION => "LISTING_INTERACTION"
  end.
End BillingEvent.

Module OptimizationGoal.
Inductive t : Type :=
| NONE | APP_INSTALLS | AD_RECALL_LIFT | ENGAGED_USERS | EVENT_RESPONSES
| IMPRESSIONS | LEAD_GENERATION | QUALITY_LEAD | LINK_CLICKS
| OFFSITE_CONVERSIONS | PAGE_LIKES | POST_ENGAGEMENT | QUALITY_CALL | REACH
| LANDING_PAGE_VIEWS | VISIT_INSTAGRAM_PROFILE | VALUE | THRUPLAY
| DERIVED_EVENTS | APP_INSTALLS_AND_OFFSITE_CONVERSIONS | CONVERSATIONS
| IN_APP_VALUE | MESSAGING_PURCHASE_CONVERSION
| MESSAGING_APPOINTMENT_CONVERSION.

Definition to_string (g : t) : string :=
  match g with
  | NONE => "NONE"
  | APP_INSTALLS => "APP_INSTALLS"
  | AD_RECALL_LIFT => "AD_RECALL_LIFT"
  | ENGAGED_USERS => "ENGAGED_USERS"
  | EVENT_RESPONSES => "EVENT_RESPONSES"
  | IMPRESSIONS => "IMPRESSIONS"
  | LEAD_GENERATION => "LEAD_GENERATION"
  | QUALITY_LEAD => "QUALITY_LEAD"
  | LINK_CLICKS => "LINK_CLICKS"
  | OFFSITE_CONVERSIONS => "OFFSITE_CONVERSIONS"
  | PAGE_LIKES => "PAGE_LIKES"
  | POST_ENGAGEMENT => "POST_ENGAGEMENT"
  | QUALITY_CALL => "QUALITY_CALL"
  | REACH => "REACH"
  | LANDING_PAGE_VIEWS => "LANDING_PAGE_VIEWS"
  | VISIT_INSTAGRAM_PROFILE => "VISIT_INSTAGRAM_PROFILE"
  | VALUE => "VALUE"
  | THRUPLAY => "THRUPLAY"
  | DERIVED_EVENTS => "DERIVED_EVENTS"
  | APP_INSTALLS_AND_OFFSITE_CONVERSIONS => "APP_INSTALLS_AND_OFFSITE_CONVERSIONS"
  | CONVERSATIONS => "CONVERSATIONS"
  | IN_APP_VALUE => "IN_APP_VALUE"
  | MESSAGING_PURCHASE_CONVERSION => "MESSAGING_PURCHASE_CONVERSION"
  | MESSAGING_APPOINTMENT_CONVERSION => "MESSAGING_APPOINTMENT_CONVERSION"
  end.
End OptimizationGoal.

(** Structured values the client passes through [JSON.stringify] or hands
    back as received: plain data. *)
Definition PromotedObject : Type := Json.
Definition Targeting : Type := Json.
Definition AdCreativeInput : Type := Json.
Definition TrackingSpec : Type := Json.
Definition Entity : Type := Json.

(** The properties of [PaginationParams] and of the types the list methods
    intersect it with; a method reads those its own parameter type declares. *)
Record ListParams : Type := {
  limit : option number;
  after : option string;
  before : option string;
  fields : option string;
  effectiveStatus : option (list string);
  campaignId : option string;
  adSetId : option string;
  hashes : option (list string)
}.

Record PaginatedResponse (T : Type) : Type := {
  data : list T;
  paging : option Json
}.

Record CampaignCreateInput : Type := {
  cc_name : string;
  cc_objective : CampaignObjective;
  cc_status : option CampaignStatus;
  cc_special_ad_categories : option (list SpecialAdCategory);
  cc_daily_budget : option number;
  cc_lifetime_budget : option number;
  cc_bid_strategy : option BidStrategy;
  cc_spend_cap : option number;
  cc_buying_type : option BuyingType;
  cc_start_time : option string;
  cc_stop_time : option string;
  cc_promoted_object : option PromotedObject
}.

Record CampaignUpdateInput : Type := {
  cu_name : option string;
  cu_status : option CampaignStatus;
  cu_daily_budget : option number;
  cu_lifetime_budget : option number;
  cu_bid_strategy : option BidStrategy;
  cu_spend_cap : option number;
  cu_start_time : option string;
  cu_stop_time : option string
}.

Record AdSetUpdateInput : Type := {
  su_name : option string;
  su_status : option AdSetStatus;
  su_targeting : option Targeting;
  su_bid_amount : option number;
  su_bid_strategy : option BidStrategy;
  su_daily_budget : option number;
  su_lifetime_budget : option number;
  su_start_time : option string;
  su_end_time : option string;
  su_optimization_goal : option OptimizationGoal.t;
  su_billing_event : option BillingEvent.t
}.

Record AdUpdateInput : Type := {
  au_name : option string;
  au_status : option AdStatus;
  au_creative : option AdCreativeInput;
  au_tracking_specs : option (list TrackingSpec)
}.

Record CustomAudienceUpdateInput : Type := {
  xu_name : option string;
  xu_description : option string;
  xu_opt_out_link : option string
}.

(** The body of a create response, [{ id: string }]. *)
Record Created : Type := {
  id : string
}.

(** The body of an image upload response: the entries of its [images]
    object, in the order [Object.values] lists them; none when the body has
    no such property or holds [null] there. *)
Record Uploaded : Type := {
  images : option (list (string * Entity))
}.

(** More structured values that are only serialised. *)
Definition AttributionSpec : Type := Json.
Definition ConversionSpec : Type := Json.
Definition ObjectStorySpec : Type := Json.
Definition AssetFeedSpec : Type := Json.
Definition DegreesOfFreedomSpec : Type := Json.
Definition LookalikeSpecInput : Type := Json.
Definition InsightsFilter : Type := Json.

Record AdSetCreateInput : Type := {
  sc_campaign_id : string;
  sc_name : string;
  sc_billing_event : BillingEvent.t;
  sc_optimization_goal : OptimizationGoal.t;
  sc_status : option AdSetStatus;
  sc_targeting : Targeting;
  sc_bid_amount : option number;
  sc_bid_strategy : option BidStrategy;
  sc_daily_budget : option number;
  sc_lifetime_budget : option number;
  sc_start_time : option string;
  sc_end_time : option string;
  sc_promoted_object : option PromotedObject;
  sc_destination_type : option string;
  sc_attribution_spec : option (list AttributionSpec);
  sc_is_dynamic_creative : option bool;
  sc_pacing_type : option (list string)
}.

Record AdCreateInput : Type := {
  ac_adset_id : string;
  ac_name : string;
  ac_creative : AdCreativeInput;
  ac_status : option AdStatus;
  ac_tracking_specs : option (list TrackingSpec);
  ac_conversion_specs : option (list ConversionSpec)
}.

(** [AdCreativeInput] where [createAdCreative] reads its properties. *)
Record AdCreativeFields : Type := {
  cr_name : option string;
  cr_object_story_spec : option ObjectStorySpec;
  cr_asset_feed_spec : option AssetFeedSpec;
  cr_degrees_of_freedom_spec : option DegreesOfFreedomSpec;
  cr_url_tags : option string;
  cr_use_page_actor_override : option bool;
  cr_authorization_category : option string
}.

(** [subtype] and [customer_file_source] are unions of string literals:
    strings at run time. *)
Record CustomAudienceCreateInput : Type := {
  xc_name : string;
  xc_subtype : string;
  xc_description : option string;
  xc_customer_file_source : option string;
  xc_pixel_id : option string;
  xc_rule : option string;
  xc_prefill : option bool;
  xc_retention_days : option number;
  xc_lookalike_spec : option LookalikeSpecInput
}.

Record PixelCreateInput : Type := {
  px_name : string
}.

(** [{ since: string; until: string }] *)
Record TimeRange : Type := {
  since : string;
  until : string
}.

(** [InsightsParams]; the presets, levels, fields, breakdowns and windows
    are unions of string literals: strings at run time. *)
Record InsightsParams : Type := {
  in_date_preset : option string;
  in_time_range : option TimeRange;
  in_time_increment : option (string + number);
  in_level : option string;
  in_fields : option (list string);
  in_breakdowns : option (list string);
  in_action_breakdowns : option (list string);
  in_action_attribution_windows : option (list string);
  in_filtering : option (list InsightsFilter);
  in_sort : option (list string);
  in_limit : option number
}.

(** The body of [GET /me?fields=id,name]. *)
Record Me : Type := {
  me_id : string;
  me_name : string
}.

(** The result of [testConnection]. *)
Record ConnectionResult : Type := {
  connected : bool;
  connection_message : string;
  user : option Me
}.

End Entities.

(* ------------------------------------------------------------------------- *)
(** * The API client ([src/client.ts]) *)
(* ------------------------------------------------------------------------- *)

Module Client.

Import Js Errors Env Http Async Entities.
Local Open Scope io_scope.

Definition META_API_BASE_URL : string := "https://graph.facebook.com".
Definition DEFAULT_API_VERSION : string := "v21.0".

Definition DEFAULT_AD_ACCOUNT_FIELDS : string :=
  join "," ["id"; "account_id"; "name"; "account_status"; "amount_spent";
            "balance"; "business"; "currency"; "timezone_name"; "created_time"].

Definition DEFAULT_CAMPAIGN_FIELDS : string :=
  join "," ["id"; "account_id"; "name"; "objective"; "status";
            "effective_status"; "buying_type"; "daily_budget";
            "lifetime_budget"; "budget_remaining"; "bid_strategy";
            "special_ad_categories"; "start_time"; "stop_time";
            "created_time"; "updated_time"].

Definition DEFAULT_ADSET_FIELDS : string :=
  join "," ["id"; "account_id"; "campaign_id"; "name"; "status";
            "effective_status"; "billing_event"; "optimization_goal";
            "bid_amount"; "bid_strategy"; "daily_budget"; "lifetime_budget";
            "budget_remaining"; "start_time"; "end_time"; "targeting";
            "promoted_object"; "created_time"; "updated_time"].

Definition DEFAULT_AD_FIELDS : string :=
  join "," ["id"; "account_id"; "adset_id"; "campaign_id"; "name"; "status";
            "effective_status"; "creative"; "created_time"; "updated_time"].

Definition DEFAULT_CREATIVE_FIELDS : string :=
  join "," ["id"; "account_id"; "name"; "title"; "body";
            "call_to_action_type"; "image_hash"; "image_url"; "video_id";
            "thumbnail_url"; "object_story_spec"; "object_type"; "status";
            "created_time"].

Definition DEFAULT_AUDIENCE_FIELDS : string :=
  join "," ["id"; "account_id"; "name"; "description"; "subtype";
            "approximate_count_lower_bound"; "approximate_count_upper_bound";
            "data_source"; "delivery_status"; "operation_status";
            "retention_days"; "time_created"; "time_updated"].

Definition DEFAULT_PIXEL_FIELDS : string :=
  join "," ["id"; "name"; "code"; "creation_time"; "creator";
            "data_use_setting"; "enable_automatic_matching";
            "last_fired_time"; "owner_business"; "owner_ad_account"].

Definition DEFAULT_CATALOG_FIELDS : string :=
  join "," ["id"; "name"; "business"; "feed_count"; "product_count"; "vertical"].

(** An instance of the class [MetaAdsClientImpl]. *)
Record MetaAdsClientImpl : Type := {
  credentials : TenantCredentials;
  baseUrl : string;
  apiVersion : string
}.

(** [new MetaAdsClientImpl(credentials)] *)
Definition newMetaAdsClientImpl (credentials : TenantCredentials) : MetaAdsClientImpl :=
  {| credentials := credentials;
     baseUrl := META_API_BASE_URL;
     apiVersion := or_default truthy_string (Env.apiVersion credentials) DEFAULT_API_VERSION |}.

(** [createMetaAdsClient(credentials)] *)
Definition createMetaAdsClient (credentials : TenantCredentials)
  : Thrown + MetaAdsClientImpl :=
  if negb (truthy_string (accessToken credentials)) then
    inl (ApiError (newAuthenticationError "Access token is required" None None))
  else inr (newMetaAdsClientImpl credentials).

(** ** The request helpers *)

(** [this.getAuthParams()] *)
Definition getAuthParams (this : MetaAdsClientImpl) : Entries :=
  [("access_token", accessToken (credentials this))].

(** A value of a [params] record:
    [string | string[] | number | boolean | undefined]. *)
Inductive ParamValue : Type :=
| PUndefined
| PString (s : string)
| PNumber (n : number)
| PBoolean (b : bool)
| PArray (a : list string).

(** [Object.entries(params)]: the own properties, in order. *)
Definition Params : Type := list (string * ParamValue).

(** The body of the loop over [Object.entries(params)] in [request]. *)
Definition addParam (searchParams : Entries) (entry : string * ParamValue) : Entries :=
  let '(key, value) := entry in
  match value with
  | PUndefined => searchParams
  | PArray a => set key (stringify_strings a) searchParams
  | PString s => set key s searchParams
  | PNumber n => set key (ToString n) searchParams
  | PBoolean b => set key (ToString_boolean b) searchParams
  end.

(** The value of [searchParams] in [request] when the URL is built. *)
Definition requestSearchParams (this : MetaAdsClientImpl) (params : option Params)
  : Entries :=
  match params with
  | Some entries => fold_left addParam entries (getAuthParams this)
  | None => getAuthParams this
  end.

(** [{ 'Content-Type': 'application/json', ...(options.headers || {}) }] *)
Definition requestHeaders (options : RequestInit) : list (string * string) :=
  fold_left (fun h kv => set (fst kv) (snd kv) h) (headers options)
    [("Content-Type", "application/json")].

(** [throw parseMetaApiError(errorBody as Record<string, unknown>,
    response.status)]: the cast checks nothing, and the first statement of
    the classifier reads [errorBody.error], which throws a [TypeError] when
    the body is [null]. *)
Definition errorOfNull : Thrown :=
  PlainError "TypeError" "Cannot read properties of null (reading 'error')".

Definition throwParsed (errorBody : Parsed ErrorBody) (status : Z) : Thrown :=
  match errorBody with
  | Value b => ApiError (parseMetaApiError b status)
  | Null => errorOfNull
  end.

(** What [request] does with the response of [fetch]. *)
Definition handleResponse {T : Type} (response : Response T) : IO (option T) :=
  (* Handle rate limiting *)
  if status response =? 429 then
    let retryAfter := header_Retry_After response in
    Throw (ApiError (newRateLimitError "Rate limit exceeded"
      (match retryAfter with
       | Some h => if truthy_string h then parseInt10 h else Num 60
       | None => Num 60
       end) None))
  (* Handle errors *)
  else if negb (ok response) then
    let errorBody :=
      match json_error response with
      | Fulfilled b => b
      | Rejected _ => Value emptyBody
      end in
    Throw (throwParsed errorBody (status response))
  (* Handle 204 No Content *)
  else if status response =? 204 then
    Ret None
  else
    match json response with
    | Fulfilled v => Ret (Some v)
    | Rejected reason => Throw reason
    end.

(** [this.request<T>(endpoint, options, params)]; the result is [None] for
    [undefined]. *)
Definition request (T : Type) (this : MetaAdsClientImpl) (endpoint : string)
    (options : RequestInit) (params : option Params) : IO (option T) :=
  let searchParams := requestSearchParams this params in
  let url := baseUrl this ++ "/" ++ apiVersion this ++ endpoint ++ "?"
             ++ toString searchParams in
  Fetch T {| url := url;
             init := {| method := method options;
                        headers := requestHeaders options;
                        body := body options |} |}
    (fun settled =>
       match settled with
       | Fulfilled response => handleResponse response
       | Rejected reason => Throw reason
       end).

(** What [postForm] does with the response of [fetch]. *)
Definition handleFormResponse {T : Type} (response : Response T) : IO T :=
  if negb (ok response) then
    let errorBody :=
      match json_error response with
      | Fulfilled b => b
      | Rejected _ => Value emptyBody
      end in
    Throw (throwParsed errorBody (status response))
  else
    match json response with
    | Fulfilled v => Ret v
    | Rejected reason => Throw reason
    end.

(** [this.postForm<T>(endpoint, formData)] *)
Definition postForm (T : Type) (this : MetaAdsClientImpl) (endpoint : string)
    (formData : Entries) : IO T :=
  let formData := append "access_token" (accessToken (credentials this)) formData in
  let url := baseUrl this ++ "/" ++ apiVersion this ++ endpoint in
  Fetch T {| url := url;
             init := {| method := Some "POST"; headers := []; body := Some formData |} |}
    (fun settled =>
       match settled with
       | Fulfilled response => handleFormResponse response
       | Rejected reason => Throw reason
       end).

(** ** Parameter shaping *)

(** [accountId.startsWith('act_') ? accountId : `act_${accountId}`], the
    first statement of every method that takes an account id. *)
Definition normalizeAccountId (accountId : string) : string :=
  if startsWith accountId "act_" then accountId else "act_" ++ accountId.

(** [params?.x] *)
Definition opt {A : Type} (params : option ListParams) (x : ListParams -> option A)
  : option A :=
  match params with
  | Some p => x p
  | None => None
  end.

(** A property holding an optional string, number or string array. *)
Definition ofString (v : option string) : ParamValue :=
  match v with Some s => PString s | None => PUndefined end.

Definition ofArray (v : option (list string)) : ParamValue :=
  match v with Some a => PArray a | None => PUndefined end.

(** [if (v) params.key = conv(v)]: the property is added when [v] is truthy. *)
Definition assignIfTruthy {A : Type} (truthy : A -> bool) (key : string)
    (v : option A) (conv : A -> ParamValue) : Params :=
  match v with
  | Some a => if truthy a then [(key, conv a)] else []
  | None => []
  end.

(** [if (v !== undefined) params.key = conv(v)] *)
Definition assignIfDefined {A : Type} (key : string) (v : option A)
    (conv : A -> ParamValue) : Params :=
  match v with
  | Some a => [(key, conv a)]
  | None => []
  end.

(** An object or an array is always truthy; so is a non-empty literal. *)
Definition always {A : Type} (_ : A) : bool := true.

(** [JSON.stringify] of an array of plain values. *)
Definition stringifyList (l : list Json) : ParamValue := PString (stringify (JArray l)).

(** ** Ad accounts *)

Definition Page : Type := PaginatedResponse Entity.

(** [params?.limit || 25] *)
Definition limitOr25 (params : option ListParams) : ParamValue :=
  PNumber (or_default truthy_number (opt params limit) (Num 25)).

(** [params?.fields || d] *)
Definition fieldsOr (params : option ListParams) (d : string) : ParamValue :=
  PString (or_default truthy_string (opt params fields) d).

Definition listAdAccounts (this : MetaAdsClientImpl) (params : option ListParams)
  : IO (option Page) :=
  request Page this "/me/adaccounts" noOptions (Some
    [("fields", fieldsOr params DEFAULT_AD_ACCOUNT_FIELDS);
     ("limit", limitOr25 params);
     ("after", ofString (opt params after));
     ("before", ofString (opt params before))]).

Definition getAdAccount (this : MetaAdsClientImpl) (accountId : string)
    (fields : option string) : IO (option Entity) :=
  let id := normalizeAccountId accountId in
  request Entity this ("/" ++ id) noOptions (Some
    [("fields", PString (or_default truthy_string fields DEFAULT_AD_ACCOUNT_FIELDS))]).

(** ** Campaigns *)

Definition listCampaigns (this : MetaAdsClientImpl) (accountId : string)
    (params : option ListParams) : IO (option Page) :=
  let id := normalizeAccountId accountId in
  request Page this ("/" ++ id ++ "/campaigns") noOptions (Some
    [("fields", fieldsOr params DEFAULT_CAMPAIGN_FIELDS);
     ("limit", limitOr25 params);
     ("after", ofString (opt params after));
     ("before", ofString (opt params before));
     ("effective_status", ofArray (opt params effectiveStatus))]).

Definition getCampaign (this : MetaAdsClientImpl) (campaignId : string)
    (fields : option string) : IO (option Entity) :=
  request Entity this ("/" ++ campaignId) noOptions (Some
    [("fields", PString (or_default truthy_string fields DEFAULT_CAMPAIGN_FIELDS))]).

(** The value of [params] in [createCampaign] when [request] is called. *)
Definition createCampaignParams (input : CampaignCreateInput) : Params :=
  ([("name", PString (cc_name input));
    ("objective", PString (CampaignObjective_string (cc_objective input)));
    ("status", PString (or_default truthy_string
                          (option_map Status_string (cc_status input)) "PAUSED"));
    ("special_ad_categories",
       PArray (or_default always
                 (option_map (map SpecialAdCategory_string)
                    (cc_special_ad_categories input)) ["NONE"]))]
   ++ assignIfTruthy truthy_number "daily_budget" (cc_daily_budget input) PNumber
   ++ assignIfTruthy truthy_number "lifetime_budget" (cc_lifetime_budget input) PNumber
   ++ assignIfTruthy truthy_string "bid_strategy"
        (option_map BidStrategy_string (cc_bid_strategy input)) PString
   ++ assignIfTruthy truthy_number "spend_cap" (cc_spend_cap input) PNumber
   ++ assignIfTruthy truthy_string "buying_type"
        (option_map BuyingType_string (cc_buying_type input)) PString
   ++ assignIfTruthy truthy_string "start_time" (cc_start_time input) PString
   ++ assignIfTruthy truthy_string "stop_time" (cc_stop_time input) PString
   ++ assignIfTruthy always "promoted_object" (cc_promoted_object input)
        (fun o => PString (stringify o)))%list.

(** Reading [result.id] of an [undefined] result. *)
Definition idOfUndefined : Thrown :=
  PlainError "TypeError" "Cannot read properties of undefined (reading 'id')".

Definition createCampaign (this : MetaAdsClientImpl) (accountId : string)
    (input : CampaignCreateInput) : IO (option Entity) :=
  let id := normalizeAccountId accountId in
  result <- request Created this ("/" ++ id ++ "/campaigns") (withMethod "POST")
              (Some (createCampaignParams input)) ;;
  match result with
  | Some r => getCampaign this (Entities.id r) None
  | None => Throw idOfUndefined
  end.

(** The value of [params] in [updateCampaign] when [request] is called. *)
Definition updateCampaignParams (input : CampaignUpdateInput) : Params :=
  (assignIfDefined "name" (cu_name input) PString
   ++ assignIfDefined "status" (cu_status input) (fun v => PString (Status_string v))
   ++ assignIfDefined "daily_budget" (cu_daily_budget input) PNumber
   ++ assignIfDefined "lifetime_budget" (cu_lifetime_budget input) PNumber
   ++ assignIfDefined "bid_strategy" (cu_bid_strategy input)
        (fun v => PString (BidStrategy_string v))
   ++ assignIfDefined "spend_cap" (cu_spend_cap input) PNumber
   ++ assignIfDefined "start_time" (cu_start_time input) PString
   ++ assignIfDefined "stop_time" (cu_stop_time input) PString)%list.

Definition updateCampaign (this : MetaAdsClientImpl) (campaignId : string)
    (input : CampaignUpdateInput) : IO (option Entity) :=
  _ <- request Entity this ("/" ++ campaignId) (withMethod "POST")
         (Some (updateCampaignParams input)) ;;
  getCampaign this campaignId None.

(** ** Ad sets *)

(** [JSON.stringify([{ field, operator: 'EQUAL', value }])] *)
Definition equalFilter (field value : string) : string :=
  stringify (JArray [JObject [("field", JString field);
                              ("operator", JString "EQUAL");
                              ("value", JString value)]]).

Definition listAdSets (this : MetaAdsClientImpl) (accountId : string)
    (params : option ListParams) : IO (option Page) :=
  let id := normalizeAccountId accountId in
  let queryParams : Params :=
    ([("fields", fieldsOr params DEFAULT_ADSET_FIELDS);
      ("limit", limitOr25 params);
      ("after", ofString (opt params after));
      ("before", ofString (opt params before));
      ("effective_status", ofArray (opt params effectiveStatus))]
     (* Filter by campaign if specified *)
     ++ assignIfTruthy truthy_string "filtering" (opt params campaignId)
          (fun c => PString (equalFilter "campaign.id" c)))%list in
  request Page this ("/" ++ id ++ "/adsets") noOptions (Some queryParams).

Definition getAdSet (this : MetaAdsClientImpl) (adSetId : string)
    (fields : option string) : IO (option Entity) :=
  request Entity this ("/" ++ adSetId) noOptions (Some
    [("fields", PString (or_default truthy_string fields DEFAULT_ADSET_FIELDS))]).

(** The value of [params] in [updateAdSet] when [request] is called. *)
Definition updateAdSetParams (input : AdSetUpdateInput) : Params :=
  (assignIfDefined "name" (su_name input) PString
   ++ assignIfDefined "status" (su_status input) (fun v => PString (Status_string v))
   ++ assignIfDefined "targeting" (su_targeting input) (fun v => PString (stringify v))
   ++ assignIfDefined "bid_amount" (su_bid_amount input) PNumber
   ++ assignIfDefined "bid_strategy" (su_bid_strategy input)
        (fun v => PString (BidStrategy_string v))
   ++ assignIfDefined "daily_budget" (su_daily_budget input) PNumber
   ++ assignIfDefined "lifetime_budget" (su_lifetime_budget input) PNumber
   ++ assignIfDefined "start_time" (su_start_time input) PString
   ++ assignIfDefined "end_time" (su_end_time input) PString
   ++ assignIfDefined "optimization_goal" (su_optimization_goal input)
        (fun v => PString (OptimizationGoal.to_string v))
   ++ assignIfDefined "billing_event" (su_billing_event input)
        (fun v => PString (BillingEvent.to_string v)))%list.

Definition updateAdSet (this : MetaAdsClientImpl) (adSetId : string)
    (input : AdSetUpdateInput) : IO (option Entity) :=
  _ <- request Entity this ("/" ++ adSetId) (withMethod "POST")
         (Some (updateAdSetParams input)) ;;
  getAdSet this adSetId None.

(** ** Ads *)

Definition listAds (this : MetaAdsClientImpl) (accountId : string)
    (params : option ListParams) : IO (option Page) :=
  let id := normalizeAccountId accountId in
  let queryParams : Params :=
    ([("fields", fieldsOr params DEFAULT_AD_FIELDS);
      ("limit", limitOr25 params);
      ("after", ofString (opt params after));
      ("before", ofString (opt params before));
      ("effective_status", ofArray (opt params effectiveStatus))]
     ++ assignIfTruthy truthy_string "filtering" (opt params adSetId)
          (fun a => PString (equalFilter "adset.id" a)))%list in
  request Page this ("/" ++ id ++ "/ads") noOptions (Some queryParams).

Definition getAd (this : MetaAdsClientImpl) (adId : string)
    (fields : option string) : IO (option Entity) :=
  request Entity this ("/" ++ adId) noOptions (Some
    [("fields", PString (or_default truthy_string fields DEFAULT_AD_FIELDS))]).

(** The value of [params] in [updateAd] when [request] is called. *)
Definition updateAdParams (input : AdUpdateInput) : Params :=
  (assignIfDefined "name" (au_name input) PString
   ++ assignIfDefined "status" (au_status input) (fun v => PString (Status_string v))
   ++ assignIfDefined "creative" (au_creative input) (fun v => PString (stringify v))
   ++ assignIfDefined "tracking_specs" (au_tracking_specs input) stringifyList)%list.

Definition updateAd (this : MetaAdsClientImpl) (adId : string)
    (input : AdUpdateInput) : IO (option Entity) :=
  _ <- request Entity this ("/" ++ adId) (withMethod "POST")
         (Some (updateAdParams input)) ;;
  getAd this adId None.

(** ** Creatives, images, videos *)

Definition listAdCreatives (this : MetaAdsClientImpl) (accountId : string)
    (params : option ListParams) : IO (option Page) :=
  let id := normalizeAccountId accountId in
  request Page this ("/" ++ id ++ "/adcreatives") noOptions (Some
    [("fields", fieldsOr params DEFAULT_CREATIVE_FIELDS);
     ("limit", limitOr25 params);
     ("after", ofString (opt params after));
     ("before", ofString (opt params before))]).

Definition listAdImages (this : MetaAdsClientImpl) (accountId : string)
    (params : option ListParams) : IO (option Page) :=
  let id := normalizeAccountId accountId in
  request Page this ("/" ++ id ++ "/adimages") noOptions (Some
    [("fields", PString "id,account_id,hash,name,url,permalink_url,original_height,original_width,status,created_time");
     ("limit", limitOr25 params);
     ("after", ofString (opt params after));
     ("before", ofString (opt params before));
     ("hashes", ofArray (opt params hashes))]).

(** Reading [result.images] of a [null] result, and [Object.values] of a
    missing [images]. *)
Definition imagesOfNull : Thrown :=
  PlainError "TypeError" "Cannot read properties of null (reading 'images')".

Definition valuesOfUndefined : Thrown :=
  PlainError "TypeError" "Cannot convert undefined or null to object".

Definition uploadAdImage (this : MetaAdsClientImpl) (accountId imageData : string)
    (name : option string) : IO (option Entity) :=
  let id := normalizeAccountId accountId in
  let formData : Entries := append "bytes" imageData [] in
  let formData :=
    match name with
    | Some n => if truthy_string n then append "name" n formData else formData
    | None => formData
    end in
  result <- postForm (Parsed Uploaded) this ("/" ++ id ++ "/adimages") formData ;;
  match result with
  | Value r =>
      match images r with
      | Some images => Ret (hd_error (map snd images))
      | None => Throw valuesOfUndefined
      end
  | Null => Throw imagesOfNull
  end.

Definition listAdVideos (this : MetaAdsClientImpl) (accountId : string)
    (params : option ListParams) : IO (option Page) :=
  let id := normalizeAccountId accountId in
  request Page this ("/" ++ id ++ "/advideos") noOptions (Some
    [("fields", PString "id,title,description,picture,permalink_url,length,status,created_time,updated_time");
     ("limit", limitOr25 params);
     ("after", ofString (opt params after));
     ("before", ofString (opt params before))]).

(** ** Custom audiences *)

Definition listCustomAudiences (this : MetaAdsClientImpl) (accountId : string)
    (params : option ListParams) : IO (option Page) :=
  let id := normalizeAccountId accountId in
  request Page this ("/" ++ id ++ "/customaudiences") noOptions (Some
    [("fields", fieldsOr params DEFAULT_AUDIENCE_FIELDS);
     ("limit", limitOr25 params);
     ("after", ofString (opt params after));
     ("before", ofString (opt params before))]).

Definition getCustomAudience (this : MetaAdsClientImpl) (audienceId : string)
    (fields : option string) : IO (option Entity) :=
  request Entity this ("/" ++ audienceId) noOptions (Some
    [("fields", PString (or_default truthy_string fields DEFAULT_AUDIENCE_FIELDS))]).

(** The value of [params] in [updateCustomAudience] when [request] is called. *)
Definition updateCustomAudienceParams (input : CustomAudienceUpdateInput) : Params :=
  (assignIfDefined "name" (xu_name input) PString
   ++ assignIfDefined "description" (xu_description input) PString
   ++ assignIfDefined "opt_out_link" (xu_opt_out_link input) PString)%list.

Definition updateCustomAudience (this : MetaAdsClientImpl) (audienceId : string)
    (input : CustomAudienceUpdateInput) : IO (option Entity) :=
  _ <- request Entity this ("/" ++ audienceId) (withMethod "POST")
         (Some (updateCustomAudienceParams input)) ;;
  getCustomAudience this audienceId None.

(** ** Pixels, catalogs, businesses *)

Definition listPixels (this : MetaAdsClientImpl) (accountId : string)
    (params : option ListParams) : IO (option Page) :=
  let id := normalizeAccountId accountId in
  request Page this ("/" ++ id ++ "/adspixels") noOptions (Some
    [("fields", fieldsOr params DEFAULT_PIXEL_FIELDS);
     ("limit", limitOr25 params);
     ("after", ofString (opt params after));
     ("before", ofString (opt params before))]).

Definition listProductCatalogs (this : MetaAdsClientImpl) (businessId : string)
    (params : option ListParams) : IO (option Page) :=
  request Page this ("/" ++ businessId ++ "/owned_product_catalogs") noOptions (Some
    [("fields", fieldsOr params DEFAULT_CATALOG_FIELDS);
     ("limit", limitOr25 params);
     ("after", ofString (opt params after));
     ("before", ofString (opt params before))]).

Definition listProductSets (this : MetaAdsClientImpl) (catalogId : string)
    (params : option ListParams) : IO (option Page) :=
  request Page this ("/" ++ catalogId ++ "/product_sets") noOptions (Some
    [("fields", PString "id,name,product_count,filter,retailer_id");
     ("limit", limitOr25 params);
     ("after", ofString (opt params after));
     ("before", ofString (opt params before))]).

Definition getBusinesses (this : MetaAdsClientImpl) (params : option ListParams)
  : IO (option Page) :=
  request Page this "/me/businesses" noOptions (Some
    [("fields", PString "id,name,created_time,link,primary_page,profile_picture_uri,verification_status,vertical");
     ("limit", limitOr25 params);
     ("after", ofString (opt params after));
     ("before", ofString (opt params before))]).

Definition listBusinessAdAccounts (this : MetaAdsClientImpl) (businessId : string)
    (params : option ListParams) : IO (option Page) :=
  request Page this ("/" ++ businessId ++ "/owned_ad_accounts") noOptions (Some
    [("fields", PString DEFAULT_AD_ACCOUNT_FIELDS);
     ("limit", limitOr25 params);
     ("after", ofString (opt params after));
     ("before", ofString (opt params before))]).

(** ** The remaining methods *)

Definition DEFAULT_INSIGHTS_FIELDS : string :=
  join "," ["impressions"; "reach"; "clicks"; "spend"; "cpc"; "cpm"; "ctr";
            "frequency"; "actions"; "conversions"; "cost_per_action_type";
            "date_start"; "date_stop"].

(** Reading a property of an [undefined] result. *)
Definition propertyOfUndefined (property : string) : Thrown :=
  PlainError "TypeError"
    ("Cannot read properties of undefined (reading '" ++ property ++ "')").

Definition testConnection (this : MetaAdsClientImpl) : IO ConnectionResult :=
  catch
    (result <- request Me this "/me" noOptions (Some [("fields", PString "id,name")]) ;;
     Ret {| connected := true;
            connection_message := "Successfully connected to Meta Marketing API";
            user := result |})
    (fun error =>
       Ret {| connected := false;
              connection_message := thrown_message error;
              user := None |}).

Definition deleteCampaign (this : MetaAdsClientImpl) (campaignId : string) : IO unit :=
  _ <- request Entity this ("/" ++ campaignId) (withMethod "DELETE") None ;;
  Ret tt.

(** The value of [params] in [createAdSet] when [request] is called. *)
Definition createAdSetParams (input : AdSetCreateInput) : Params :=
  ([("campaign_id", PString (sc_campaign_id input));
    ("name", PString (sc_name input));
    ("billing_event", PString (BillingEvent.to_string (sc_billing_event input)));
    ("optimization_goal",
       PString (OptimizationGoal.to_string (sc_optimization_goal input)));
    ("status", PString (or_default truthy_string
                          (option_map Status_string (sc_status input)) "PAUSED"));
    ("targeting", PString (stringify (sc_targeting input)))]
   ++ assignIfTruthy truthy_number "bid_amount" (sc_bid_amount input) PNumber
   ++ assignIfTruthy truthy_string "bid_strategy"
        (option_map BidStrategy_string (sc_bid_strategy input)) PString
   ++ assignIfTruthy truthy_number "daily_budget" (sc_daily_budget input) PNumber
   ++ assignIfTruthy truthy_number "lifetime_budget" (sc_lifetime_budget input) PNumber
   ++ assignIfTruthy truthy_string "start_time" (sc_start_time input) PString
   ++ assignIfTruthy truthy_string "end_time" (sc_end_time input) PString
   ++ assignIfTruthy always "promoted_object" (sc_promoted_object input)
        (fun o => PString (stringify o))
   ++ assignIfTruthy truthy_string "destination_type" (sc_destination_type input) PString
   ++ assignIfTruthy always "attribution_spec" (sc_attribution_spec input) stringifyList
   ++ assignIfDefined "is_dynamic_creative" (sc_is_dynamic_creative input) PBoolean
   ++ assignIfTruthy always "pacing_type" (sc_pacing_type input)
        (fun a => PString (stringify_strings a)))%list.

Definition createAdSet (this : MetaAdsClientImpl) (accountId : string)
    (input : AdSetCreateInput) : IO (option Entity) :=
  let id := normalizeAccountId accountId in
  result <- request Created this ("/" ++ id ++ "/adsets") (withMethod "POST")
              (Some (createAdSetParams input)) ;;
  match result with
  | Some r => getAdSet this (Entities.id r) None
  | None => Throw idOfUndefined
  end.

Definition deleteAdSet (this : MetaAdsClientImpl) (adSetId : string) : IO unit :=
  _ <- request Entity this ("/" ++ adSetId) (withMethod "DELETE") None ;;
  Ret tt.

(** The value of [params] in [createAd] when [request] is called. *)
Definition createAdParams (input : AdCreateInput) : Params :=
  ([("adset_id", PString (ac_adset_id input));
    ("name", PString (ac_name input));
    ("creative", PString (stringify (ac_creative input)));
    ("status", PString (or_default truthy_string
                          (option_map Status_string (ac_status input)) "PAUSED"))]
   ++ assignIfTruthy always "tracking_specs" (ac_tracking_specs input) stringifyList
   ++ assignIfTruthy always "conversion_specs" (ac_conversion_specs input) stringifyList)%list.

Definition createAd (this : MetaAdsClientImpl) (accountId : string)
    (input : AdCreateInput) : IO (option Entity) :=
  let id := normalizeAccountId accountId in
  result <- request Created this ("/" ++ id ++ "/ads") (withMethod "POST")
              (Some (createAdParams input)) ;;
  match result with
  | Some r => getAd this (Entities.id r) None
  | None => Throw idOfUndefined
  end.

Definition deleteAd (this : MetaAdsClientImpl) (adId : string) : IO unit :=
  _ <- request Entity this ("/" ++ adId) (withMethod "DELETE") None ;;
  Ret tt.

Definition getAdCreative (this : MetaAdsClientImpl) (creativeId : string)
    (fields : option string) : IO (option Entity) :=
  request Entity this ("/" ++ creativeId) noOptions (Some
    [("fields", PString (or_default truthy_string fields DEFAULT_CREATIVE_FIELDS))]).

(** The value of [params] in [createAdCreative] when [request] is called. *)
Definition createAdCreativeParams (input : AdCreativeFields) : Params :=
  (assignIfTruthy truthy_string "name" (cr_name input) PString
   ++ assignIfTruthy always "object_story_spec" (cr_object_story_spec input)
        (fun o => PString (stringify o))
   ++ assignIfTruthy always "asset_feed_spec" (cr_asset_feed_spec input)
        (fun o => PString (stringify o))
   ++ assignIfTruthy always "degrees_of_freedom_spec" (cr_degrees_of_freedom_spec input)
        (fun o => PString (stringify o))
   ++ assignIfTruthy truthy_string "url_tags" (cr_url_tags input) PString
   ++ assignIfDefined "use_page_actor_override" (cr_use_page_actor_override input)
        PBoolean
   ++ assignIfTruthy truthy_string "authorization_category"
        (cr_authorization_category input) PString)%list.

Definition createAdCreative (this : MetaAdsClientImpl) (accountId : string)
    (input : AdCreativeFields) : IO (option Entity) :=
  let id := normalizeAccountId accountId in
  result <- request Created this ("/" ++ id ++ "/adcreatives") (withMethod "POST")
              (Some (createAdCreativeParams input)) ;;
  match result with
  | Some r => getAdCreative this (Entities.id r) None
  | None => Throw idOfUndefined
  end.

Definition getAdVideo (this : MetaAdsClientImpl) (videoId : string)
  : IO (option Entity) :=
  request Entity this ("/" ++ videoId) noOptions (Some
    [("fields", PString "id,title,description,picture,permalink_url,length,status,created_time,updated_time")]).

(** [this.buildInsightsParams(params)] *)
Definition buildInsightsParams (params : option InsightsParams) : Params :=
  let p {A : Type} (x : InsightsParams -> option A) : option A :=
    match params with Some v => x v | None => None end in
  ([("fields", PString (or_default truthy_string
                          (option_map (join ",") (p in_fields))
                          DEFAULT_INSIGHTS_FIELDS))]
   ++ assignIfTruthy truthy_string "date_preset" (p in_date_preset) PString
   ++ assignIfTruthy always "time_range" (p in_time_range)
        (fun r => PString (stringify (JObject [("since", JString (since r));
                                               ("until", JString (until r))])))
   ++ assignIfTruthy
        (fun v => match v with inl s => truthy_string s | inr n => truthy_number n end)
        "time_increment" (p in_time_increment)
        (fun v => PString (match v with inl s => s | inr n => ToString n end))
   ++ assignIfTruthy truthy_string "level" (p in_level) PString
   ++ assignIfTruthy always "breakdowns" (p in_breakdowns)
        (fun a => PString (join "," a))
   ++ assignIfTruthy always "action_breakdowns" (p in_action_breakdowns)
        (fun a => PString (join "," a))
   ++ assignIfTruthy always "action_attribution_windows"
        (p in_action_attribution_windows) (fun a => PString (stringify_strings a))
   ++ assignIfTruthy always "filtering" (p in_filtering) stringifyList
   ++ assignIfTruthy always "sort" (p in_sort) (fun a => PString (join "," a))
   ++ assignIfTruthy truthy_number "limit" (p in_limit) PNumber)%list.

(** [result.data] of the page an insights call returns. *)
Definition dataOf (result : option Page) : IO (list Entity) :=
  match result with
  | Some r => Ret (data r)
  | None => Throw (propertyOfUndefined "data")
  end.

Definition getAccountInsights (this : MetaAdsClientImpl) (accountId : string)
    (params : option InsightsParams) : IO (list Entity) :=
  let id := normalizeAccountId accountId in
  result <- request Page this ("/" ++ id ++ "/insights") noOptions
              (Some (buildInsightsParams params)) ;;
  dataOf result.

Definition getCampaignInsights (this : MetaAdsClientImpl) (campaignId : string)
    (params : option InsightsParams) : IO (list Entity) :=
  result <- request Page this ("/" ++ campaignId ++ "/insights") noOptions
              (Some (buildInsightsParams params)) ;;
  dataOf result.

Definition getAdSetInsights (this : MetaAdsClientImpl) (adSetId : string)
    (params : option InsightsParams) : IO (list Entity) :=
  result <- request Page this ("/" ++ adSetId ++ "/insights") noOptions
              (Some (buildInsightsParams params)) ;;
  dataOf result.

Definition getAdInsights (this : MetaAdsClientImpl) (adId : string)
    (params : option InsightsParams) : IO (list Entity) :=
  result <- request Page this ("/" ++ adId ++ "/insights") noOptions
              (Some (buildInsightsParams params)) ;;
  dataOf result.

(** The value of [params] in [createCustomAudience] when [request] is called. *)
Definition createCustomAudienceParams (input : CustomAudienceCreateInput) : Params :=
  ([("name", PString (xc_name input));
    ("subtype", PString (xc_subtype input))]
   ++ assignIfTruthy truthy_string "description" (xc_description input) PString
   ++ assignIfTruthy truthy_string "customer_file_source"
        (xc_customer_file_source input) PString
   ++ assignIfTruthy truthy_string "pixel_id" (xc_pixel_id input) PString
   ++ assignIfTruthy truthy_string "rule" (xc_rule input) PString
   ++ assignIfDefined "prefill" (xc_prefill input) PBoolean
   ++ assignIfTruthy truthy_number "retention_days" (xc_retention_days input) PNumber
   ++ assignIfTruthy always "lookalike_spec" (xc_lookalike_spec input)
        (fun o => PString (stringify o)))%list.

Definition createCustomAudience (this : MetaAdsClientImpl) (accountId : string)
    (input : CustomAudienceCreateInput) : IO (option Entity) :=
  let id := normalizeAccountId accountId in
  result <- request Created this ("/" ++ id ++ "/customaudiences") (withMethod "POST")
              (Some (createCustomAudienceParams input)) ;;
  match result with
  | Some r => getCustomAudience this (Entities.id r) None
  | None => Throw idOfUndefined
  end.

Definition deleteCustomAudience (this : MetaAdsClientImpl) (audienceId : string)
  : IO unit :=
  _ <- request Entity this ("/" ++ audienceId) (withMethod "DELETE") None ;;
  Ret tt.

(** [JSON.stringify({ schema, data })] *)
Definition usersPayload (schema : list string) (data : list (list string)) : string :=
  stringify (JObject [("schema", JArray (map JString schema));
                      ("data", JArray (map (fun row => JArray (map JString row)) data))]).

Definition addUsersToAudience (this : MetaAdsClientImpl) (audienceId : string)
    (schema : list string) (data : list (list string)) : IO (option Entity) :=
  request Entity this ("/" ++ audienceId ++ "/users") (withMethod "POST")
    (Some [("payload", PString (usersPayload schema data))]).

Definition removeUsersFromAudience (this : MetaAdsClientImpl) (audienceId : string)
    (schema : list string) (data : list (list string)) : IO (option Entity) :=
  request Entity this ("/" ++ audienceId ++ "/users") (withMethod "DELETE")
    (Some [("payload", PString (usersPayload schema data))]).

Definition getPixel (this : MetaAdsClientImpl) (pixelId : string)
    (fields : option string) : IO (option Entity) :=
  request Entity this ("/" ++ pixelId) noOptions (Some
    [("fields", PString (or_default truthy_string fields DEFAULT_PIXEL_FIELDS))]).

Definition createPixel (this : MetaAdsClientImpl) (accountId : string)
    (input : PixelCreateInput) : IO (option Entity) :=
  let id := normalizeAccountId accountId in
  result <- request Created this ("/" ++ id ++ "/adspixels") (withMethod "POST")
              (Some [("name", PString (px_name input))]) ;;
  match result with
  | Some r => getPixel this (Entities.id r) None
  | None => Throw idOfUndefined
  end.

Definition getProductCatalog (this : MetaAdsClientImpl) (catalogId : string)
    (fields : option string) : IO (option Entity) :=
  request Entity this ("/" ++ catalogId) noOptions (Some
    [("fields", PString (or_default truthy_string fields DEFAULT_CATALOG_FIELDS))]).

Definition getDeliveryEstimate (this : MetaAdsClientImpl) (accountId : string)
    (targeting : Targeting) (optimizationGoal : string) : IO (option Entity) :=
  let id := normalizeAccountId accountId in
  result <- request Page this ("/" ++ id ++ "/delivery_estimate") noOptions (Some
              [("targeting_spec", PString (stringify targeting));
               ("optimization_goal", PString optimizationGoal)]) ;;
  match result with
  | Some r => Ret (hd_error (data r))
  | None => Throw (propertyOfUndefined "data")
  end.

Definition getReachFrequencyPrediction (this : MetaAdsClientImpl)
    (accountId predictionId : string) : IO (option Entity) :=
  request Entity this ("/" ++ predictionId) noOptions (Some
    [("fields", PString "id,account_id,campaign_id,status,time_created,time_updated,external_reach,external_budget,external_impression,reach_curve,grp_curve")]).

Definition createReachFrequencyPrediction (this : MetaAdsClientImpl)
    (accountId : string) (params : Params) : IO (option Entity) :=
  let id := normalizeAccountId accountId in
  result <- request Created this ("/" ++ id ++ "/reachfrequencypredictions")
              (withMethod "POST") (Some params) ;;
  match result with
  | Some r => getReachFrequencyPrediction this accountId (Entities.id r)
  | None => Throw idOfUndefined
  end.

Definition getBusiness (this : MetaAdsClientImpl) (businessId : string)
  : IO (option Entity) :=
  request Entity this ("/" ++ businessId) noOptions (Some
    [("fields", PString "id,name,created_by,created_time,link,primary_page,profile_picture_uri,timezone_id,verification_status,vertical")]).

Definition searchTargeting (this : MetaAdsClientImpl) (accountId type query : string)
  : IO (list Entity) :=
  let id := normalizeAccountId accountId in
  result <- request Page this ("/" ++ id ++ "/targetingsearch") noOptions (Some
              [("type", PString type); ("q", PString query)]) ;;
  dataOf result.

Definition getTargetingCategories (this : MetaAdsClientImpl) (accountId type : string)
  : IO (list Entity) :=
  let id := normalizeAccountId accountId in
  result <- request Page this ("/" ++ id ++ "/targetingbrowse") noOptions (Some
              [("type", PString type)]) ;;
  dataOf result.

End Client.

(* ------------------------------------------------------------------------- *)
(** * The entry point ([src/index.ts]): from credentials to a tool call *)
(* ------------------------------------------------------------------------- *)

Module Index.

Import Js Errors Env Http Async Client.
Local Open Scope io_scope.

(** [createStatelessServer(credentials)] builds the client and registers the
    tools on it; a tool invocation then runs one method of that client. *)
Definition createStatelessServer {A : Type} (credentials : TenantCredentials)
    (tool : MetaAdsClientImpl -> IO A) : IO A :=
  match createMetaAdsClient credentials with
  | inl thrown => Throw thrown
  | inr client => tool client
  end.

(** The answer of the [/mcp] route: the 401 response of the credential
    check, or what the tool produced. *)
Inductive McpAnswer (A : Type) : Type :=
| Unauthorized (message : string) (required_headers : list string)
| Served (a : A).

Arguments Unauthorized {A} message required_headers.
Arguments Served {A} a.

(** The credential check of the [/mcp] route, then the server. *)
Definition mcp {A : Type} (credentials : TenantCredentials)
    (tool : MetaAdsClientImpl -> IO A) : IO (McpAnswer A) :=
  match validateCredentials credentials with
  | inl error => Ret (Unauthorized (thrown_message error) ["X-Meta-Access-Token"])
  | inr _ => a <- createStatelessServer credentials tool ;; Ret (Served a)
  end.

End Index.

(* ------------------------------------------------------------------------- *)
(** * Error responses ([src/utils/formatters.ts]) *)
(* ------------------------------------------------------------------------- *)

Module Formatters.

Import Js Errors.

(** An item [{ type: 'text', text }] of a tool response. *)
Record TextContent : Type := {
  content_type : string;
  text : string
}.

Record ToolResponse : Type := {
  content : list TextContent;
  isError : option bool
}.

(** The value of [message] in [formatError] when the response is built. *)
Definition errorMessage (error : Thrown) : string :=
  match error with
  | ApiError e =>
      let message := "Error: " ++ message e in
      let message :=
        match errorUserMsg e with
        | Some m => if truthy_string m then message ++ " - " ++ m else message
        | None => message
        end in
      if retryable e then message ++ " (retryable)" else message
  | PlainError _ m => "Error: " ++ m
  end.

(** [formatError(error)]; [stack] is the [stack] property of a plain error. *)
Definition formatError (error : Thrown) (stack : option string) : ToolResponse :=
  let errorInfo := formatErrorForLogging error stack in
  let message := errorMessage error in
  {| content :=
       [{| content_type := "text";
           text := stringify2 (JObject [("error", JString message);
                                        ("details", JObject (definedProps errorInfo))]) |}];
     isError := Some true |}.

End Formatters.

(* ------------------------------------------------------------------------- *)
(** * Vocabulary of the specification *)
(* ------------------------------------------------------------------------- *)

Module Spec.

Import Js Errors Env Http Async Entities Client.

(** The outbound call a method starts with. *)
Definition firstRequest {A : Type} (m : IO A) : option HttpRequest :=
  match m with
  | Fetch _ r _ => Some r
  | _ => None
  end.

(** What a method does once its first call has settled to [x]. *)
Definition afterFirst {A : Type} (m : IO A) (x : forall T : Type, Settled (Response T))
  : option (IO A) :=
  match m with
  | Fetch T _ k => Some (k (x T))
  | _ => None
  end.

(** The URL [request] builds for [endpoint] and the query pairs [q]. *)
Definition urlOf (this : MetaAdsClientImpl) (endpoint : string) (q : Entries) : string :=
  baseUrl this ++ "/" ++ apiVersion this ++ endpoint ++ "?" ++ toString q.

(** The text a defined parameter value is sent as. *)
Definition paramString (v : ParamValue) : option string :=
  match v with
  | PUndefined => None
  | PString s => Some s
  | PNumber n => Some (ToString n)
  | PBoolean b => Some (ToString_boolean b)
  | PArray a => Some (stringify_strings a)
  end.

(** The text of the last defined value of [key] in [ps], else [acc]. *)
Fixpoint lookupParam (key : string) (ps : Params) (acc : option string) : option string :=
  match ps with
  | [] => acc
  | (k, v) :: rest =>
      lookupParam key rest
        (if String.eqb k key
         then match paramString v with Some s => Some s | None => acc end
         else acc)
  end.

(** The upstream code is carried by an error whose machine code is its
    decimal text: [code] is the only field the classifier writes it to. *)
Definition carriesUpstreamCode (e : MetaAdsApiError) (c : Z) : Prop :=
  code e = ToString (Num c).

(** The codes the classifier maps to a specific kind. *)
Definition specificCode (c : Z) : bool :=
  ((c =? 190) || (c =? 10) || ((200 <=? c) && (c <? 300))
   || (c =? 4) || (c =? 17) || (c =? 32) || (c =? 613) || (c =? 100))%bool.

(** The machine codes of the specific kinds. *)
Definition kindLabels : list string :=
  ["AUTHENTICATION_FAILED"; "PERMISSION_DENIED"; "RATE_LIMIT_EXCEEDED"; "VALIDATION_ERROR"].

(** A decimal text starts with a digit or a minus sign. *)
Definition decimalStart (s : string) : bool :=
  match s with
  | String ch _ =>
      let n := nat_of_ascii ch in
      (Nat.eqb n 45 || (Nat.leb 48 n && Nat.leb n 57))%bool
  | EmptyString => false
  end.

(** An upstream error object with the message [m] and the numeric code [c]. *)
Definition upstream (m : string) (c : Z) : Upstream.Error :=
  {| Upstream.message := Some m; Upstream.code := Some (Num c);
     Upstream.error_subcode := None; Upstream.error_user_title := None;
     Upstream.error_user_msg := None; Upstream.fbtrace_id := None |}.

(** A response with the given status, [Retry-After] header and error body,
    and no readable success body. *)
Definition failure (T : Type) (status : Z) (retryAfter : option string)
    (body : Settled (Parsed ErrorBody)) : Response T :=
  {| status := status; header_Retry_After := retryAfter; json_error := body;
     json := Rejected (PlainError "SyntaxError" "Unexpected end of JSON input") |}.

(** The list methods of the client. *)
Inductive ListMethod : Type :=
| ListAdAccounts | ListCampaigns | ListAdSets | ListAds | ListAdCreatives
| ListAdImages | ListAdVideos | ListCustomAudiences | ListPixels
| ListProductCatalogs | ListProductSets | GetBusinesses
| ListBusinessAdAccounts.

(** The call [this.m(id, params)]; two methods take no identifier. *)
Definition callList (m : ListMethod) (this : MetaAdsClientImpl) (id : string)
    (params : option ListParams) : IO (option Page) :=
  match m with
  | ListAdAccounts => listAdAccounts this params
  | ListCampaigns => listCampaigns this id params
  | ListAdSets => listAdSets this id params
  | ListAds => listAds this id params
  | ListAdCreatives => listAdCreatives this id params
  | ListAdImages => listAdImages this id params
  | ListAdVideos => listAdVideos this id params
  | ListCustomAudiences => listCustomAudiences this id params
  | ListPixels => listPixels this id params
  | ListProductCatalogs => listProductCatalogs this id params
  | ListProductSets => listProductSets this id params
  | GetBusinesses => getBusinesses this params
  | ListBusinessAdAccounts => listBusinessAdAccounts this id params
  end.

(** The endpoint of each list method. *)
Definition listEndpoint (m : ListMethod) (id : string) : string :=
  match m with
  | ListAdAccounts => "/me/adaccounts"
  | ListCampaigns => "/" ++ normalizeAccountId id ++ "/campaigns"
  | ListAdSets => "/" ++ normalizeAccountId id ++ "/adsets"
  | ListAds => "/" ++ normalizeAccountId id ++ "/ads"
  | ListAdCreatives => "/" ++ normalizeAccountId id ++ "/adcreatives"
  | ListAdImages => "/" ++ normalizeAccountId id ++ "/adimages"
  | ListAdVideos => "/" ++ normalizeAccountId id ++ "/advideos"
  | ListCustomAudiences => "/" ++ normalizeAccountId id ++ "/customaudiences"
  | ListPixels => "/" ++ normalizeAccountId id ++ "/adspixels"
  | ListProductCatalogs => "/" ++ id ++ "/owned_product_catalogs"
  | ListProductSets => "/" ++ id ++ "/product_sets"
  | GetBusinesses => "/me/businesses"
  | ListBusinessAdAccounts => "/" ++ id ++ "/owned_ad_accounts"
  end.

(** The list methods whose first statement normalises an account id. *)
Definition accountScoped (m : ListMethod) : bool :=
  match m with
  | ListCampaigns | ListAdSets | ListAds | ListAdCreatives | ListAdImages
  | ListAdVideos | ListCustomAudiences | ListPixels => true
  | ListAdAccounts | ListProductCatalogs | ListProductSets | GetBusinesses
  | ListBusinessAdAccounts => false
  end.

(** The update methods of the client, each with its input. *)
Inductive UpdateCall : Type :=
| UpdateCampaign (input : CampaignUpdateInput)
| UpdateAdSet (input : AdSetUpdateInput)
| UpdateAd (input : AdUpdateInput)
| UpdateCustomAudience (input : CustomAudienceUpdateInput).

Definition callUpdate (u : UpdateCall) (this : MetaAdsClientImpl) (id : string)
  : IO (option Entity) :=
  match u with
  | UpdateCampaign input => updateCampaign this id input
  | UpdateAdSet input => updateAdSet this id input
  | UpdateAd input => updateAd this id input
  | UpdateCustomAudience input => updateCustomAudience this id input
  end.

(** The value of [params] when an update method calls [request]. *)
Definition updateParams (u : UpdateCall) : Params :=
  match u with
  | UpdateCampaign input => updateCampaignParams input
  | UpdateAdSet input => updateAdSetParams input
  | UpdateAd input => updateAdParams input
  | UpdateCustomAudience input => updateCustomAudienceParams input
  end.

Definition isSet {A : Type} (v : option A) : bool :=
  match v with Some _ => true | None => false end.

(** The fields of each update input, in declaration order, with whether the
    caller set them. *)
Definition inputFields (u : UpdateCall) : list (string * bool) :=
  match u with
  | UpdateCampaign i =>
      [("name", isSet (cu_name i)); ("status", isSet (cu_status i));
       ("daily_budget", isSet (cu_daily_budget i));
       ("lifetime_budget", isSet (cu_lifetime_budget i));
       ("bid_strategy", isSet (cu_bid_strategy i));
       ("spend_cap", isSet (cu_spend_cap i));
       ("start_time", isSet (cu_start_time i));
       ("stop_time", isSet (cu_stop_time i))]
  | UpdateAdSet i =>
      [("name", isSet (su_name i)); ("status", isSet (su_status i));
       ("targeting", isSet (su_targeting i));
       ("bid_amount", isSet (su_bid_amount i));
       ("bid_strategy", isSet (su_bid_strategy i));
       ("daily_budget", isSet (su_daily_budget i));
       ("lifetime_budget", isSet (su_lifetime_budget i));
       ("start_time", isSet (su_start_time i));
       ("end_time", isSet (su_end_time i));
       ("optimization_goal", isSet (su_optimization_goal i));
       ("billing_event", isSet (su_billing_event i))]
  | UpdateAd i =>
      [("name", isSet (au_name i)); ("status", isSet (au_status i));
       ("creative", isSet (au_creative i));
       ("tracking_specs", isSet (au_tracking_specs i))]
  | UpdateCustomAudience i =>
      [("name", isSet (xu_name i)); ("description", isSet (xu_description i));
       ("opt_out_link", isSet (xu_opt_out_link i))]
  end.

(** The names of the fields the caller set. *)
Definition suppliedFields (u : UpdateCall) : list string :=
  map fst (filter snd (inputFields u)).

(** [JSON.stringify(['NONE'])] *)
Definition noneCategories : string := "[" ++ dquote ++ "NONE" ++ dquote ++ "]".

(** The [init] of a call [request] makes with the method [m]. *)
Definition jsonInit (m : option string) : RequestInit :=
  {| method := m; headers := [("Content-Type", "application/json")]; body := None |}.

(** Credentials holding only a token. *)
Definition tokenOnly (token : string) : TenantCredentials :=
  {| accessToken := token; adAccountId := None; businessId := None;
     appId := None; appSecret := None; Env.apiVersion := None |}.

(** A campaign input with the required fields only. *)
Definition campaignInput (name : string) (objective : CampaignObjective)
  : CampaignCreateInput :=
  {| cc_name := name; cc_objective := objective; cc_status := None;
     cc_special_ad_categories := None; cc_daily_budget := None;
     cc_lifetime_budget := None; cc_bid_strategy := None; cc_spend_cap := None;
     cc_buying_type := None; cc_start_time := None; cc_stop_time := None;
     cc_promoted_object := None |}.

(** A campaign update that sets the name only. *)
Definition renameCampaign (name : string) : CampaignUpdateInput :=
  {| cu_name := Some name; cu_status := None; cu_daily_budget := None;
     cu_lifetime_budget := None; cu_bid_strategy := None; cu_spend_cap := None;
     cu_start_time := None; cu_stop_time := None |}.

(** List parameters holding only a page size. *)
Definition limitOnly (l : number) : ListParams :=
  {| limit := Some l; after := None; before := None; fields := None;
     effectiveStatus := None; campaignId := None; adSetId := None;
     hashes := None |}.

(** ** Vocabulary of the further properties *)

(** A response that [request] turns into the result [v]. *)
Definition succeedsWith {T : Type} (response : Response T) (v : T) : Prop :=
  ok response = true /\ status response <> 204 /\ json response = Fulfilled v.

(** The value a property of a record holds, if any: the last one assigned. *)
Fixpoint propValue (key : string) (props : Props) : option (option Json) :=
  match props with
  | [] => None
  | (k, v) :: rest =>
      match propValue key rest with
      | Some later => Some later
      | None => if String.eqb k key then Some v else None
      end
  end.

(** Whether a record has the property [key]. *)
Definition hasProp (key : string) (props : Props) : bool :=
  match propValue key props with Some _ => true | None => false end.

(** Whether an optional string or number is truthy. *)
Definition truthyString (v : option string) : bool :=
  match v with Some s => truthy_string s | None => false end.

Definition truthyNumber (v : option number) : bool :=
  match v with Some n => truthy_number n | None => false end.

(** The create methods of the client, each with its input. *)
Inductive CreateCall : Type :=
| CreateCampaign (input : CampaignCreateInput)
| CreateAdSet (input : AdSetCreateInput)
| CreateAd (input : AdCreateInput)
| CreateAdCreative (input : AdCreativeFields)
| CreateCustomAudience (input : CustomAudienceCreateInput)
| CreatePixel (input : PixelCreateInput).

Definition callCreate (c : CreateCall) (this : MetaAdsClientImpl) (accountId : string)
  : IO (option Entity) :=
  match c with
  | CreateCampaign input => createCampaign this accountId input
  | CreateAdSet input => createAdSet this accountId input
  | CreateAd input => createAd this accountId input
  | CreateAdCreative input => createAdCreative this accountId input
  | CreateCustomAudience input => createCustomAudience this accountId input
  | CreatePixel input => createPixel this accountId input
  end.

(** The collection a create method posts to. *)
Definition createCollection (c : CreateCall) : string :=
  match c with
  | CreateCampaign _ => "campaigns"
  | CreateAdSet _ => "adsets"
  | CreateAd _ => "ads"
  | CreateAdCreative _ => "adcreatives"
  | CreateCustomAudience _ => "customaudiences"
  | CreatePixel _ => "adspixels"
  end.

(** The parameters a create method posts. *)
Definition createParams (c : CreateCall) : Params :=
  match c with
  | CreateCampaign input => createCampaignParams input
  | CreateAdSet input => createAdSetParams input
  | CreateAd input => createAdParams input
  | CreateAdCreative input => createAdCreativeParams input
  | CreateCustomAudience input => createCustomAudienceParams input
  | CreatePixel input => [("name", PString (px_name input))]
  end.

(** The get method that reads back what a create method made. *)
Definition readBack (c : CreateCall) (this : MetaAdsClientImpl) (id : string)
  : IO (option Entity) :=
  match c with
  | CreateCampaign _ => getCampaign this id None
  | CreateAdSet _ => getAdSet this id None
  | CreateAd _ => getAd this id None
  | CreateAdCreative _ => getAdCreative this id None
  | CreateCustomAudience _ => getCustomAudience this id None
  | CreatePixel _ => getPixel this id None
  end.

(** The get method that reads back what an update method changed. *)
Definition readBackUpdate (u : UpdateCall) (this : MetaAdsClientImpl) (id : string)
  : IO (option Entity) :=
  match u with
  | UpdateCampaign _ => getCampaign this id None
  | UpdateAdSet _ => getAdSet this id None
  | UpdateAd _ => getAd this id None
  | UpdateCustomAudience _ => getCustomAudience this id None
  end.

(** The delete methods of the client. *)
Inductive DeleteMethod : Type :=
| DeleteCampaign | DeleteAdSet | DeleteAd | DeleteCustomAudience.

Definition callDelete (d : DeleteMethod) (this : MetaAdsClientImpl) (id : string)
  : IO unit :=
  match d with
  | DeleteCampaign => deleteCampaign this id
  | DeleteAdSet => deleteAdSet this id
  | DeleteAd => deleteAd this id
  | DeleteCustomAudience => deleteCustomAudience this id
  end.

(** The get methods that take an optional field list. *)
Inductive GetMethod : Type :=
| GetAdAccount | GetCampaign | GetAdSet | GetAd | GetAdCreative
| GetCustomAudience | GetPixel | GetProductCatalog.

Definition callGet (g : GetMethod) (this : MetaAdsClientImpl) (id : string)
    (fields : option string) : IO (option Entity) :=
  match g with
  | GetAdAccount => getAdAccount this id fields
  | GetCampaign => getCampaign this id fields
  | GetAdSet => getAdSet this id fields
  | GetAd => getAd this id fields
  | GetAdCreative => getAdCreative this id fields
  | GetCustomAudience => getCustomAudience this id fields
  | GetPixel => getPixel this id fields
  | GetProductCatalog => getProductCatalog this id fields
  end.

(** The curated field set of each get method. *)
Definition defaultFields (g : GetMethod) : string :=
  match g with
  | GetAdAccount => DEFAULT_AD_ACCOUNT_FIELDS
  | GetCampaign => DEFAULT_CAMPAIGN_FIELDS
  | GetAdSet => DEFAULT_ADSET_FIELDS
  | GetAd => DEFAULT_AD_FIELDS
  | GetAdCreative => DEFAULT_CREATIVE_FIELDS
  | GetCustomAudience => DEFAULT_AUDIENCE_FIELDS
  | GetPixel => DEFAULT_PIXEL_FIELDS
  | GetProductCatalog => DEFAULT_CATALOG_FIELDS
  end.

(** Whether an error body read from a response carries one of the codes the
    classifier treats as a rate limit. *)
Definition rateLimitCode (c : option number) : bool :=
  match c with
  | Some (Num z) => ((z =? 4) || (z =? 17) || (z =? 32) || (z =? 613))%bool
  | _ => false
  end.

Definition rateLimitBody (body : Settled (Parsed ErrorBody)) : bool :=
  match body with
  | Fulfilled (Value b) =>
      match error b with
      | Some e => rateLimitCode (Upstream.code e)
      | None => false
      end
  | Fulfilled Null => false
  | Rejected _ => false
  end.

(** What [request] throws for a response that is not a success: an API
    error, but for a body that is [null] under a status other than 429, of
    which reading [error] throws a [TypeError]. *)
Definition requestFailure {T : Type} (response : Response T) (t : Thrown) : Prop :=
  (status response = 429 \/ json_error response <> Fulfilled Null ->
     exists e, t = ApiError e)
  /\ (status response <> 429 -> json_error response = Fulfilled Null ->
        t = errorOfNull).

(** The HTTP status each class of error reports, [actual] being the status
    of the response. *)
Definition statusOfClass (n : ErrorName) (actual : Z) : Z :=
  match n with
  | MetaAdsApiErrorName => actual
  | RateLimitErrorName => 429
  | AuthenticationErrorName => 401
  | PermissionErrorName => 403
  | NotFoundErrorName => 404
  | ValidationErrorName => 400
  end.

(** An upstream error object with every diagnostic field filled in. *)
Definition detailedUpstream (c : Z) : Upstream.Error :=
  {| Upstream.message := Some "Application request limit reached";
     Upstream.code := Some (Num c);
     Upstream.error_subcode := Some (Num 2446079);
     Upstream.error_user_title := Some "Too many calls";
     Upstream.error_user_msg := Some "Please retry later";
     Upstream.fbtrace_id := Some "AbCdEf123" |}.

(** The integer a run of decimal digits denotes after the digits [acc]. *)
Fixpoint uintValue (d : Decimal.uint) (acc : Z) : Z :=
  match d with
  | Decimal.Nil => acc
  | Decimal.D0 l => uintValue l (10 * acc + 0)
  | Decimal.D1 l => uintValue l (10 * acc + 1)
  | Decimal.D2 l => uintValue l (10 * acc + 2)
  | Decimal.D3 l => uintValue l (10 * acc + 3)
  | Decimal.D4 l => uintValue l (10 * acc + 4)
  | Decimal.D5 l => uintValue l (10 * acc + 5)
  | Decimal.D6 l => uintValue l (10 * acc + 6)
  | Decimal.D7 l => uintValue l (10 * acc + 7)
  | Decimal.D8 l => uintValue l (10 * acc + 8)
  | Decimal.D9 l => uintValue l (10 * acc + 9)
  end.

(** An environment whose four variables hold the given texts. *)
Definition envOf (limit pageSize maxPageSize version : option string) : EnvVars :=
  {| var_CHARACTER_LIMIT := limit; var_DEFAULT_PAGE_SIZE := pageSize;
     var_MAX_PAGE_SIZE := maxPageSize; var_META_API_VERSION := version |}.

(** An environment in which the variable [key] holds [value], when [key]
    is a variable. *)
Definition envWith (key : EnvKey) (value : string) : EnvVars :=
  match key with
  | CHARACTER_LIMIT => envOf (Some value) None None None
  | DEFAULT_PAGE_SIZE => envOf None (Some value) None None
  | MAX_PAGE_SIZE => envOf None None (Some value) None
  | META_API_VERSION => envOf None None None (Some value)
  | OAUTH_KV | MCP_SESSIONS | AI => envOf None None None None
  end.

(** A success response with the JSON body [v]. *)
Definition success {T : Type} (status : Z) (v : T) : Response T :=
  {| status := status; header_Retry_After := None;
     json_error := Fulfilled (Value emptyBody); json := Fulfilled v |}.

(** A pixel input. *)
Definition pixelNamed (name : string) : PixelCreateInput := {| px_name := name |}.

End Spec.

(* ------------------------------------------------------------------------- *)
(** * Properties *)
(* ------------------------------------------------------------------------- *)

Import Js Errors Env Http Async Entities Client Index Spec.

(** Case analysis on every integer test of the goal. *)
Ltac decide_tests :=
  repeat match goal with
  | |- context [Z.eqb ?a ?b] => destruct (Z.eqb_spec a b); try lia
  | |- context [Z.leb ?a ?b] => destruct (Z.leb_spec a b); try lia
  | |- context [Z.ltb ?a ?b] => destruct (Z.ltb_spec a b); try lia
  end.

(** ** Name/value pairs *)

Section EntriesFacts.

Lemma get_remove_neq (k n : string) (q : Entries) :
  k <> n -> get k (remove n q) = get k q.
Proof.
  intros Hkn. induction q as [|[k' v'] q IH]; simpl; [reflexivity|].
  destruct (String.eqb_spec k' n) as [->|Hn]; simpl.
  - rewrite IH. destruct (String.eqb_spec n k) as [->|_]; [contradiction|reflexivity].
  - rewrite IH. reflexivity.
Qed.

Lemma get_set_eq (n v : string) (q : Entries) : get n (set n v q) = Some v.
Proof.
  induction q as [|[k' v'] q IH]; simpl.
  - now rewrite String.eqb_refl.
  - destruct (String.eqb_spec k' n) as [->|Hn]; simpl.
    + now rewrite String.eqb_refl.
    + destruct (String.eqb_spec k' n); [contradiction|exact IH].
Qed.

Lemma get_set_neq (k n v : string) (q : Entries) :
  k <> n -> get k (set n v q) = get k q.
Proof.
  intros Hkn. induction q as [|[k' v'] q IH]; simpl.
  - destruct (String.eqb_spec n k) as [->|_]; [contradiction|reflexivity].
  - destruct (String.eqb_spec k' n) as [->|Hn]; simpl.
    + destruct (String.eqb_spec n k) as [->|_]; [contradiction|].
      now apply get_remove_neq.
    + now rewrite IH.
Qed.

Lemma get_None_names (k : string) (q : Entries) :
  get k q = None <-> ~ In k (names q).
Proof.
  induction q as [|[k' v'] q IH]; simpl.
  - tauto.
  - destruct (String.eqb_spec k' k) as [->|Hn].
    + split; [discriminate|]. intros H. exfalso. apply H. now left.
    + rewrite IH. tauto.
Qed.

Lemma get_In (k v : string) (q : Entries) : get k q = Some v -> In (k, v) q.
Proof.
  induction q as [|[k' v'] q IH]; simpl; [discriminate|].
  destruct (String.eqb_spec k' k) as [->|Hn].
  - intros [= ->]. now left.
  - intros H. right. now apply IH.
Qed.

Lemma set_fresh (n v : string) (q : Entries) :
  ~ In n (names q) -> set n v q = (q ++ [(n, v)])%list.
Proof.
  induction q as [|[k' v'] q IH]; simpl; [reflexivity|].
  intros H. destruct (String.eqb_spec k' n) as [->|Hn].
  - exfalso. apply H. now left.
  - rewrite IH; [reflexivity|]. intros Hin. apply H. now right.
Qed.

Lemma names_remove (x n : string) (q : Entries) :
  In x (names (remove n q)) -> In x (names q) /\ x <> n.
Proof.
  unfold names, remove. intros H. apply in_map_iff in H.
  destruct H as ([k v] & <- & Hin). apply filter_In in Hin. destruct Hin as [Hin Hk].
  split; [now apply (in_map fst) in Hin|].
  simpl in *. intros ->. now rewrite String.eqb_refl in Hk.
Qed.

Lemma NoDup_names_remove (n : string) (q : Entries) :
  NoDup (names q) -> NoDup (names (remove n q)).
Proof.
  induction q as [|[k v] q IH]; intros H; [constructor|].
  inversion H as [|? ? Hk Hq]; subst. simpl.
  destruct (String.eqb k n); simpl; [now apply IH|].
  constructor; [|now apply IH].
  intros Hin. now apply names_remove in Hin.
Qed.

Lemma names_set (x n v : string) (q : Entries) :
  In x (names (set n v q)) -> x = n \/ In x (names q).
Proof.
  induction q as [|[k w] q IH]; simpl.
  - intros [<-|[]]. now left.
  - destruct (String.eqb_spec k n) as [->|Hk]; simpl.
    + intros [<-|Hin]; [now left|]. apply names_remove in Hin. tauto.
    + intros [<-|Hin]; [tauto|]. destruct (IH Hin); tauto.
Qed.

Lemma NoDup_names_set (n v : string) (q : Entries) :
  NoDup (names q) -> NoDup (names (set n v q)).
Proof.
  induction q as [|[k w] q IH]; intros H; simpl.
  - constructor; [intros []|constructor].
  - inversion H as [|? ? Hk Hq]; subst.
    destruct (String.eqb_spec k n) as [->|Hn]; simpl.
    + constructor; [|now apply NoDup_names_remove].
      intros Hin. apply names_remove in Hin. tauto.
    + constructor; [|now apply IH].
      intros Hin. apply names_set in Hin. destruct Hin; [congruence|contradiction].
Qed.

Lemma get_In_unique (k v v' : string) (q : Entries) :
  NoDup (names q) -> get k q = Some v -> In (k, v') q -> v' = v.
Proof.
  induction q as [|[k0 w] q IH]; intros Hnd Hget Hin; [destruct Hin|].
  inversion Hnd as [|? ? Hk Hq]; subst. simpl in Hget.
  destruct (String.eqb_spec k0 k) as [->|Hn].
  - injection Hget as <-. destruct Hin as [[= ->]|Hin]; [reflexivity|].
    exfalso. apply Hk. now apply (in_map fst) in Hin.
  - destruct Hin as [[= -> _]|Hin]; [contradiction|]. now apply IH.
Qed.

End EntriesFacts.

(** ** The query of [request] *)

Section RequestQuery.

Variable this : MetaAdsClientImpl.

Lemma get_addParam (key : string) (q : Entries) (k : string) (v : ParamValue) :
  get key (addParam q (k, v))
  = if String.eqb k key
    then match paramString v with Some s => Some s | None => get key q end
    else get key q.
Proof.
  destruct (String.eqb_spec k key) as [->|Hn].
  - destruct v; simpl; try reflexivity; apply get_set_eq.
  - destruct v; simpl; try reflexivity; apply get_set_neq; congruence.
Qed.

Lemma get_fold_addParam (key : string) (ps : Params) (q : Entries) :
  get key (fold_left addParam ps q) = lookupParam key ps (get key q).
Proof.
  revert q. induction ps as [|[k v] ps IH]; intros q; [reflexivity|].
  cbn [fold_left lookupParam]. rewrite IH, get_addParam. reflexivity.
Qed.

(** The value under [key] in the query: the last defined value of [key]
    among the parameters, else the one of the authentication pair. *)
Lemma get_requestSearchParams (key : string) (ps : Params) :
  get key (requestSearchParams this (Some ps))
  = lookupParam key ps (get key (getAuthParams this)).
Proof. apply get_fold_addParam. Qed.

Lemma lookupParam_absent (key : string) (ps : Params) (acc : option string) :
  ~ In key (map fst ps) -> lookupParam key ps acc = acc.
Proof.
  revert acc. induction ps as [|[k v] ps IH]; intros acc H; [reflexivity|].
  simpl in *. destruct (String.eqb_spec k key) as [->|Hn].
  - exfalso. apply H. now left.
  - apply IH. tauto.
Qed.

Lemma lookupParam_unique (key : string) (v : ParamValue) (ps : Params)
    (acc : option string) :
  NoDup (map fst ps) -> In (key, v) ps ->
  lookupParam key ps acc
  = match paramString v with Some s => Some s | None => acc end.
Proof.
  revert acc. induction ps as [|[k w] ps IH]; intros acc Hnd Hin; [destruct Hin|].
  simpl in Hnd. inversion Hnd as [|? ? Hk Hnd']; subst.
  destruct Hin as [[= -> ->]|Hin].
  - simpl. rewrite String.eqb_refl. now apply lookupParam_absent.
  - assert (k <> key) as Hn.
    { intros ->. apply Hk. change key with (fst (key, v)). now apply in_map. }
    simpl. destruct (String.eqb_spec k key) as [|_]; [contradiction|].
    now apply IH.
Qed.

Lemma lookupParam_app (key : string) (ps ps' : Params) (acc : option string) :
  lookupParam key (ps ++ ps')%list acc = lookupParam key ps' (lookupParam key ps acc).
Proof.
  revert acc. induction ps as [|[k v] ps IH]; intros acc; [reflexivity|].
  simpl. apply IH.
Qed.

(** The names of a query are distinct. *)
Lemma requestSearchParams_NoDup (params : option Params) :
  NoDup (names (requestSearchParams this params)).
Proof.
  assert (NoDup (names (getAuthParams this))) as H0
    by (repeat constructor; intros []).
  destruct params as [ps|]; [|exact H0]. unfold requestSearchParams.
  revert H0. generalize (getAuthParams this).
  induction ps as [|[k v] ps IH]; intros q Hq; [exact Hq|].
  cbn [fold_left]. apply IH.
  destruct v; simpl; try exact Hq; now apply NoDup_names_set.
Qed.

(** When no parameter is undefined and the names are distinct and differ
    from the credential's, the query is the credential followed by the
    parameters in order. *)
Lemma requestSearchParams_defined (ps : Params) :
  NoDup (map fst ps) ->
  ~ In "access_token" (map fst ps) ->
  Forall (fun kv => paramString (snd kv) <> None) ps ->
  exists texts,
    requestSearchParams this (Some ps) = (getAuthParams this ++ texts)%list
    /\ map fst texts = map fst ps
    /\ Forall2 (fun kv t => paramString (snd kv) = Some (snd t)) ps texts.
Proof.
  unfold requestSearchParams.
  assert (forall q, NoDup (map fst ps) ->
            (forall k, In k (map fst ps) -> ~ In k (names q)) ->
            Forall (fun kv => paramString (snd kv) <> None) ps ->
            exists texts,
              fold_left addParam ps q = (q ++ texts)%list
              /\ map fst texts = map fst ps
              /\ Forall2 (fun kv t => paramString (snd kv) = Some (snd t)) ps texts) as H.
  { induction ps as [|[k v] ps IH]; intros q Hnd Hfresh Hdef.
    - exists []. rewrite app_nil_r. repeat split; constructor.
    - inversion Hnd as [|? ? Hk Hnd']; subst.
      inversion Hdef as [|? ? Hv Hdef']; subst. simpl in Hv.
      destruct (paramString v) as [s|] eqn:Hs; [|congruence].
      assert (addParam q (k, v) = (q ++ [(k, s)])%list) as Hadd.
      { assert (set k s q = (q ++ [(k, s)])%list) as Hset
          by (apply set_fresh, Hfresh; now left).
        destruct v; simpl in *; try discriminate; injection Hs as <-; exact Hset. }
      destruct (IH (q ++ [(k, s)])%list Hnd') as (texts & Hq & Hn & Hf); [|exact Hdef'|].
      + intros k' Hin. unfold names. rewrite map_app, in_app_iff. simpl.
        intros [Hin'|[<-|[]]].
        * apply (Hfresh k'); [now right|exact Hin'].
        * now apply Hk.
      + exists ((k, s) :: texts). cbn [fold_left]. rewrite Hadd, Hq, <- app_assoc.
        repeat split.
        * simpl. now rewrite Hn.
        * constructor; [exact Hs|exact Hf]. }
  intros Hnd Hauth Hdef. apply H; [exact Hnd| |exact Hdef].
  intros k Hin [<-|[]]. now apply Hauth.
Qed.

End RequestQuery.

(** ** Account identifiers *)

Lemma startsWith_app (p s : string) : startsWith (p ++ s) p = true.
Proof.
  unfold startsWith. induction p as [|c p IH]; simpl.
  - now destruct s.
  - destruct (ascii_dec c c) as [_|Hn]; [exact IH|contradiction].
Qed.

(** C9. The account id normalisation ([act_] is put in front of an id that
    does not start with it) is idempotent, and its result always starts with
    [act_]: normalising twice never prefixes twice. *)
Theorem normalizeAccountId_idempotent (accountId : string) :
  normalizeAccountId (normalizeAccountId accountId) = normalizeAccountId accountId
  /\ startsWith (normalizeAccountId accountId) "act_" = true.
Proof.
  assert (startsWith (normalizeAccountId accountId) "act_" = true) as Hp.
  { unfold normalizeAccountId.
    destruct (startsWith accountId "act_") eqn:H; [exact H|apply startsWith_app]. }
  split; [|exact Hp].
  unfold normalizeAccountId at 1. now rewrite Hp.
Qed.

Example normalize_bare : normalizeAccountId "123" = "act_123".
Proof. reflexivity. Qed.

Example normalize_prefixed : normalizeAccountId "act_123" = "act_123".
Proof. reflexivity. Qed.

(** ** Classification of upstream errors *)

(** How the classifier reads the code: the class of the error it builds. *)
Lemma parseMetaApiError_name (e : Upstream.Error) (statusCode c : Z) :
  Upstream.code e = Some (Num c) ->
  name (parseMetaApiError {| error := Some e |} statusCode)
  = if c =? 190 then AuthenticationErrorName
    else if ((c =? 10) || ((200 <=? c) && (c <? 300)))%bool then PermissionErrorName
    else if ((c =? 4) || (c =? 17) || (c =? 32) || (c =? 613))%bool then RateLimitErrorName
    else if c =? 100 then ValidationErrorName
    else MetaAdsApiErrorName.
Proof.
  intros Hc. unfold parseMetaApiError. cbn [error]. rewrite Hc. unfold number_eqb.
  decide_tests; reflexivity.
Qed.

(** The classifier's own view of the machine code it writes. *)
Lemma parseMetaApiError_code (e : Upstream.Error) (statusCode c : Z) :
  Upstream.code e = Some (Num c) ->
  code (parseMetaApiError {| error := Some e |} statusCode)
  = if c =? 190 then "AUTHENTICATION_FAILED"
    else if ((c =? 10) || ((200 <=? c) && (c <? 300)))%bool then "PERMISSION_DENIED"
    else if ((c =? 4) || (c =? 17) || (c =? 32) || (c =? 613))%bool then "RATE_LIMIT_EXCEEDED"
    else if c =? 100 then "VALIDATION_ERROR"
    else if c =? 0 then "UNKNOWN_ERROR"
    else or_default truthy_string (Some (ToString (Num c))) "META_ADS_ERROR".
Proof.
  intros Hc. unfold parseMetaApiError. cbn [error]. rewrite Hc.
  unfold number_eqb, truthy_number.
  decide_tests; reflexivity.
Qed.

Lemma string_of_uint_decimalStart (d : Decimal.uint) :
  decimalStart (NilZero.string_of_uint d) = true.
Proof. destruct d; reflexivity. Qed.

Lemma decimal_decimalStart (c : Z) : decimalStart (decimal c) = true.
Proof.
  unfold decimal, NilZero.string_of_int.
  destruct (Z.to_int c) as [d|d]; [apply string_of_uint_decimalStart|reflexivity].
Qed.

Lemma ToString_large_decimalStart (x : Z) : decimalStart (ToString_large x) = true.
Proof.
  unfold ToString_large.
  pose proof (decimal_decimalStart (shortest x)) as H.
  destruct (Nat.leb _ 21); [exact H|].
  destruct (decimal (shortest x)); [discriminate H|exact H].
Qed.

Lemma ToString_decimalStart (c : Z) : decimalStart (ToString (Num c)) = true.
Proof.
  unfold ToString.
  destruct (Z.abs c <=? 2 ^ 53); [apply decimal_decimalStart|].
  destruct (c <? 0); [reflexivity|apply ToString_large_decimalStart].
Qed.

Lemma ToString_truthy (c : Z) : truthy_string (ToString (Num c)) = true.
Proof.
  pose proof (ToString_decimalStart c) as H.
  destruct (ToString (Num c)); [discriminate H|reflexivity].
Qed.

(** C1, as it holds.  For an upstream error object with the numeric code
    [c]: when [c] is none of the codes of a specific kind and is not [0],
    the error is of the base class and its machine code is the text of [c];
    when [c] is the code of a specific kind, the machine code is the fixed
    label of that kind ([AUTHENTICATION_FAILED] for 190, [PERMISSION_DENIED]
    for 10 and 200..299, [RATE_LIMIT_EXCEEDED] for 4, 17, 32 and 613,
    [VALIDATION_ERROR] for 100) and the upstream code is not carried. *)
Theorem upstream_code_kept_by_generic_only
    (e : Upstream.Error) (statusCode c : Z) :
  Upstream.code e = Some (Num c) ->
  let r := parseMetaApiError {| error := Some e |} statusCode in
  (specificCode c = false -> c <> 0 ->
     name r = MetaAdsApiErrorName /\ carriesUpstreamCode r c)
  /\ (specificCode c = true ->
        In (code r) kindLabels /\ ~ carriesUpstreamCode r c)
  /\ (c = 190 ->
        name r = AuthenticationErrorName /\ code r = "AUTHENTICATION_FAILED")
  /\ (c = 10 \/ 200 <= c < 300 ->
        name r = PermissionErrorName /\ code r = "PERMISSION_DENIED")
  /\ (c = 4 \/ c = 17 \/ c = 32 \/ c = 613 ->
        name r = RateLimitErrorName /\ code r = "RATE_LIMIT_EXCEEDED")
  /\ (c = 100 -> name r = ValidationErrorName /\ code r = "VALIDATION_ERROR").
Proof.
  intros Hc r. subst r. unfold carriesUpstreamCode.
  rewrite (parseMetaApiError_name e statusCode Hc).
  rewrite (parseMetaApiError_code e statusCode Hc).
  pose proof (ToString_decimalStart c) as Hd.
  pose proof (ToString_truthy c) as Ht.
  unfold specificCode, kindLabels, or_default. rewrite Ht.
  split; [|split; [|split; [|split; [|split]]]].
  - intros Hs H0. revert Hs. decide_tests; simpl; try discriminate.
    all: intros _; split; reflexivity.
  - intros Hs. revert Hs.
    decide_tests; cbn [orb andb]; try discriminate; intros _;
      (split; [cbn [In]; tauto|intros Heq; rewrite <- Heq in Hd; discriminate Hd]).
  - intros ->. split; reflexivity.
  - intros H. decide_tests; cbn [orb andb]; try lia; split; reflexivity.
  - intros H. decide_tests; cbn [orb andb]; try lia; split; reflexivity.
  - intros ->. split; reflexivity.
Qed.

Lemma upstream_code_kept_by_generic_only_witness :
  carriesUpstreamCode
    (parseMetaApiError {| error := Some (upstream "Unsupported get request" 1234) |} 400)
    1234.
Proof.
  apply (proj1 (upstream_code_kept_by_generic_only
                  (upstream "Unsupported get request" 1234) 400 eq_refl)).
  - reflexivity.
  - discriminate.
Defined.

(** C1, as stated, fails.  The error built for the upstream code 190 has the
    machine code [AUTHENTICATION_FAILED], not 190; and the upstream codes 4
    and 17 give one and the same error, so nothing in it tells them apart. *)
Lemma upstream_code_discarded :
  ~ carriesUpstreamCode
      (parseMetaApiError {| error := Some (upstream "Invalid OAuth access token" 190) |} 400)
      190
  /\ parseMetaApiError {| error := Some (upstream "Too many calls" 4) |} 400
     = parseMetaApiError {| error := Some (upstream "Too many calls" 17) |} 400.
Proof.
  split; [|reflexivity].
  unfold carriesUpstreamCode. vm_compute. discriminate.
Qed.




(** Scenario C: a 400 response with the body
    [{error: {message: "Invalid parameter", code: 100}}]. *)
Example scenario_C :
  let r := parseMetaApiError {| error := Some (upstream "Invalid parameter" 100) |} 400 in
  name r = ValidationErrorName /\ message r = "Invalid parameter"
  /\ code r = "VALIDATION_ERROR".
Proof. repeat split. Qed.

(** ** Responses *)

Section Responses.

Variable T : Type.
Variable this : MetaAdsClientImpl.

(** The retry-after [request] computes from the [Retry-After] header. *)
Lemma handleResponse_429 (response : Response T) :
  status response = 429 ->
  handleResponse response
  = Throw (ApiError (newRateLimitError "Rate limit exceeded"
      (match header_Retry_After response with
       | Some h => if truthy_string h then parseInt10 h else Num 60
       | None => Num 60
       end) None)).
Proof. intros H. unfold handleResponse. now rewrite H. Qed.

(** What holds of a 429 in [request]: whatever the body, the failure is a
    rate limit error; its retry-after is 60 without a header or with an
    empty one, and what [parseInt] reads from the header otherwise. *)
Lemma request_429_rate_limit (endpoint : string) (options : RequestInit)
    (params : option Params) (retryAfter : option string)
    (body : Settled (Parsed ErrorBody)) :
  exists e,
    afterFirst (request T this endpoint options params)
      (fun T' => Fulfilled (failure T' 429 retryAfter body))
    = Some (Throw (ApiError e))
    /\ name e = RateLimitErrorName /\ retryable e = true
    /\ retryAfterSeconds e
       = Some (match retryAfter with
               | Some h => if truthy_string h then parseInt10 h else Num 60
               | None => Num 60
               end).
Proof. eexists. split; [reflexivity|]. repeat split. Qed.

(** C3, where the source departs from it.  A 429 whose [Retry-After] header
    is a date, not a number of seconds, gives a rate limit error whose
    retry-after is [NaN], not 60; a header holding digits is read, and a
    missing header gives 60. *)
Theorem request_429_retry_after_not_a_number (endpoint : string)
    (options : RequestInit) (params : option Params)
    (body : Settled (Parsed ErrorBody)) :
  (exists e,
      afterFirst (request T this endpoint options params)
        (fun T' => Fulfilled (failure T' 429 (Some "Wed, 21 Oct 2015 07:28:00 GMT") body))
      = Some (Throw (ApiError e))
      /\ name e = RateLimitErrorName /\ retryAfterSeconds e = Some NaN)
  /\ (exists e,
        afterFirst (request T this endpoint options params)
          (fun T' => Fulfilled (failure T' 429 (Some "30") body))
        = Some (Throw (ApiError e))
        /\ name e = RateLimitErrorName /\ retryAfterSeconds e = Some (Num 30))
  /\ (exists e,
        afterFirst (request T this endpoint options params)
          (fun T' => Fulfilled (failure T' 429 None body))
        = Some (Throw (ApiError e))
        /\ name e = RateLimitErrorName /\ retryAfterSeconds e = Some (Num 60)).
Proof.
  split; [|split]; eexists; (split; [reflexivity|]); split; reflexivity.
Qed.

(** What holds of [postForm]: the token travels as a form field, the URL
    has no query, and a failure is classified from the body, an unreadable
    body counting as the empty object and a [null] body making the
    classifier throw. *)
Lemma postForm_handling (endpoint : string) (formData : Entries) :
  firstRequest (postForm T this endpoint formData)
  = Some {| url := baseUrl this ++ "/" ++ apiVersion this ++ endpoint;
            init := {| method := Some "POST"; headers := [];
                       body := Some (formData
                                       ++ [("access_token", accessToken (credentials this))])%list |} |}
  /\ (forall (status : Z) (retryAfter : option string)
             (body : Settled (Parsed ErrorBody)),
         (200 <=? status) && (status <=? 299) = false ->
         afterFirst (postForm T this endpoint formData)
           (fun T' => Fulfilled (failure T' status retryAfter body))
         = Some (Throw (throwParsed
                   (match body with Fulfilled b => b | Rejected _ => Value emptyBody end)
                   status))).
Proof.
  split; [reflexivity|].
  intros status retryAfter body Hs. cbn. unfold handleFormResponse, ok. cbn.
  now rewrite Hs.
Qed.

(** C4, where the source departs from it.  On a 429 with [Retry-After: 30]
    and no readable body, [postForm] fails with an error of the base class,
    code [UNKNOWN_ERROR], not retryable and without a retry-after, where
    [request] fails with a rate limit error to be retried after 30 seconds:
    [postForm] has no branch for the status 429. *)
Theorem postForm_429_not_rate_limit (endpoint : string) (formData : Entries)
    (options : RequestInit) (params : option Params) (reason : Thrown) :
  (exists e,
      afterFirst (postForm T this endpoint formData)
        (fun T' => Fulfilled (failure T' 429 (Some "30") (Rejected reason)))
      = Some (Throw (ApiError e))
      /\ name e = MetaAdsApiErrorName /\ code e = "UNKNOWN_ERROR"
      /\ statusCode e = Some 429 /\ retryable e = false
      /\ retryAfterSeconds e = None)
  /\ (exists e,
        afterFirst (request T this endpoint options params)
          (fun T' => Fulfilled (failure T' 429 (Some "30") (Rejected reason)))
        = Some (Throw (ApiError e))
        /\ name e = RateLimitErrorName /\ retryable e = true
        /\ retryAfterSeconds e = Some (Num 30)).
Proof.
  split; eexists; (split; [reflexivity|]); repeat split.
Qed.

End Responses.

(** ** Credentials *)

Lemma lookupParam_not_None (key : string) (ps : Params) (acc : option string) :
  acc <> None -> lookupParam key ps acc <> None.
Proof.
  revert acc. induction ps as [|[k v] ps IH]; intros acc H; [exact H|].
  simpl. apply IH. destruct (String.eqb k key); [|exact H].
  destruct (paramString v); [discriminate|exact H].
Qed.

(** C5. With an empty token: [createMetaAdsClient] fails with an
    authentication error (status 401, code [AUTHENTICATION_FAILED]) whose
    message names the credential that is required, "Access token is
    required"; a tool run on a server built from these credentials stops
    with that error and no call has been made; and on the [/mcp] route the
    credential check answers first, naming the header the token is read
    from, again with no call made.  Conversely a client the factory returns
    holds a non-empty token, which every call of [request] carries (unless a
    parameter of the same name replaces it) and every call of [postForm]
    carries as a form field; so a call is only ever made with a token. *)
Theorem missing_token_fails_fast :
  (forall credentials : TenantCredentials,
      accessToken credentials = "" ->
      exists e,
        createMetaAdsClient credentials = inl (ApiError e)
        /\ name e = AuthenticationErrorName
        /\ code e = "AUTHENTICATION_FAILED"
        /\ statusCode e = Some 401
        /\ message e = "Access token is required")
  /\ (forall (A : Type) (credentials : TenantCredentials)
             (tool : MetaAdsClientImpl -> IO A)
             (answers : list (forall T : Type, Settled (Response T))),
        accessToken credentials = "" ->
        (exists e,
            dispatched (createStatelessServer credentials tool) answers
            = ([], Threw (ApiError e))
            /\ name e = AuthenticationErrorName)
        /\ dispatched (mcp credentials tool) answers
           = ([], Returned (Unauthorized
                              "Missing credentials. Provide X-Meta-Access-Token header."
                              ["X-Meta-Access-Token"])))
  /\ (forall (credentials : TenantCredentials) (client : MetaAdsClientImpl),
        createMetaAdsClient credentials = inr client ->
        accessToken (Client.credentials client) <> ""
        /\ (forall params : option Params,
               get "access_token" (requestSearchParams client params) <> None)
        /\ (forall ps : Params,
               ~ In "access_token" (map fst ps) ->
               get "access_token" (requestSearchParams client (Some ps))
               = Some (accessToken (Client.credentials client)))
        /\ (forall (T : Type) (endpoint : string) (formData : Entries),
               exists r,
                 firstRequest (postForm T client endpoint formData) = Some r
                 /\ exists form,
                     body (init r) = Some form
                     /\ In ("access_token", accessToken (Client.credentials client)) form))
  /\ (forall (A : Type) (credentials : TenantCredentials)
             (tool : MetaAdsClientImpl -> IO A)
             (answers : list (forall T : Type, Settled (Response T))),
        fst (dispatched (createStatelessServer credentials tool) answers) <> [] ->
        accessToken credentials <> "").
Proof.
  split; [|split; [|split]].
  - intros credentials H. unfold createMetaAdsClient. rewrite H. cbn.
    eexists. split; [reflexivity|]. repeat split.
  - intros A credentials tool answers H.
    unfold mcp, validateCredentials, createStatelessServer, createMetaAdsClient.
    rewrite H. cbn. split; [|reflexivity].
    eexists. split; [reflexivity|reflexivity].
  - intros credentials client. unfold createMetaAdsClient.
    destruct (truthy_string (accessToken credentials)) eqn:Ht; [|discriminate].
    cbn [negb]. intros [= <-]. cbn [Client.credentials newMetaAdsClientImpl].
    split; [|split; [|split]].
    + intros H. rewrite H in Ht. discriminate Ht.
    + intros [ps|]; [|discriminate].
      rewrite get_requestSearchParams. apply lookupParam_not_None. discriminate.
    + intros ps Hps. rewrite get_requestSearchParams.
      now rewrite lookupParam_absent.
    + intros T endpoint formData. eexists. split; [reflexivity|].
      eexists. split; [reflexivity|]. unfold append.
      apply in_or_app. right. now left.
  - intros A credentials tool answers Hsent Hempty.
    apply Hsent. unfold createStatelessServer, createMetaAdsClient.
    rewrite Hempty. reflexivity.
Qed.

Lemma missing_token_fails_fast_witness :
  exists e,
    createMetaAdsClient (tokenOnly "") = inl (ApiError e)
    /\ name e = AuthenticationErrorName
    /\ code e = "AUTHENTICATION_FAILED"
    /\ statusCode e = Some 401
    /\ message e = "Access token is required".
Proof.
  apply (proj1 missing_token_fails_fast (tokenOnly "")). reflexivity.
Defined.

(** ** Parameter shaping of the operations *)

Section Shaping.

Variable this : MetaAdsClientImpl.

Lemma lookupParam_assignIfTruthy_other (A : Type) (truthy : A -> bool)
    (key k : string) (v : option A) (conv : A -> ParamValue) (acc : option string) :
  String.eqb k key = false ->
  lookupParam key (assignIfTruthy truthy k v conv) acc = acc.
Proof.
  intros H. unfold assignIfTruthy.
  destruct v as [a|]; [destruct (truthy a)|]; simpl; try rewrite H; reflexivity.
Qed.

Lemma lookupParam_assignIfDefined_other (A : Type)
    (key k : string) (v : option A) (conv : A -> ParamValue) (acc : option string) :
  String.eqb k key = false ->
  lookupParam key (assignIfDefined k v conv) acc = acc.
Proof.
  intros H. unfold assignIfDefined.
  destruct v as [a|]; simpl; try rewrite H; reflexivity.
Qed.

Lemma Status_string_truthy (s : Status) : truthy_string (Status_string s) = true.
Proof. destruct s; reflexivity. Qed.

(** The first call of [createCampaign]. *)
Lemma createCampaign_firstRequest (accountId : string) (input : CampaignCreateInput) :
  firstRequest (createCampaign this accountId input)
  = Some {| url := urlOf this ("/" ++ normalizeAccountId accountId ++ "/campaigns")
                     (requestSearchParams this (Some (createCampaignParams input)));
            init := jsonInit (Some "POST") |}.
Proof. reflexivity. Qed.

(** C6. The first call of [createCampaign] is a POST to the campaigns of the
    normalised account.  When the caller gives no status its query carries
    [status=PAUSED], and when the caller gives no special ad categories it
    carries [special_ad_categories=["NONE"]]; a status the caller gives is
    sent instead of the default.  For the name "Spring Sale" and the
    objective [OUTCOME_SALES] alone, the query is the token, the name, the
    objective and these two defaults. *)
Theorem createCampaign_defaults (accountId : string) (input : CampaignCreateInput) :
  exists q,
    firstRequest (createCampaign this accountId input)
    = Some {| url := urlOf this ("/" ++ normalizeAccountId accountId ++ "/campaigns") q;
              init := jsonInit (Some "POST") |}
    /\ (cc_status input = None -> get "status" q = Some "PAUSED")
    /\ (cc_special_ad_categories input = None ->
          get "special_ad_categories" q = Some noneCategories)
    /\ (forall s, cc_status input = Some s -> get "status" q = Some (Status_string s))
    /\ (input = campaignInput "Spring Sale" OUTCOME_SALES ->
          q = [("access_token", accessToken (credentials this));
               ("name", "Spring Sale");
               ("objective", "OUTCOME_SALES");
               ("status", "PAUSED");
               ("special_ad_categories", noneCategories)]).
Proof.
  exists (requestSearchParams this (Some (createCampaignParams input))).
  split; [apply createCampaign_firstRequest|].
  assert (forall key,
             String.eqb "daily_budget" key = false ->
             String.eqb "lifetime_budget" key = false ->
             String.eqb "bid_strategy" key = false ->
             String.eqb "spend_cap" key = false ->
             String.eqb "buying_type" key = false ->
             String.eqb "start_time" key = false ->
             String.eqb "stop_time" key = false ->
             String.eqb "promoted_object" key = false ->
             get key (requestSearchParams this (Some (createCampaignParams input)))
             = lookupParam key
                 [("name", PString (cc_name input));
                  ("objective", PString (CampaignObjective_string (cc_objective input)));
                  ("status", PString (or_default truthy_string
                                        (option_map Status_string (cc_status input)) "PAUSED"));
                  ("special_ad_categories",
                     PArray (or_default always
                               (option_map (map SpecialAdCategory_string)
                                  (cc_special_ad_categories input)) ["NONE"]))]
                 (get key (getAuthParams this))) as Hfixed.
  { intros key H1 H2 H3 H4 H5 H6 H7 H8.
    rewrite get_requestSearchParams. unfold createCampaignParams.
    rewrite !lookupParam_app.
    now rewrite !lookupParam_assignIfTruthy_other by assumption. }
  split; [|split; [|split]].
  - intros Hs. rewrite Hfixed by reflexivity. rewrite Hs. reflexivity.
  - intros Hc. rewrite Hfixed by reflexivity. rewrite Hc. reflexivity.
  - intros s Hs. rewrite Hfixed by reflexivity. rewrite Hs.
    cbn. unfold or_default. now rewrite Status_string_truthy.
  - intros ->. reflexivity.
Qed.

(** C7. In the query [request] builds from a parameter record (whose names
    are distinct, as the properties of an object are): a parameter whose
    value is [undefined] contributes no pair, so its name is absent unless it
    is the credential's; a parameter with a defined value is present with
    that value as text, in particular [0] as "0", the empty string as itself
    and [false] as "false"; a string is sent as it is, a number or boolean
    through [String], and an array through [JSON.stringify].  The URL of the
    call ends with the serialisation of that query. *)
Theorem request_parameter_omission (T : Type) (endpoint : string)
    (options : RequestInit) (params : Params) (key : string) (value : ParamValue) :
  NoDup (map fst params) ->
  In (key, value) params ->
  let q := requestSearchParams this (Some params) in
  firstRequest (request T this endpoint options (Some params))
  = Some {| url := urlOf this endpoint q;
            init := {| method := method options;
                       headers := requestHeaders options;
                       body := body options |} |}
  /\ (value = PUndefined -> key <> "access_token" ->
        get key q = None /\ ~ In key (names q))
  /\ (value = PNumber (Num 0) -> get key q = Some "0")
  /\ (value = PString "" -> get key q = Some "")
  /\ (value = PBoolean false -> get key q = Some "false")
  /\ (forall s, value = PString s -> get key q = Some s)
  /\ (forall n, value = PNumber n -> get key q = Some (ToString n))
  /\ (forall b, value = PBoolean b -> get key q = Some (ToString_boolean b))
  /\ (forall a, value = PArray a -> get key q = Some (stringify_strings a)).
Proof.
  intros Hnd Hin q. subst q. split; [reflexivity|].
  rewrite get_requestSearchParams.
  rewrite lookupParam_unique with (v := value) by assumption.
  split.
  { intros -> Hk. cbn [paramString].
    assert (get key (getAuthParams this) = None) as Hnone.
    { unfold getAuthParams. cbn [get].
      destruct (String.eqb_spec "access_token" key) as [<-|_];
        [contradiction|reflexivity]. }
    split; [exact Hnone|].
    apply get_None_names. rewrite get_requestSearchParams.
    rewrite lookupParam_unique with (v := PUndefined) by assumption. exact Hnone. }
  repeat split; intros; subst value; reflexivity.
Qed.

(** Nothing else enters the query: a name in it is the credential's or that
    of a parameter with a defined value. *)
Lemma request_query_names (params : Params) (key : string) :
  In key (names (requestSearchParams this (Some params))) ->
  key = "access_token"
  \/ exists value, In (key, value) params /\ value <> PUndefined.
Proof.
  unfold requestSearchParams.
  assert (forall q,
             In key (names (fold_left addParam params q)) ->
             In key (names q)
             \/ exists value, In (key, value) params /\ value <> PUndefined) as H.
  { induction params as [|[k v] ps IH]; intros q Hin; [now left|].
    cbn [fold_left] in Hin. destruct (IH _ Hin) as [Hq|(value & Hv & Hd)].
    - destruct (in_dec string_dec key (names q)) as [Hold|Hnew]; [now left|].
      right. exists v.
      assert (get key (addParam q (k, v)) <> None) as Hget
        by (intros Hnone; now apply get_None_names in Hnone).
      rewrite get_addParam in Hget.
      destruct (String.eqb_spec k key) as [->|Hk].
      + split; [now left|]. intros ->. cbn in Hget.
        now apply Hget, get_None_names.
      + exfalso. now apply Hget, get_None_names.
    - right. exists value. split; [now right|exact Hd]. }
  intros Hin. destruct (H _ Hin) as [[<-|[]]|Hex]; [now left|now right].
Qed.

(** The first call of an update method. *)
Lemma callUpdate_firstRequest (u : UpdateCall) (id : string) :
  firstRequest (callUpdate u this id)
  = Some {| url := urlOf this ("/" ++ id) (requestSearchParams this (Some (updateParams u)));
            init := jsonInit (Some "POST") |}.
Proof. destruct u; reflexivity. Qed.

Lemma map_fst_assignIfDefined (A : Type) (k : string) (v : option A)
    (conv : A -> ParamValue) :
  map fst (assignIfDefined k v conv) = if isSet v then [k] else [].
Proof. destruct v; reflexivity. Qed.

(** The parameters of an update are the fields the caller set, in order. *)
Lemma updateParams_names (u : UpdateCall) :
  map fst (updateParams u) = suppliedFields u.
Proof.
  destruct u as [i|i|i|i]; destruct i; unfold suppliedFields;
    cbn [updateParams inputFields updateCampaignParams updateAdSetParams
         updateAdParams updateCustomAudienceParams
         cu_name cu_status cu_daily_budget cu_lifetime_budget cu_bid_strategy
         cu_spend_cap cu_start_time cu_stop_time
         su_name su_status su_targeting su_bid_amount su_bid_strategy
         su_daily_budget su_lifetime_budget su_start_time su_end_time
         su_optimization_goal su_billing_event
         au_name au_status au_creative au_tracking_specs
         xu_name xu_description xu_opt_out_link];
    rewrite ?map_app, ?map_fst_assignIfDefined;
    repeat match goal with
           | |- context [isSet ?v] => destruct v; cbn [isSet]
           end;
    reflexivity.
Qed.

Lemma Forall_assignIfDefined (A : Type) (k : string) (v : option A)
    (conv : A -> ParamValue) :
  (forall a, paramString (conv a) <> None) ->
  Forall (fun kv => paramString (snd kv) <> None) (assignIfDefined k v conv).
Proof.
  intros H. destruct v as [a|]; constructor; [apply H|constructor].
Qed.

Lemma updateParams_defined (u : UpdateCall) :
  Forall (fun kv => paramString (snd kv) <> None) (updateParams u).
Proof.
  destruct u as [i|i|i|i]; cbn [updateParams];
    unfold updateCampaignParams, updateAdSetParams, updateAdParams,
      updateCustomAudienceParams;
    repeat (apply Forall_app; split);
    apply Forall_assignIfDefined; intros a; discriminate.
Qed.

Lemma NoDup_map_fst_filter (A B : Type) (f : A * B -> bool) (l : list (A * B)) :
  NoDup (map fst l) -> NoDup (map fst (filter f l)).
Proof.
  induction l as [|x l IH]; intros H; [constructor|].
  inversion H as [|? ? Hx Hl]; subst. simpl.
  destruct (f x); [|now apply IH].
  simpl. constructor; [|now apply IH].
  intros Hin. apply Hx. apply in_map_iff in Hin. destruct Hin as (y & Hy & Hin).
  apply filter_In in Hin. rewrite <- Hy. apply in_map. tauto.
Qed.

Lemma suppliedFields_declared (u : UpdateCall) (k : string) :
  In k (suppliedFields u) -> In k (map fst (inputFields u)).
Proof.
  unfold suppliedFields. intros H. apply in_map_iff in H.
  destruct H as (x & Hx & Hin). apply filter_In in Hin.
  rewrite <- Hx. apply in_map. tauto.
Qed.

Lemma suppliedFields_NoDup (u : UpdateCall) : NoDup (suppliedFields u).
Proof.
  apply NoDup_map_fst_filter.
  destruct u; cbn [inputFields map fst];
    repeat (constructor; [cbn [In]; intuition discriminate|]); constructor.
Qed.

Lemma suppliedFields_not_credential (u : UpdateCall) :
  ~ In "access_token" (suppliedFields u).
Proof.
  intros H. apply suppliedFields_declared in H.
  destruct u; cbn [inputFields map fst In] in H; intuition discriminate.
Qed.

(** The query of the call an update method makes to apply the update is
    the credential followed by one pair for each field the caller set, in
    the order of declaration, and no other pair. *)
Lemma update_query (u : UpdateCall) (id : string) :
  exists texts,
    firstRequest (callUpdate u this id)
    = Some {| url := urlOf this ("/" ++ id)
                       (("access_token", accessToken (credentials this)) :: texts);
              init := jsonInit (Some "POST") |}
    /\ map fst texts = suppliedFields u.
Proof.
  destruct (@requestSearchParams_defined this (updateParams u))
    as (texts & Hq & Hn & _).
  - rewrite updateParams_names. apply suppliedFields_NoDup.
  - rewrite updateParams_names. apply suppliedFields_not_credential.
  - apply updateParams_defined.
  - exists texts. rewrite callUpdate_firstRequest, Hq, <- updateParams_names.
    split; [reflexivity|exact Hn].
Qed.

(** C8. An update method called with exactly one field of its input set
    makes, to apply the update, a POST to the entity whose query is the
    credential and that field, and nothing else. *)
Theorem sparse_update (u : UpdateCall) (id field : string) :
  suppliedFields u = [field] ->
  exists text,
    firstRequest (callUpdate u this id)
    = Some {| url := urlOf this ("/" ++ id)
                       [("access_token", accessToken (credentials this));
                        (field, text)];
              init := jsonInit (Some "POST") |}.
Proof.
  intros Hf. destruct (update_query u id) as (texts & Hq & Hn).
  rewrite Hf in Hn.
  destruct texts as [|[k text] [|? ?]]; try discriminate Hn.
  injection Hn as ->. exists text. exact Hq.
Qed.

(** C10. Each list method sends [limit=25] when the page size it is given is
    falsy (0 or [NaN]), as when none is given; a page size of 0 is never
    sent.  The request helper itself would send it: a parameter [limit: 0]
    reaches the query as [limit=0]. *)
Theorem list_limit_zero_replaced (m : ListMethod) (id : string)
    (p : ListParams) (l : number) :
  limit p = Some l ->
  truthy_number l = false ->
  (exists q,
      firstRequest (callList m this id (Some p))
      = Some {| url := urlOf this (listEndpoint m id) q; init := jsonInit None |}
      /\ get "limit" q = Some "25"
      /\ ~ In ("limit", "0") q)
  /\ (exists q,
        firstRequest (callList m this id None)
        = Some {| url := urlOf this (listEndpoint m id) q; init := jsonInit None |}
        /\ get "limit" q = Some "25")
  /\ get "limit" (requestSearchParams this (Some [("limit", PNumber l)]))
     = Some (ToString l)
  /\ get "limit" (requestSearchParams this (Some [("limit", PNumber (Num 0))]))
     = Some "0".
Proof.
  intros Hl Ht.
  assert (limitOr25 (Some p) = PNumber (Num 25)) as H25.
  { unfold limitOr25, opt, or_default. now rewrite Hl, Ht. }
  assert (forall q, NoDup (names q) -> get "limit" q = Some "25" ->
                    ~ In ("limit", "0") q) as Hnot.
  { intros q Hnd Hq Hin.
    pose proof (@get_In_unique "limit" "25" "0" q Hnd Hq Hin) as H.
    discriminate H. }
  split; [|split; [|split]].
  - destruct m; cbn [callList listEndpoint];
      unfold listAdAccounts, listCampaigns, listAdSets, listAds, listAdCreatives,
        listAdImages, listAdVideos, listCustomAudiences, listPixels,
        listProductCatalogs, listProductSets, getBusinesses, listBusinessAdAccounts;
      eexists; (split; [reflexivity|]).
    all: rewrite H25.
    all: match goal with
         | |- get "limit" ?q = _ /\ _ =>
             assert (get "limit" q = Some "25") as Hq;
             [|split; [exact Hq|apply Hnot; [apply requestSearchParams_NoDup|exact Hq]]]
         end.
    all: rewrite get_requestSearchParams, ?lookupParam_app,
           ?lookupParam_assignIfTruthy_other by reflexivity; reflexivity.
  - destruct m; cbn [callList listEndpoint];
      unfold listAdAccounts, listCampaigns, listAdSets, listAds, listAdCreatives,
        listAdImages, listAdVideos, listCustomAudiences, listPixels,
        listProductCatalogs, listProductSets, getBusinesses, listBusinessAdAccounts;
      eexists; (split; [reflexivity|]).
    all: rewrite get_requestSearchParams, ?lookupParam_app,
           ?lookupParam_assignIfTruthy_other by reflexivity; reflexivity.
  - rewrite get_requestSearchParams. reflexivity.
  - rewrite get_requestSearchParams. reflexivity.
Qed.

End Shaping.

Lemma createCampaign_defaults_witness :
  exists q,
    firstRequest (createCampaign (newMetaAdsClientImpl (tokenOnly "TOKEN")) "123"
                    (campaignInput "Spring Sale" OUTCOME_SALES))
    = Some {| url := urlOf (newMetaAdsClientImpl (tokenOnly "TOKEN"))
                       "/act_123/campaigns" q;
              init := jsonInit (Some "POST") |}
    /\ get "status" q = Some "PAUSED"
    /\ get "special_ad_categories" q = Some noneCategories.
Proof.
  destruct (createCampaign_defaults (newMetaAdsClientImpl (tokenOnly "TOKEN"))
              "123" (campaignInput "Spring Sale" OUTCOME_SALES))
    as (q & Hq & Hs & Hc & _ & _).
  exists q. split; [exact Hq|]. split; [apply Hs|apply Hc]; reflexivity.
Defined.

(** Scenario A, as the URL of the call. *)
Example scenario_A :
  option_map url
    (firstRequest (createCampaign (newMetaAdsClientImpl (tokenOnly "TOKEN")) "123"
                     (campaignInput "Spring Sale" OUTCOME_SALES)))
  = Some ("https://graph.facebook.com/v21.0/act_123/campaigns"
          ++ "?access_token=TOKEN&name=Spring+Sale&objective=OUTCOME_SALES"
          ++ "&status=PAUSED&special_ad_categories=%5B%22NONE%22%5D").
Proof. reflexivity. Qed.

(** Scenario B: listing the ad sets of the campaign 123. *)
Example scenario_B (this : MetaAdsClientImpl) (accountId : string) (p : ListParams) :
  campaignId p = Some "123" ->
  exists q,
    firstRequest (listAdSets this accountId (Some p))
    = Some {| url := urlOf this ("/" ++ normalizeAccountId accountId ++ "/adsets") q;
              init := jsonInit None |}
    /\ get "filtering" q
       = Some (stringify (JArray [JObject [("field", JString "campaign.id");
                                           ("operator", JString "EQUAL");
                                           ("value", JString "123")]])).
Proof.
  intros H. eexists. split; [reflexivity|].
  rewrite get_requestSearchParams, lookupParam_app.
  cbn [opt]. rewrite H. reflexivity.
Qed.

Lemma request_parameter_omission_witness :
  let this := newMetaAdsClientImpl (tokenOnly "TOKEN") in
  let q := requestSearchParams this
             (Some [("after", PUndefined); ("limit", PNumber (Num 0))]) in
  get "after" q = None /\ ~ In "after" (names q).
Proof.
  intros this q.
  apply (proj1 (proj2 (@request_parameter_omission this unit "/me" noOptions
                         [("after", PUndefined); ("limit", PNumber (Num 0))]
                         "after" PUndefined
                         ltac:(repeat constructor; cbn; intuition discriminate)
                         ltac:(now left)))).
  - reflexivity.
  - discriminate.
Defined.

Lemma sparse_update_witness :
  exists text,
    firstRequest (callUpdate (UpdateCampaign (renameCampaign "Autumn"))
                    (newMetaAdsClientImpl (tokenOnly "TOKEN")) "120")
    = Some {| url := urlOf (newMetaAdsClientImpl (tokenOnly "TOKEN")) "/120"
                       [("access_token", "TOKEN"); ("name", text)];
              init := jsonInit (Some "POST") |}.
Proof.
  apply (sparse_update (newMetaAdsClientImpl (tokenOnly "TOKEN"))
           (UpdateCampaign (renameCampaign "Autumn")) "120" (field := "name")).
  reflexivity.
Defined.

(** A campaign update that only renames, as the URL of the call. *)
Example rename_campaign_url :
  option_map url
    (firstRequest (updateCampaign (newMetaAdsClientImpl (tokenOnly "TOKEN")) "120"
                     (renameCampaign "Autumn")))
  = Some "https://graph.facebook.com/v21.0/120?access_token=TOKEN&name=Autumn".
Proof. reflexivity. Qed.

Lemma list_limit_zero_replaced_witness :
  exists q,
    firstRequest (callList ListAdSets (newMetaAdsClientImpl (tokenOnly "TOKEN"))
                    "123" (Some (limitOnly (Num 0))))
    = Some {| url := urlOf (newMetaAdsClientImpl (tokenOnly "TOKEN"))
                       "/act_123/adsets" q;
              init := jsonInit None |}
    /\ get "limit" q = Some "25"
    /\ ~ In ("limit", "0") q.
Proof.
  apply (proj1 (@list_limit_zero_replaced (newMetaAdsClientImpl (tokenOnly "TOKEN"))
                  ListAdSets "123" (limitOnly (Num 0)) (Num 0) eq_refl eq_refl)).
Defined.

(* ------------------------------------------------------------------------- *)
(** * Further properties *)
(* ------------------------------------------------------------------------- *)

Import Formatters.

(** ** What classification keeps *)

(** The five shapes of a classified error. *)
Lemma parseMetaApiError_cases (e : Upstream.Error) (statusCode : Z) :
  let m := or_default truthy_string (Upstream.message e) "Unknown error" in
  let r := parseMetaApiError {| error := Some e |} statusCode in
  r = newAuthenticationError m (Upstream.error_subcode e) (Upstream.fbtrace_id e)
  \/ r = newPermissionError m (Upstream.error_subcode e) (Upstream.fbtrace_id e)
  \/ (r = newRateLimitError m (Num 60) (Upstream.fbtrace_id e)
      /\ rateLimitCode (Upstream.code e) = true)
  \/ r = newValidationError m [] (Upstream.fbtrace_id e)
  \/ (exists text,
        r = newMetaAdsApiError m (Some statusCode) (Some text) false
              (Some {| extra_errorSubcode := Upstream.error_subcode e;
                       extra_errorUserTitle := Upstream.error_user_title e;
                       extra_errorUserMsg := Upstream.error_user_msg e;
                       extra_fbTraceId := Upstream.fbtrace_id e |})
        /\ rateLimitCode (Upstream.code e) = false).
Proof.
  intros m r. subst m r. unfold parseMetaApiError, rateLimitCode. cbn [error].
  destruct (Upstream.code e) as [[c| |negative]|]; unfold number_eqb.
  - decide_tests; cbn [orb andb negb]; eauto 10.
  - cbn [orb andb negb]. right. right. right. right. eauto.
  - cbn [orb andb negb]. right. right. right. right. eauto.
  - cbn [orb andb negb]. right. right. right. right. eauto.
Qed.

(** X1. Whatever the kind, the classified error has the upstream message
    (or "Unknown error" when the upstream gives none or an empty one) and
    the upstream trace id. *)
Theorem classification_keeps_message_and_trace (e : Upstream.Error) (statusCode : Z) :
  let r := parseMetaApiError {| error := Some e |} statusCode in
  (forall m, Upstream.message e = Some m -> m <> "" -> message r = m)
  /\ (Upstream.message e = None \/ Upstream.message e = Some "" ->
        message r = "Unknown error")
  /\ fbTraceId r = Upstream.fbtrace_id e.
Proof.
  intros r.
  assert (message r = or_default truthy_string (Upstream.message e) "Unknown error"
          /\ fbTraceId r = Upstream.fbtrace_id e) as [Hm Ht].
  { subst r.
    destruct (parseMetaApiError_cases e statusCode)
      as [->|[->|[[-> _]|[->|(text & -> & _)]]]]; split; reflexivity. }
  split; [|split; [|exact Ht]].
  - intros m Hsome Hne. rewrite Hm, Hsome. destruct m; [contradiction|reflexivity].
  - intros [H|H]; rewrite Hm, H; reflexivity.
Qed.

Lemma classification_keeps_message_and_trace_witness :
  message (parseMetaApiError {| error := Some (detailedUpstream 190) |} 400)
  = "Application request limit reached".
Proof.
  apply (proj1 (classification_keeps_message_and_trace (detailedUpstream 190) 400)
           "Application request limit reached" eq_refl).
  discriminate.
Defined.

(** X2. The classifier never builds a not-found error, and the status an
    error reports is fixed by its class (401, 403, 429, 400): only an error
    of the base class reports the status of the response. *)
Theorem classification_status (body : ErrorBody) (actual : Z) :
  let r := parseMetaApiError body actual in
  name r <> NotFoundErrorName
  /\ statusCode r = Some (statusOfClass (name r) actual).
Proof.
  intros r. subst r. destruct body as [[e|]]; [|split; [discriminate|reflexivity]].
  destruct (parseMetaApiError_cases e actual)
    as [->|[->|[[-> _]|[->|(text & -> & _)]]]]; split; (discriminate || reflexivity).
Qed.

(** X3. Of the upstream diagnostics, the sub-code is kept by authentication,
    permission and base-class errors and dropped by rate limit and
    validation errors; the user-facing title and message are kept by
    base-class errors only. *)
Theorem classification_diagnostics (e : Upstream.Error) (statusCode : Z) :
  let r := parseMetaApiError {| error := Some e |} statusCode in
  errorSubcode r
  = match name r with
    | RateLimitErrorName | ValidationErrorName => None
    | _ => Upstream.error_subcode e
    end
  /\ errorUserTitle r
     = match name r with
       | MetaAdsApiErrorName => Upstream.error_user_title e
       | _ => None
       end
  /\ errorUserMsg r
     = match name r with
       | MetaAdsApiErrorName => Upstream.error_user_msg e
       | _ => None
       end.
Proof.
  intros r. subst r.
  destruct (parseMetaApiError_cases e statusCode)
    as [->|[->|[[-> _]|[->|(text & -> & _)]]]]; repeat split.
Qed.

(** The classified error is retryable exactly for the rate limit codes. *)
Lemma parseMetaApiError_retryable_iff (body : ErrorBody) (statusCode : Z) :
  retryable (parseMetaApiError body statusCode)
  = rateLimitBody (Fulfilled (Value body)).
Proof.
  destruct body as [[e|]]; [|reflexivity]. cbn [rateLimitBody error].
  destruct (parseMetaApiError_cases e statusCode)
    as [H|[H|[[H Hc]|[H|(text & H & Hc)]]]]; rewrite H; try rewrite Hc; try reflexivity.
  all: unfold rateLimitCode;
    destruct (Upstream.code e) as [[c| |negative]|] eqn:Hcode; try reflexivity.
  all: pose proof (parseMetaApiError_name e statusCode Hcode) as Hn;
       rewrite H in Hn; cbn [name newAuthenticationError newPermissionError
         newValidationError set_name set_details newMetaAdsApiError] in Hn;
       revert Hn; decide_tests; cbn [orb andb]; try discriminate; reflexivity.
Qed.

(** How [request] fails on a response that is not a success: with an API
    error, but for a body that is [null] under a status other than 429, for
    which reading the body throws a [TypeError]. *)
Lemma handleResponse_failure (T : Type) (response : Response T) :
  ok response = false ->
  exists t, handleResponse response = Throw t /\ requestFailure response t.
Proof.
  intros Hok. unfold requestFailure, handleResponse. rewrite Hok. cbn [negb].
  destruct (Z.eqb_spec (status response) 429) as [H429|H429].
  - eexists. split; [reflexivity|]. split; [eauto|contradiction].
  - destruct (json_error response) as [[|b]|reason]; eexists;
      (split; [reflexivity|]); cbn [throwParsed]; split; eauto;
      try (intros [H|H]; [contradiction|now contradiction H]);
      try discriminate.
Qed.

(** X4. When the response of [request] is not a success, the method throws,
    and what it throws is retryable exactly when the status is 429 or the
    body carries one of the codes 4, 17, 32, 613: no other status, 5xx
    included, makes a failure retryable.  What it throws is an API error,
    but for a body that is [null] under a status other than 429: reading
    that body throws a [TypeError], which is not retryable. *)
Theorem request_failure_retryable (T : Type) (this : MetaAdsClientImpl)
    (endpoint : string) (options : RequestInit) (params : option Params) :
  exists r k,
    request T this endpoint options params = Fetch T r k
    /\ forall response : Response T,
        ok response = false ->
        exists t,
          k (Fulfilled response) = Throw t
          /\ isRetryableError t
             = ((status response =? 429) || rateLimitBody (json_error response))%bool
          /\ requestFailure response t.
Proof.
  eexists. eexists. split; [reflexivity|].
  intros response Hok. cbn beta iota.
  destruct (@handleResponse_failure _ response Hok) as (t & Ht & Hfail).
  exists t. split; [exact Ht|]. split; [|exact Hfail].
  revert Ht. unfold handleResponse. rewrite Hok.
  destruct (status response =? 429) eqn:H429.
  - intros [= <-]. reflexivity.
  - cbn [negb orb]. intros [= <-].
    destruct (json_error response) as [[|b]|reason]; cbn [throwParsed isRetryableError].
    + reflexivity.
    + apply parseMetaApiError_retryable_iff.
    + reflexivity.
Qed.

Lemma request_failure_retryable_witness :
  exists r k,
    request unit (newMetaAdsClientImpl (tokenOnly "TOKEN")) "/me" noOptions None
    = Fetch unit r k
    /\ exists t,
        k (Fulfilled (failure unit 503 None (Fulfilled Null))) = Throw t
        /\ isRetryableError t = false
        /\ t = errorOfNull.
Proof.
  destruct (request_failure_retryable unit (newMetaAdsClientImpl (tokenOnly "TOKEN"))
              "/me" noOptions None) as (r & k & Hr & H).
  exists r, k. split; [exact Hr|].
  destruct (H (failure unit 503 None (Fulfilled Null)) eq_refl)
    as (t & Ht & Hret & (_ & Hnull)).
  exists t. split; [exact Ht|]. split; [exact Hret|].
  apply Hnull; [discriminate|reflexivity].
Defined.

(** ** Logging and reporting a failure *)

(** Which optional properties the log record of an API error has. *)
Lemma formatErrorForLogging_props (e : MetaAdsApiError) (stack : option string) :
  let log := formatErrorForLogging (ApiError e) stack in
  hasProp "retryAfterSeconds" log = isRateLimitError e
  /\ propValue "retryAfterSeconds" log
     = (if isRateLimitError e then Some (option_map JNumber (retryAfterSeconds e)) else None)
  /\ hasProp "details" log = isValidationError e
  /\ hasProp "errorSubcode" log = truthyNumber (errorSubcode e)
  /\ hasProp "errorUserTitle" log = truthyString (errorUserTitle e)
  /\ hasProp "errorUserMsg" log = truthyString (errorUserMsg e)
  /\ hasProp "fbTraceId" log = truthyString (fbTraceId e)
  /\ hasProp "stack" log = false.
Proof.
  destruct e as [n m sc c sub ut um tr ret ras det].
  unfold formatErrorForLogging, isRateLimitError, isValidationError, truthyNumber,
    truthyString.
  cbn [name message statusCode code errorSubcode errorUserTitle errorUserMsg
       fbTraceId retryable retryAfterSeconds details].
  destruct n;
    destruct sub as [sub|]; try destruct (truthy_number sub);
    destruct ut as [ut|]; try destruct (truthy_string ut);
    destruct um as [um|]; try destruct (truthy_string um);
    destruct tr as [tr|]; try destruct (truthy_string tr);
    repeat split.
Qed.

(** X5. In the log record of a classified upstream error: the retry-after
    appears exactly for a rate limit code, with the value 60; the trace id
    appears exactly when the upstream gave a non-empty one; the sub-code
    appears only when the upstream gave a non-zero one and the error is not
    a rate limit or validation error; the user-facing message appears only
    for an error of the base class; and there is never a stack. *)
Theorem log_of_classified_error (e : Upstream.Error) (statusCode : Z)
    (stack : option string) :
  let r := parseMetaApiError {| error := Some e |} statusCode in
  let log := formatErrorForLogging (ApiError r) stack in
  hasProp "retryAfterSeconds" log = rateLimitCode (Upstream.code e)
  /\ (rateLimitCode (Upstream.code e) = true ->
        propValue "retryAfterSeconds" log = Some (Some (JNumber (Num 60))))
  /\ hasProp "fbTraceId" log = truthyString (Upstream.fbtrace_id e)
  /\ (hasProp "errorSubcode" log = true ->
        truthyNumber (Upstream.error_subcode e) = true
        /\ name r <> RateLimitErrorName /\ name r <> ValidationErrorName)
  /\ (hasProp "errorUserMsg" log = true ->
        truthyString (Upstream.error_user_msg e) = true
        /\ name r = MetaAdsApiErrorName)
  /\ hasProp "stack" log = false.
Proof.
  intros r log.
  destruct (formatErrorForLogging_props r stack)
    as (Hra & Hrv & _ & Hsub & _ & Hum & Htr & Hst).
  fold log in Hra, Hrv, Hsub, Hum, Htr, Hst.
  rewrite Hra, Hrv, Hsub, Hum, Htr, Hst. clear Hra Hrv Hsub Hum Htr Hst.
  subst r.
  destruct (parseMetaApiError_cases e statusCode)
    as [H|[H|[[H Hc]|[H|(text & H & Hc)]]]]; rewrite H; try rewrite Hc.
  3, 5: cbn; repeat split; try discriminate; try tauto; intros; discriminate.
  all: assert (rateLimitCode (Upstream.code e) = false) as Hc;
    [ pose proof (parseMetaApiError_retryable_iff {| error := Some e |} statusCode) as Hr;
      rewrite H in Hr; symmetry; exact Hr | ].
  all: rewrite Hc; cbn; repeat split; try discriminate; try tauto; intros; discriminate.
Qed.

Lemma log_of_classified_error_witness :
  propValue "retryAfterSeconds"
    (formatErrorForLogging
       (ApiError (parseMetaApiError {| error := Some (detailedUpstream 17) |} 400)) None)
  = Some (Some (JNumber (Num 60))).
Proof.
  apply (proj1 (proj2 (log_of_classified_error (detailedUpstream 17) 400 None))).
  reflexivity.
Defined.

(** X6. The response [formatError] builds for a classified upstream error
    is marked as an error and has one text item, the indented JSON of an
    object with the properties [error] and [details].  The [error] line is
    "Error: " and the message, followed by " (retryable)" exactly for a rate
    limit code, or by " - " and the upstream user message when that is not
    empty and the error is of the base class; an error of another class
    never shows the user message. *)
Theorem formatError_of_classified (e : Upstream.Error) (statusCode : Z)
    (stack : option string) :
  let r := parseMetaApiError {| error := Some e |} statusCode in
  let line :=
    if rateLimitCode (Upstream.code e) then "Error: " ++ message r ++ " (retryable)"
    else match name r, Upstream.error_user_msg e with
         | MetaAdsApiErrorName, Some m =>
             if truthy_string m then "Error: " ++ message r ++ " - " ++ m
             else "Error: " ++ message r
         | _, _ => "Error: " ++ message r
         end in
  formatError (ApiError r) stack
  = {| content :=
         [{| content_type := "text";
             text := stringify2
                       (JObject [("error", JString line);
                                 ("details",
                                    JObject (definedProps
                                               (formatErrorForLogging (ApiError r) stack)))]) |}];
       isError := Some true |}.
Proof.
  intros r line. unfold formatError. do 4 f_equal.
  subst line r.
  destruct (parseMetaApiError_cases e statusCode)
    as [H|[H|[[H Hc]|[H|(text & H & Hc)]]]]; rewrite H; try rewrite Hc.
  3: reflexivity.
  4: { cbn. destruct (Upstream.error_user_msg e) as [m|]; [|reflexivity].
       destruct (truthy_string m); reflexivity. }
  all: assert (rateLimitCode (Upstream.code e) = false) as Hc;
    [ pose proof (parseMetaApiError_retryable_iff {| error := Some e |} statusCode) as Hr;
      rewrite H in Hr; symmetry; exact Hr | ].
  all: rewrite Hc; reflexivity.
Qed.

(** ** Reading integers *)

Lemma parse_digits_string_of_uint (d : Decimal.uint) (acc : Z) :
  parse_digits (NilEmpty.string_of_uint d) acc true = Some (uintValue d acc).
Proof.
  revert acc. induction d; intros acc; cbn [NilEmpty.string_of_uint uintValue];
    try reflexivity; apply IHd.
Qed.

Lemma parse_digits_seen (d : Decimal.uint) (acc : Z) :
  d <> Decimal.Nil ->
  parse_digits (NilEmpty.string_of_uint d) acc false
  = parse_digits (NilEmpty.string_of_uint d) acc true.
Proof. destruct d; intros H; [contradiction|reflexivity..]. Qed.

Lemma uintValue_pos (d : Decimal.uint) (acc : positive) :
  uintValue d (Z.pos acc) = Z.pos (Pos.of_uint_acc d acc).
Proof.
  revert acc. induction d; intros acc; cbn [uintValue Pos.of_uint_acc];
    try reflexivity;
    match goal with
    | |- uintValue _ ?z = Z.pos (Pos.of_uint_acc _ ?p) =>
        replace z with (Z.pos p) by lia; apply IHd
    end.
Qed.

Lemma uintValue_0 (d : Decimal.uint) : uintValue d 0 = Z.of_N (Pos.of_uint d).
Proof.
  induction d; cbn [uintValue Pos.of_uint]; try reflexivity; try exact IHd;
    match goal with
    | |- uintValue _ ?z = _ =>
        let v := eval cbv in z in change z with v
    end;
    apply uintValue_pos.
Qed.

Lemma to_uint_not_Nil (p : positive) : Pos.to_uint p <> Decimal.Nil.
Proof.
  intros H. pose proof (DecimalPos.Unsigned.of_to p) as Hp.
  rewrite H in Hp. discriminate Hp.
Qed.

Lemma uintValue_to_uint (p : positive) : uintValue (Pos.to_uint p) 0 = Z.pos p.
Proof. now rewrite uintValue_0, DecimalPos.Unsigned.of_to. Qed.

(** A run of digits has no white space to skip and no sign to read. *)
Lemma digits_start (d : Decimal.uint) :
  d <> Decimal.Nil ->
  let s := NilEmpty.string_of_uint d in
  trim_start s = s /\ trim_start_text s = s
  /\ match s with
     | String "-" _ | String "+" _ | EmptyString => False
     | _ => True
     end.
Proof.
  intros H. destruct d; [contradiction|..]; cbn [NilEmpty.string_of_uint];
    (split; [reflexivity|]);
    (split; [|exact I]);
    destruct (NilEmpty.string_of_uint d) as [|b [|c r]]; reflexivity.
Qed.

Lemma minus_digits_start (s : string) :
  trim_start (String "-" s) = String "-" s
  /\ trim_start_text (String "-" s) = String "-" s.
Proof. split; [reflexivity|]. destruct s as [|b [|c r]]; reflexivity. Qed.

Lemma parseInt_digits (d : Decimal.uint) :
  d <> Decimal.Nil ->
  parseInt10 (NilEmpty.string_of_uint d) = roundToDouble (uintValue d 0)
  /\ parseInt10_text (NilEmpty.string_of_uint d) = roundToDouble (uintValue d 0).
Proof.
  intros Hd.
  destruct (@digits_start d Hd) as (Ht & Htt & _).
  assert (parse_digits (NilEmpty.string_of_uint d) 0 false = Some (uintValue d 0)) as Hp
    by (rewrite parse_digits_seen by exact Hd; apply parse_digits_string_of_uint).
  unfold parseInt10, parseInt10_text. rewrite Ht, Htt.
  destruct d; [contradiction|..]; cbn [NilEmpty.string_of_uint] in *;
    cbv zeta; cbn iota; rewrite Hp; split; f_equal; lia.
Qed.

(** Reading the decimal numeral of an integer gives the double nearest to
    the integer. *)
Lemma parseInt_decimal (z : Z) :
  parseInt10 (decimal z) = roundToDouble z
  /\ parseInt10_text (decimal z) = roundToDouble z.
Proof.
  destruct z as [|p|p].
  - split; reflexivity.
  - pose proof (to_uint_not_Nil p) as Hnil.
    assert (decimal (Z.pos p) = NilEmpty.string_of_uint (Pos.to_uint p)) as Hs.
    { unfold decimal, NilZero.string_of_int, Z.to_int, NilZero.string_of_uint.
      destruct (Pos.to_uint p); [contradiction|reflexivity..]. }
    rewrite Hs. destruct (@parseInt_digits (Pos.to_uint p) Hnil) as [-> ->].
    now rewrite uintValue_to_uint.
  - pose proof (to_uint_not_Nil p) as Hnil.
    assert (decimal (Z.neg p)
            = String "-" (NilEmpty.string_of_uint (Pos.to_uint p))) as Hs.
    { unfold decimal, NilZero.string_of_int, Z.to_int, NilZero.string_of_uint.
      destruct (Pos.to_uint p); [contradiction|reflexivity..]. }
    rewrite Hs. unfold parseInt10, parseInt10_text.
    destruct (minus_digits_start (NilEmpty.string_of_uint (Pos.to_uint p))) as [-> ->].
    cbv zeta. rewrite parse_digits_seen by exact Hnil.
    rewrite parse_digits_string_of_uint, uintValue_to_uint.
    split; reflexivity.
Qed.

(** Up to 2^53 an integer is a double, and its text is its decimal numeral. *)
Lemma roundToDouble_exact (z : Z) : Z.abs z <= 2 ^ 53 -> roundToDouble z = Num z.
Proof.
  intros H. unfold roundToDouble. apply Z.leb_le in H. cbv zeta. now rewrite H.
Qed.

Lemma ToString_decimal (z : Z) : Z.abs z <= 2 ^ 53 -> ToString (Num z) = decimal z.
Proof. intros H. unfold ToString. apply Z.leb_le in H. now rewrite H. Qed.

(** Reading back the text of an integer up to 2^53 gives the integer. *)
Lemma parseInt_ToString (z : Z) :
  Z.abs z <= 2 ^ 53 ->
  parseInt10 (ToString (Num z)) = Num z
  /\ parseInt10_text (ToString (Num z)) = Num z.
Proof.
  intros H. rewrite (@ToString_decimal z H).
  destruct (parseInt_decimal z) as [-> ->]. rewrite (@roundToDouble_exact z H).
  split; reflexivity.
Qed.

(** ** Numeric settings *)

(** X7. [getEnvNumber] never returns [NaN] when its default is a number:
    it returns the default when the key is a binding, when the variable is
    not set, and when its text does not start with an integer. *)
Theorem getEnvNumber_never_NaN (env : EnvVars) (key : EnvKey) (d : Z) :
  isNaN (getEnvNumber env key (Num d)) = false
  /\ (envString env key = None -> getEnvNumber env key (Num d) = Num d)
  /\ (forall value,
         envString env key = Some value -> parseInt10_text value = NaN ->
         getEnvNumber env key (Num d) = Num d)
  /\ (key = OAUTH_KV \/ key = MCP_SESSIONS \/ key = AI ->
        getEnvNumber env key (Num d) = Num d).
Proof.
  unfold getEnvNumber. repeat split.
  - destruct (envString env key) as [value|]; [|reflexivity].
    cbv zeta. destruct (parseInt10_text value); reflexivity.
  - now intros ->.
  - intros value -> Hnan. cbv zeta. now rewrite Hnan.
  - intros [ -> | [ -> | -> ] ]; reflexivity.
Qed.

Lemma getEnvNumber_never_NaN_witness :
  getEnvNumber (envOf None (Some "twenty") None None) DEFAULT_PAGE_SIZE (Num 25) = Num 25.
Proof.
  apply (proj1 (proj2 (proj2 (getEnvNumber_never_NaN
                                (envOf None (Some "twenty") None None)
                                DEFAULT_PAGE_SIZE 25)))
           "twenty"); reflexivity.
Defined.

(** Above 2^53 the digits are rounded to a double, and the text of a double
    is not always its decimal numeral. *)
Example parseInt_rounds :
  parseInt10_text "9007199254740993" = Num 9007199254740992
  /\ parseInt10 "9007199254740995" = Num 9007199254740996
  /\ ToString (parseInt10 "18446744073709551616") = "18446744073709552000"
  /\ ToString (parseInt10 "1000000000000000000000") = "1e+21".
Proof. vm_compute. repeat split. Qed.

(** X8. A variable holding the text of an integer of at most 2^53 in
    absolute value (every such integer is a double) is read back as that
    integer, whatever the default: the getters apply no bound of their own,
    so a zero or negative page size or limit is returned as it is. *)
Theorem getEnvNumber_reads_decimal (env : EnvVars) (key : EnvKey)
    (z : Z) (defaultValue : number) :
  Z.abs z <= 2 ^ 53 ->
  envString env key = Some (ToString (Num z)) ->
  getEnvNumber env key defaultValue = Num z.
Proof.
  intros Hz H. unfold getEnvNumber. rewrite H. cbv zeta.
  now rewrite (proj2 (@parseInt_ToString z Hz)).
Qed.

Lemma getEnvNumber_reads_decimal_witness :
  getMaxPageSize (envOf None None (Some "-5") None) = Num (-5).
Proof.
  apply (@getEnvNumber_reads_decimal (envOf None None (Some "-5") None)
           MAX_PAGE_SIZE (-5) (Num 100)).
  - vm_compute. discriminate.
  - reflexivity.
Defined.

(** X9. A 429 whose [Retry-After] header is the text of an integer of at
    most 2^53 in absolute value makes [request] throw a rate limit error with
    that integer as the retry-after, whatever the body (a [null] body
    included, since the body of a 429 is not read) and whatever the integer
    in that range, zero and negative values included. *)
Theorem request_429_reads_decimal (T : Type) (this : MetaAdsClientImpl)
    (endpoint : string) (options : RequestInit) (params : option Params) (n : Z) :
  Z.abs n <= 2 ^ 53 ->
  exists r k,
    request T this endpoint options params = Fetch T r k
    /\ forall response : Response T,
        status response = 429 ->
        header_Retry_After response = Some (ToString (Num n)) ->
        k (Fulfilled response)
        = Throw (ApiError (newRateLimitError "Rate limit exceeded" (Num n) None)).
Proof.
  intros Hn. eexists. eexists. split; [reflexivity|].
  intros response Hs Hh. cbn beta iota. rewrite handleResponse_429 by exact Hs.
  rewrite Hh, ToString_truthy. now rewrite (proj1 (@parseInt_ToString n Hn)).
Qed.

Lemma request_429_reads_decimal_witness :
  exists r k,
    request unit (newMetaAdsClientImpl (tokenOnly "TOKEN")) "/me" noOptions None
    = Fetch unit r k
    /\ k (Fulfilled (failure unit 429 (Some "120") (Fulfilled Null)))
       = Throw (ApiError (newRateLimitError "Rate limit exceeded" (Num 120) None)).
Proof.
  assert (Z.abs 120 <= 2 ^ 53) as Hn by (vm_compute; discriminate).
  destruct (@request_429_reads_decimal unit (newMetaAdsClientImpl (tokenOnly "TOKEN"))
              "/me" noOptions None 120 Hn) as (r & k & Hr & H).
  exists r, k. split; [exact Hr|].
  apply H; reflexivity.
Defined.

(** ** One call at a time *)

Lemma ok_not_429 (T : Type) (response : Response T) :
  ok response = true -> (status response =? 429) = false.
Proof.
  unfold ok. intros H. apply andb_prop in H. destruct H as [_ H].
  apply Z.leb_le in H. apply Z.eqb_neq. lia.
Qed.

Lemma handleResponse_success (T : Type) (response : Response T) (v : T) :
  succeedsWith response v -> handleResponse response = Ret (Some v).
Proof.
  intros (Hok & H204 & Hj). unfold handleResponse.
  rewrite (@ok_not_429 _ response Hok), Hok. cbn [negb].
  apply Z.eqb_neq in H204. now rewrite H204, Hj.
Qed.

Lemma handleResponse_204 (T : Type) (response : Response T) :
  status response = 204 -> handleResponse response = Ret None.
Proof. intros H. unfold handleResponse, ok. now rewrite H. Qed.

Lemma handleResponse_stops (T : Type) (response : Response T) :
  (exists a, handleResponse response = Ret a)
  \/ (exists t, handleResponse response = Throw t).
Proof.
  unfold handleResponse.
  destruct (status response =? 429); [right; eauto|].
  destruct (negb (ok response)); [right; eauto|].
  destruct (status response =? 204); [left; eauto|].
  destruct (json response); [left|right]; eauto.
Qed.

(** X10. [request] makes one call and no more: whatever the network does,
    the calls made when the method returns or throws are that single call;
    nothing is retried. *)
Theorem request_single_call (T : Type) (this : MetaAdsClientImpl)
    (endpoint : string) (options : RequestInit) (params : option Params)
    (sent : list HttpRequest) (out : Thrown + option T) :
  runs (request T this endpoint options params) sent out ->
  sent = [{| url := urlOf this endpoint (requestSearchParams this params);
             init := {| method := method options;
                        headers := requestHeaders options;
                        body := body options |} |}].
Proof.
  intros (x & sent' & -> & Hrun). f_equal.
  destruct x as [response|reason]; [|now destruct Hrun].
  destruct (@handleResponse_stops _ response) as [(a & Ha)|(t & Ht)].
  - rewrite Ha in Hrun. now destruct Hrun.
  - rewrite Ht in Hrun. now destruct Hrun.
Qed.

Lemma request_single_call_witness :
  [{| url := urlOf (newMetaAdsClientImpl (tokenOnly "TOKEN")) "/me"
               (requestSearchParams (newMetaAdsClientImpl (tokenOnly "TOKEN")) None);
      init := jsonInit None |}]
  = [{| url := "https://graph.facebook.com/v21.0/me?access_token=TOKEN";
        init := jsonInit None |}].
Proof.
  symmetry.
  apply (@request_single_call unit (newMetaAdsClientImpl (tokenOnly "TOKEN")) "/me"
           noOptions None _ (inl (PlainError "TypeError" "fetch failed"))).
  exists (Rejected (PlainError "TypeError" "fetch failed")), [].
  split; [reflexivity|]. split; reflexivity.
Defined.

(** X11. How [request] ends once its call has settled: a rejected call
    rethrows the reason; a 204 gives [undefined] without reading the body;
    any other success gives the body read as JSON, or rethrows when the body
    cannot be read; a failure status never gives a result: the method throws
    an API error, or the [TypeError] of reading a [null] body. *)
Theorem request_outcomes (T : Type) (this : MetaAdsClientImpl)
    (endpoint : string) (options : RequestInit) (params : option Params) :
  exists r k,
    request T this endpoint options params = Fetch T r k
    /\ (forall reason, k (Rejected reason) = Throw reason)
    /\ (forall response, status response = 204 -> k (Fulfilled response) = Ret None)
    /\ (forall response v, succeedsWith response v ->
          k (Fulfilled response) = Ret (Some v))
    /\ (forall response reason,
          ok response = true -> status response <> 204 ->
          json response = Rejected reason ->
          k (Fulfilled response) = Throw reason)
    /\ (forall response, ok response = false ->
          exists t, k (Fulfilled response) = Throw t /\ requestFailure response t).
Proof.
  eexists. eexists. split; [reflexivity|]. cbn beta iota.
  split; [reflexivity|]. split; [|split; [|split]].
  - intros response H. now apply handleResponse_204.
  - intros response v H. now apply handleResponse_success.
  - intros response reason Hok H204 Hj. unfold handleResponse.
    rewrite (@ok_not_429 _ response Hok), Hok. cbn [negb].
    apply Z.eqb_neq in H204. now rewrite H204, Hj.
  - intros response H. now apply handleResponse_failure.
Qed.

Lemma request_outcomes_witness :
  exists r k,
    request unit (newMetaAdsClientImpl (tokenOnly "TOKEN")) "/120"
      (withMethod "DELETE") None = Fetch unit r k
    /\ k (Fulfilled (failure unit 204 None (Fulfilled Null))) = Ret None.
Proof.
  destruct (request_outcomes unit (newMetaAdsClientImpl (tokenOnly "TOKEN")) "/120"
              (withMethod "DELETE") None) as (r & k & Hr & _ & H204 & _).
  exists r, k. split; [exact Hr|]. apply H204. reflexivity.
Defined.

(** ** Create, update, delete *)

Section Lifecycle.

Variable this : MetaAdsClientImpl.

(** X12. Every create method posts its parameters to the collection of the
    normalised account and then hands over to the get method of the entity:
    when the response carries an id, what the method returns is what that
    get method, called with the id and no field list, returns.  A 204
    response makes it throw a [TypeError], and a failure status makes it
    throw what [request] throws (an API error, or the [TypeError] of reading
    a [null] body); in both cases nothing is read back. *)
Theorem create_then_fetch (c : CreateCall) (accountId : string) :
  exists k,
    callCreate c this accountId
    = Fetch Created
        {| url := urlOf this
                    ("/" ++ normalizeAccountId accountId ++ "/" ++ createCollection c)
                    (requestSearchParams this (Some (createParams c)));
           init := jsonInit (Some "POST") |} k
    /\ (forall response v, succeedsWith response v ->
          k (Fulfilled response) = readBack c this (Entities.id v))
    /\ (forall response, status response = 204 ->
          k (Fulfilled response) = Throw idOfUndefined)
    /\ (forall response, ok response = false ->
          exists t, k (Fulfilled response) = Throw t /\ requestFailure response t)
    /\ (forall reason, k (Rejected reason) = Throw reason).
Proof.
  destruct c; (eexists; split; [reflexivity|]); cbn beta iota;
    (split; [|split; [|split]]).
  all: try (intros response v H; rewrite (@handleResponse_success _ response v H);
            reflexivity).
  all: try (intros response H; rewrite (@handleResponse_204 _ response H); reflexivity).
  all: try (intros response H;
            destruct (@handleResponse_failure _ response H) as (t & -> & Ht);
            exists t; split; [reflexivity|exact Ht]).
  all: intros reason; reflexivity.
Qed.

(** X13. Every update method, once its POST succeeds (with a readable body
    or with a 204), hands over to the get method of the entity, called with
    the same id and no field list.  When the POST fails (with an API error,
    or with the [TypeError] of reading a [null] body), or succeeds with a
    body that cannot be read, the method throws and reads nothing back. *)
Theorem update_then_fetch (u : UpdateCall) (id : string) :
  exists r k,
    callUpdate u this id = Fetch Entity r k
    /\ (forall response v, succeedsWith response v ->
          k (Fulfilled response) = readBackUpdate u this id)
    /\ (forall response, status response = 204 ->
          k (Fulfilled response) = readBackUpdate u this id)
    /\ (forall response, ok response = false ->
          exists t, k (Fulfilled response) = Throw t /\ requestFailure response t)
    /\ (forall response reason,
          ok response = true -> status response <> 204 ->
          json response = Rejected reason ->
          k (Fulfilled response) = Throw reason)
    /\ (forall reason, k (Rejected reason) = Throw reason).
Proof.
  destruct u; (eexists; eexists; split; [reflexivity|]); cbn beta iota;
    (split; [|split; [|split; [|split]]]).
  all: try (intros response v H; rewrite (@handleResponse_success _ response v H);
            reflexivity).
  all: try (intros response H; rewrite (@handleResponse_204 _ response H); reflexivity).
  all: try (intros response H;
            destruct (@handleResponse_failure _ response H) as (t & -> & Ht);
            exists t; split; [reflexivity|exact Ht]).
  all: try (intros reason; reflexivity).
  all: intros response reason Hok H204 Hj; unfold handleResponse;
    rewrite (@ok_not_429 _ response Hok), Hok; cbn [negb];
    apply Z.eqb_neq in H204; rewrite H204, Hj; reflexivity.
Qed.

(** X14. Every delete method makes one DELETE call to the entity, with the
    credential as its only query pair, and nothing else: when the method
    returns or throws, that call is all it has made. *)
Theorem delete_single_call (d : DeleteMethod) (id : string)
    (sent : list HttpRequest) (out : Thrown + unit) :
  runs (callDelete d this id) sent out ->
  sent = [{| url := urlOf this ("/" ++ id)
                      [("access_token", accessToken (credentials this))];
             init := jsonInit (Some "DELETE") |}].
Proof.
  intros Hrun.
  assert (exists x sent',
             sent = {| url := urlOf this ("/" ++ id)
                                [("access_token", accessToken (credentials this))];
                       init := jsonInit (Some "DELETE") |} :: sent'
             /\ runs (bind (match x with
                            | Fulfilled response => handleResponse response
                            | Rejected reason => Throw reason
                            end) (fun _ : option Entity => Ret tt)) sent' out)
    as (x & sent' & -> & Hr)
    by (destruct d; exact Hrun).
  f_equal. destruct x as [response|reason]; [|now destruct Hr].
  destruct (@handleResponse_stops _ response) as [(a & Ha)|(t & Ht)];
    [rewrite Ha in Hr|rewrite Ht in Hr]; now destruct Hr.
Qed.

(** X15. [testConnection] never throws: whatever the network does, it makes
    its one call and returns a result, which reports no user when it
    reports no connection. *)
Theorem testConnection_never_throws
    (sent : list HttpRequest) (out : Thrown + ConnectionResult) :
  runs (testConnection this) sent out ->
  exists result,
    out = inr result
    /\ sent = [{| url := urlOf this "/me"
                           [("access_token", accessToken (credentials this));
                            ("fields", "id,name")];
                  init := jsonInit None |}]
    /\ (connected result = false -> user result = None).
Proof.
  intros (x & sent' & -> & Hrun).
  destruct x as [response|reason].
  - cbn beta iota in Hrun.
    destruct (@handleResponse_stops _ response) as [(a & Ha)|(t & Ht)].
    + rewrite Ha in Hrun. destruct Hrun as [-> ->].
      eexists. split; [reflexivity|]. split; [reflexivity|]. discriminate.
    + rewrite Ht in Hrun. destruct Hrun as [-> ->].
      eexists. split; [reflexivity|]. split; reflexivity.
  - destruct Hrun as [-> ->].
    eexists. split; [reflexivity|]. split; reflexivity.
Qed.

End Lifecycle.

Lemma create_then_fetch_witness :
  exists k,
    callCreate (CreatePixel (pixelNamed "Shop")) (newMetaAdsClientImpl (tokenOnly "TOKEN"))
      "123"
    = Fetch Created
        {| url := "https://graph.facebook.com/v21.0/act_123/adspixels"
                  ++ "?access_token=TOKEN&name=Shop";
           init := jsonInit (Some "POST") |} k
    /\ k (Fulfilled (success 200 {| Entities.id := "987" |}))
       = getPixel (newMetaAdsClientImpl (tokenOnly "TOKEN")) "987" None.
Proof.
  destruct (create_then_fetch (newMetaAdsClientImpl (tokenOnly "TOKEN"))
              (CreatePixel (pixelNamed "Shop")) "123") as (k & Hk & Hs & _).
  exists k. split; [exact Hk|].
  apply (Hs (success 200 {| Entities.id := "987" |}) {| Entities.id := "987" |}).
  repeat split. discriminate.
Defined.

Lemma update_then_fetch_witness :
  exists r k,
    callUpdate (UpdateCampaign (renameCampaign "Autumn"))
      (newMetaAdsClientImpl (tokenOnly "TOKEN")) "120" = Fetch Entity r k
    /\ k (Fulfilled (failure Entity 204 None (Fulfilled (Value emptyBody))))
       = getCampaign (newMetaAdsClientImpl (tokenOnly "TOKEN")) "120" None.
Proof.
  destruct (update_then_fetch (newMetaAdsClientImpl (tokenOnly "TOKEN"))
              (UpdateCampaign (renameCampaign "Autumn")) "120")
    as (r & k & Hr & _ & H204 & _).
  exists r, k. split; [exact Hr|]. apply H204. reflexivity.
Defined.

Lemma delete_single_call_witness :
  [{| url := urlOf (newMetaAdsClientImpl (tokenOnly "TOKEN")) "/120"
               [("access_token", "TOKEN")];
      init := jsonInit (Some "DELETE") |}]
  = [{| url := "https://graph.facebook.com/v21.0/120?access_token=TOKEN";
        init := jsonInit (Some "DELETE") |}].
Proof.
  symmetry.
  apply (@delete_single_call (newMetaAdsClientImpl (tokenOnly "TOKEN")) DeleteCampaign
           "120" _ (inr tt)).
  exists (Fulfilled (failure Entity 204 None (Fulfilled (Value emptyBody)))), [].
  split; [reflexivity|]. split; reflexivity.
Defined.

Lemma testConnection_never_throws_witness :
  exists result,
    (inr {| connected := false; connection_message := "fetch failed"; user := None |}
     : Thrown + ConnectionResult)
    = inr result
    /\ [{| url := urlOf (newMetaAdsClientImpl (tokenOnly "TOKEN")) "/me"
                   [("access_token", "TOKEN"); ("fields", "id,name")];
           init := jsonInit None |}]
       = [{| url := urlOf (newMetaAdsClientImpl (tokenOnly "TOKEN")) "/me"
                      [("access_token", "TOKEN"); ("fields", "id,name")];
             init := jsonInit None |}]
    /\ (connected result = false -> user result = None).
Proof.
  apply (@testConnection_never_throws (newMetaAdsClientImpl (tokenOnly "TOKEN"))).
  exists (Rejected (PlainError "TypeError" "fetch failed")), [].
  split; [reflexivity|]. split; reflexivity.
Defined.

(** ** More parameter shaping *)

Section MoreShaping.

Variable this : MetaAdsClientImpl.

Lemma lookupParam_assignIfTruthy_same (A : Type) (truthy : A -> bool)
    (key : string) (v : option A) (conv : A -> ParamValue) (acc : option string) :
  lookupParam key (assignIfTruthy truthy key v conv) acc
  = match v with
    | Some a =>
        if truthy a
        then match paramString (conv a) with Some s => Some s | None => acc end
        else acc
    | None => acc
    end.
Proof.
  unfold assignIfTruthy. destruct v as [a|]; [|reflexivity].
  destruct (truthy a); [|reflexivity]. cbn [lookupParam].
  now rewrite String.eqb_refl.
Qed.

Lemma lookupParam_assignIfDefined_same (A : Type)
    (key : string) (v : option A) (conv : A -> ParamValue) (acc : option string) :
  lookupParam key (assignIfDefined key v conv) acc
  = match v with
    | Some a => match paramString (conv a) with Some s => Some s | None => acc end
    | None => acc
    end.
Proof.
  unfold assignIfDefined. destruct v as [a|]; [|reflexivity].
  cbn [lookupParam]. now rewrite String.eqb_refl.
Qed.

(** Reduce a lookup in the query of a method to a lookup in the leading
    literal part of its parameters. *)
Ltac lookup_in_query :=
  rewrite get_requestSearchParams;
  unfold createCampaignParams, createAdSetParams, createAdParams,
    createAdCreativeParams, createCustomAudienceParams, updateCampaignParams,
    updateAdSetParams, updateAdParams, updateCustomAudienceParams;
  unfold buildInsightsParams;
  rewrite ?lookupParam_app;
  repeat match goal with
    | |- context [lookupParam ?key (assignIfTruthy ?t ?k ?v ?conv) ?acc] =>
        rewrite (@lookupParam_assignIfTruthy_other _ t key k v conv acc) by reflexivity
    | |- context [lookupParam ?key (assignIfDefined ?k ?v ?conv) ?acc] =>
        rewrite (@lookupParam_assignIfDefined_other _ key k v conv acc) by reflexivity
    end;
  rewrite ?lookupParam_assignIfTruthy_same, ?lookupParam_assignIfDefined_same.

(** X16. An ad set and an ad are created paused unless the caller gives a
    status, which is then sent as it is; the creative, audience and pixel
    create methods send no status at all. *)
Theorem created_paused_by_default (c : CreateCall) :
  get "status" (requestSearchParams this (Some (createParams c)))
  = match c with
    | CreateCampaign i =>
        Some (match cc_status i with Some s => Status_string s | None => "PAUSED" end)
    | CreateAdSet i =>
        Some (match sc_status i with Some s => Status_string s | None => "PAUSED" end)
    | CreateAd i =>
        Some (match ac_status i with Some s => Status_string s | None => "PAUSED" end)
    | CreateAdCreative _ | CreateCustomAudience _ | CreatePixel _ => None
    end.
Proof.
  destruct c as [i|i|i|i|i|i]; cbn [createParams]; lookup_in_query.
  1: destruct (cc_status i) as [[]|]; reflexivity.
  1: destruct (sc_status i) as [[]|]; reflexivity.
  1: destruct (ac_status i) as [[]|]; reflexivity.
  all: reflexivity.
Qed.

(** X17. A daily budget of 0 is left out when a campaign is created, since
    the create method tests the budget for truthiness, but is sent as
    [daily_budget=0] when a campaign is updated, since the update method
    tests it against [undefined]; any other budget is sent by both. *)
Theorem zero_budget_create_and_update
    (create : CampaignCreateInput) (update : CampaignUpdateInput) :
  get "daily_budget" (requestSearchParams this (Some (createCampaignParams create)))
  = (if truthyNumber (cc_daily_budget create)
     then option_map ToString (cc_daily_budget create) else None)
  /\ get "daily_budget" (requestSearchParams this (Some (updateCampaignParams update)))
     = option_map ToString (cu_daily_budget update)
  /\ (cc_daily_budget create = Some (Num 0) ->
        get "daily_budget"
          (requestSearchParams this (Some (createCampaignParams create))) = None)
  /\ (cu_daily_budget update = Some (Num 0) ->
        get "daily_budget"
          (requestSearchParams this (Some (updateCampaignParams update))) = Some "0").
Proof.
  assert (get "daily_budget"
            (requestSearchParams this (Some (createCampaignParams create)))
          = (if truthyNumber (cc_daily_budget create)
             then option_map ToString (cc_daily_budget create) else None)) as Hc.
  { lookup_in_query.
    destruct (cc_daily_budget create) as [b|]; [|reflexivity].
    cbn [truthyNumber option_map]. destruct (truthy_number b); reflexivity. }
  assert (get "daily_budget"
            (requestSearchParams this (Some (updateCampaignParams update)))
          = option_map ToString (cu_daily_budget update)) as Hu.
  { lookup_in_query.
    destruct (cu_daily_budget update) as [b|]; reflexivity. }
  split; [exact Hc|]. split; [exact Hu|]. split.
  - intros H. rewrite Hc, H. reflexivity.
  - intros H. rewrite Hu, H. reflexivity.
Qed.

(** X18. The insights methods send a page size only when the caller gives a
    truthy one: a missing or zero limit is left out, where the list methods
    send 25.  Their field list is the caller's, joined with commas, or the
    default set when that is missing or empty. *)
Theorem insights_limit_and_fields (params : option InsightsParams) :
  get "limit" (requestSearchParams this (Some (buildInsightsParams params)))
  = match params with
    | Some p => if truthyNumber (in_limit p) then option_map ToString (in_limit p) else None
    | None => None
    end
  /\ get "fields" (requestSearchParams this (Some (buildInsightsParams params)))
     = Some (match params with
             | Some p =>
                 match in_fields p with
                 | Some f => if truthy_string (join "," f) then join "," f
                             else DEFAULT_INSIGHTS_FIELDS
                 | None => DEFAULT_INSIGHTS_FIELDS
                 end
             | None => DEFAULT_INSIGHTS_FIELDS
             end)
  /\ (forall accountId,
         firstRequest (getAccountInsights this accountId params)
         = Some {| url := urlOf this ("/" ++ normalizeAccountId accountId ++ "/insights")
                            (requestSearchParams this (Some (buildInsightsParams params)));
                   init := jsonInit None |})
  /\ (forall id,
         firstRequest (getCampaignInsights this id params)
         = Some {| url := urlOf this ("/" ++ id ++ "/insights")
                            (requestSearchParams this (Some (buildInsightsParams params)));
                   init := jsonInit None |}
         /\ firstRequest (getAdSetInsights this id params)
            = firstRequest (getCampaignInsights this id params)
         /\ firstRequest (getAdInsights this id params)
            = firstRequest (getCampaignInsights this id params)).
Proof.
  split; [|split; [|split]].
  - lookup_in_query.
    destruct params as [p|]; [|reflexivity].
    destruct (in_limit p) as [l|]; [|reflexivity].
    cbn [truthyNumber option_map]. destruct (truthy_number l); reflexivity.
  - lookup_in_query.
    destruct params as [p|]; [|reflexivity].
    destruct (in_fields p) as [f|]; [|reflexivity].
    cbn. unfold or_default. destruct (truthy_string (join "," f)); reflexivity.
  - intros accountId. reflexivity.
  - intros id. repeat split.
Qed.

(** X19. An image upload is one POST of a form to the images of the
    normalised account: the URL has no query, so the token is not in it; the
    form holds the image bytes, the name when it is not empty, and the token
    last.  On a success whose body has an [images] object the method
    returns the first value of that object, or [undefined] when the object
    is empty; a body without [images], or a [null] body, makes it throw a
    [TypeError].  On a failure status, 429 included, it throws the error
    classified from the body, an unreadable body counting as the empty
    object; a [null] body makes the classifier throw a [TypeError]. *)
Theorem uploadAdImage_form (accountId imageData : string) (name : option string) :
  exists k,
    uploadAdImage this accountId imageData name
    = Fetch (Parsed Uploaded)
        {| url := baseUrl this ++ "/" ++ apiVersion this ++ "/"
                  ++ normalizeAccountId accountId ++ "/adimages";
           init := {| method := Some "POST"; headers := [];
                      body := Some ((("bytes", imageData)
                                     :: (if truthyString name
                                         then match name with
                                              | Some n => [("name", n)]
                                              | None => []
                                              end
                                         else []))
                                    ++ [("access_token", accessToken (credentials this))])%list |} |}
        k
    /\ (forall response found,
          ok response = true ->
          json response = Fulfilled (Value {| images := Some found |}) ->
          k (Fulfilled response) = Ret (hd_error (map snd found)))
    /\ (forall response,
          ok response = true ->
          json response = Fulfilled (Value {| images := None |}) ->
          k (Fulfilled response) = Throw valuesOfUndefined)
    /\ (forall response,
          ok response = true -> json response = Fulfilled Null ->
          k (Fulfilled response) = Throw imagesOfNull)
    /\ (forall response reason,
          ok response = true -> json response = Rejected reason ->
          k (Fulfilled response) = Throw reason)
    /\ (forall response b,
          ok response = false -> json_error response = Fulfilled (Value b) ->
          k (Fulfilled response)
          = Throw (ApiError (parseMetaApiError b (status response))))
    /\ (forall response reason,
          ok response = false -> json_error response = Rejected reason ->
          k (Fulfilled response)
          = Throw (ApiError (parseMetaApiError emptyBody (status response))))
    /\ (forall response,
          ok response = false -> json_error response = Fulfilled Null ->
          k (Fulfilled response) = Throw errorOfNull).
Proof.
  unfold uploadAdImage.
  destruct name as [[|c n]|]; (eexists; split; [reflexivity|]); cbn beta iota;
    (split; [|split; [|split; [|split; [|split; [|split]]]]]);
    intros; unfold handleFormResponse;
    match goal with
    | Hok : ok _ = _, Hj : _ = _ |- _ => rewrite Hok, Hj; reflexivity
    end.
Qed.

End MoreShaping.

Lemma uploadAdImage_form_witness :
  exists k,
    uploadAdImage (newMetaAdsClientImpl (tokenOnly "TOKEN")) "123" "aGVsbG8=" (Some "logo")
    = Fetch (Parsed Uploaded)
        {| url := "https://graph.facebook.com/v21.0/act_123/adimages";
           init := {| method := Some "POST"; headers := [];
                      body := Some [("bytes", "aGVsbG8="); ("name", "logo");
                                    ("access_token", "TOKEN")] |} |} k
    /\ k (Fulfilled (success 200 (Value {| images := Some [] |}))) = Ret None
    /\ k (Fulfilled (success 200 (Value {| images := None |})))
       = Throw valuesOfUndefined
    /\ k (Fulfilled (failure (Parsed Uploaded) 400 None (Fulfilled Null)))
       = Throw errorOfNull.
Proof.
  destruct (uploadAdImage_form (newMetaAdsClientImpl (tokenOnly "TOKEN")) "123"
              "aGVsbG8=" (Some "logo")) as (k & Hk & Hs & Hn & _ & _ & _ & _ & Hf).
  exists k. split; [exact Hk|]. split; [|split].
  - apply (Hs (success 200 (Value {| images := Some [] |})) []); reflexivity.
  - apply (Hn (success 200 (Value {| images := None |}))); reflexivity.
  - apply (Hf (failure (Parsed Uploaded) 400 None (Fulfilled Null))); reflexivity.
Defined.

Lemma zero_budget_create_and_update_witness :
  get "daily_budget"
    (requestSearchParams (newMetaAdsClientImpl (tokenOnly "TOKEN"))
       (Some (updateCampaignParams
                {| cu_name := None; cu_status := None; cu_daily_budget := Some (Num 0);
                   cu_lifetime_budget := None; cu_bid_strategy := None;
                   cu_spend_cap := None; cu_start_time := None;
                   cu_stop_time := None |})))
  = Some "0".
Proof.
  apply (proj2 (proj2 (proj2 (zero_budget_create_and_update
                                (newMetaAdsClientImpl (tokenOnly "TOKEN"))
                                (campaignInput "Spring Sale" OUTCOME_SALES)
                                {| cu_name := None; cu_status := None;
                                   cu_daily_budget := Some (Num 0);
                                   cu_lifetime_budget := None; cu_bid_strategy := None;
                                   cu_spend_cap := None; cu_start_time := None;
                                   cu_stop_time := None |})))).
  reflexivity.
Defined.

(** ** Credentials and version *)

(** X20. The credential check of the route and the check of the client
    factory agree: each passes exactly when the token is not empty, which
    for credentials read from headers means that the [X-Meta-Access-Token]
    header is present and not empty.  Behind the route the factory therefore
    never fails: the tool runs on a client bound to the credentials. *)
Theorem credential_gates_agree (credentials : TenantCredentials) :
  (validateCredentials credentials = inr tt <-> accessToken credentials <> "")
  /\ (validateCredentials credentials = inr tt
      <-> createMetaAdsClient credentials = inr (newMetaAdsClientImpl credentials))
  /\ (forall get, credentials = parseTenantCredentials get ->
        (validateCredentials credentials = inr tt
         <-> truthyString (get "X-Meta-Access-Token") = true))
  /\ (forall (A : Type) (tool : MetaAdsClientImpl -> IO A),
        validateCredentials credentials = inr tt ->
        mcp credentials tool
        = bind (tool (newMetaAdsClientImpl credentials)) (fun a => Ret (Served a))).
Proof.
  unfold validateCredentials, createMetaAdsClient, mcp, createStatelessServer,
    validateCredentials, createMetaAdsClient.
  split; [|split; [|split]].
  - destruct (accessToken credentials); cbn; split; congruence.
  - destruct (accessToken credentials); cbn; split; congruence.
  - intros get ->. cbn [accessToken parseTenantCredentials].
    destruct (get "X-Meta-Access-Token") as [[|c s]|]; cbn; split; congruence.
  - intros A tool. destruct (accessToken credentials); cbn; [discriminate|reflexivity].
Qed.

Lemma credential_gates_agree_witness :
  validateCredentials (tokenOnly "TOKEN") = inr tt.
Proof.
  apply (proj1 (credential_gates_agree (tokenOnly "TOKEN"))). discriminate.
Defined.

(** X21. A client built from request headers calls
    [https://graph.facebook.com] at the version the [X-Meta-Api-Version]
    header names, and at [v21.0] when that header is missing or empty. *)
Theorem client_version_from_headers (get : string -> option string)
    (endpoint : string) (q : Entries) :
  let client := newMetaAdsClientImpl (parseTenantCredentials get) in
  let version :=
    match get "X-Meta-Api-Version" with
    | Some v => if truthy_string v then v else "v21.0"
    | None => "v21.0"
    end in
  apiVersion client = version
  /\ urlOf client endpoint q
     = "https://graph.facebook.com/" ++ version ++ endpoint ++ "?" ++ toString q.
Proof.
  cbv zeta. unfold urlOf.
  cbn [newMetaAdsClientImpl parseTenantCredentials apiVersion baseUrl Env.apiVersion].
  unfold header_or_undefined, or_default.
  destruct (get "X-Meta-Api-Version") as [[|c s]|]; split; reflexivity.
Qed.

(** ** Pagination and fields *)

Section Pagination.

Variable this : MetaAdsClientImpl.

(** The first call of a list method, with its query named. *)
Ltac first_list_call m :=
  destruct m; cbn [callList listEndpoint];
  unfold listAdAccounts, listCampaigns, listAdSets, listAds, listAdCreatives,
    listAdImages, listAdVideos, listCustomAudiences, listPixels,
    listProductCatalogs, listProductSets, getBusinesses, listBusinessAdAccounts;
  eexists; (split; [reflexivity|]).

Ltac lookup_in_list_query :=
  rewrite get_requestSearchParams, ?lookupParam_app;
  repeat match goal with
    | |- context [lookupParam ?key (assignIfTruthy ?t ?k ?v ?conv) ?acc] =>
        rewrite (@lookupParam_assignIfTruthy_other _ t key k v conv acc) by reflexivity
    end;
  rewrite ?lookupParam_assignIfTruthy_same.

(** X22. A list method sends a truthy page size as the caller gave it: the
    client applies no upper or lower bound, so 1000 and -1 are sent too. *)
Theorem list_limit_passed_through (m : ListMethod) (id : string)
    (p : ListParams) (l : Z) :
  limit p = Some (Num l) ->
  l <> 0 ->
  exists q,
    firstRequest (callList m this id (Some p))
    = Some {| url := urlOf this (listEndpoint m id) q; init := jsonInit None |}
    /\ get "limit" q = Some (ToString (Num l)).
Proof.
  intros Hl H0.
  assert (limitOr25 (Some p) = PNumber (Num l)) as Hlim.
  { unfold limitOr25, opt, or_default. rewrite Hl. cbn [truthy_number].
    apply Z.eqb_neq in H0. now rewrite H0. }
  first_list_call m.
  all: rewrite Hlim; lookup_in_list_query; reflexivity.
Qed.

(** X23. A list method sends the cursors exactly as the caller gave them,
    the empty string included, and sends none when the caller gave none. *)
Theorem list_cursors_passed_through (m : ListMethod) (id : string)
    (params : option ListParams) :
  exists q,
    firstRequest (callList m this id params)
    = Some {| url := urlOf this (listEndpoint m id) q; init := jsonInit None |}
    /\ get "after" q = opt params after
    /\ get "before" q = opt params before.
Proof.
  first_list_call m.
  all: split; lookup_in_list_query.
  all: match goal with
       | |- _ = opt ?ps ?f => destruct (opt ps f); reflexivity
       end.
Qed.

(** X24. Listing ad sets sends a [filtering] parameter exactly when the
    caller gives a non-empty campaign id, and listing ads exactly when the
    caller gives a non-empty ad set id: the JSON of one filter with the field
    [campaign.id] or [adset.id], the operator [EQUAL] and the id as value.
    No other list method sends a filter. *)
Theorem list_filtering (m : ListMethod) (id : string) (params : option ListParams) :
  exists q,
    firstRequest (callList m this id params)
    = Some {| url := urlOf this (listEndpoint m id) q; init := jsonInit None |}
    /\ get "filtering" q
       = match m with
         | ListAdSets =>
             if truthyString (opt params campaignId)
             then option_map (equalFilter "campaign.id") (opt params campaignId)
             else None
         | ListAds =>
             if truthyString (opt params adSetId)
             then option_map (equalFilter "adset.id") (opt params adSetId)
             else None
         | _ => None
         end.
Proof.
  first_list_call m.
  all: lookup_in_list_query; try reflexivity.
  - destruct (opt params campaignId) as [c|]; [|reflexivity].
    cbn [truthyString option_map]. destruct (truthy_string c); reflexivity.
  - destruct (opt params adSetId) as [c|]; [|reflexivity].
    cbn [truthyString option_map]. destruct (truthy_string c); reflexivity.
Qed.

(** X25. Every get method with an optional field list makes one GET to the
    entity whose query is the credential and [fields]: the caller's list, or
    the curated default of the entity when the list is missing or empty.
    Only the account getter rewrites the id it is given. *)
Theorem get_default_fields (g : GetMethod) (id : string) (fields : option string) :
  firstRequest (callGet g this id fields)
  = Some {| url := urlOf this
                     ("/" ++ match g with
                             | GetAdAccount => normalizeAccountId id
                             | _ => id
                             end)
                     [("access_token", accessToken (credentials this));
                      ("fields",
                         match fields with
                         | Some f => if truthy_string f then f else defaultFields g
                         | None => defaultFields g
                         end)];
            init := jsonInit None |}.
Proof. destruct g; reflexivity. Qed.

Lemma fold_addParam_head (ps : Params) :
  forall value rest,
  exists value' rest',
    fold_left addParam ps (("access_token", value) :: rest)
    = ("access_token", value') :: rest'.
Proof.
  induction ps as [|[k v] ps IH]; intros value rest; cbn [fold_left]; [eauto|].
  assert (forall s, exists value' rest',
             set k s (("access_token", value) :: rest)
             = ("access_token", value') :: rest') as Hset.
  { intros s. cbn [set].
    destruct (String.eqb_spec "access_token" k) as [<-|_]; eauto. }
  destruct v; cbn [addParam]; try apply IH;
    match goal with
    | |- context [set _ ?s _] => destruct (Hset s) as (value' & rest' & ->); apply IH
    end.
Qed.

(** X26. The query [request] builds always starts with the pair of the
    credential's name, and no name occurs twice in it. *)
Theorem request_query_shape (params : option Params) :
  (exists value rest,
      requestSearchParams this params = ("access_token", value) :: rest)
  /\ NoDup (names (requestSearchParams this params)).
Proof.
  split; [|apply requestSearchParams_NoDup].
  destruct params as [ps|]; [|eexists; eexists; reflexivity].
  apply fold_addParam_head.
Qed.

(** X27. [createReachFrequencyPrediction] posts the parameters it is given
    as they are: a parameter named [access_token] with a defined value takes
    the place of the client's credential in the query. *)
Theorem reach_frequency_params_replace_token (accountId : string) (params : Params)
    (token : string) :
  NoDup (map fst params) ->
  In ("access_token", PString token) params ->
  exists q,
    firstRequest (createReachFrequencyPrediction this accountId params)
    = Some {| url := urlOf this
                       ("/" ++ normalizeAccountId accountId ++ "/reachfrequencypredictions")
                       q;
              init := jsonInit (Some "POST") |}
    /\ get "access_token" q = Some token
    /\ (forall other, In ("access_token", other) q -> other = token).
Proof.
  intros Hnd Hin. eexists. split; [reflexivity|].
  assert (get "access_token" (requestSearchParams this (Some params)) = Some token) as Hg.
  { rewrite get_requestSearchParams.
    now rewrite lookupParam_unique with (v := PString token). }
  split; [exact Hg|].
  intros other Ho.
  exact (@get_In_unique "access_token" token other _
           (requestSearchParams_NoDup this (Some params)) Hg Ho).
Qed.

End Pagination.

Lemma list_limit_passed_through_witness :
  exists q,
    firstRequest (callList ListCampaigns (newMetaAdsClientImpl (tokenOnly "TOKEN"))
                    "123" (Some (limitOnly (Num 1000))))
    = Some {| url := urlOf (newMetaAdsClientImpl (tokenOnly "TOKEN"))
                       "/act_123/campaigns" q;
              init := jsonInit None |}
    /\ get "limit" q = Some "1000".
Proof.
  apply (@list_limit_passed_through (newMetaAdsClientImpl (tokenOnly "TOKEN"))
           ListCampaigns "123" (limitOnly (Num 1000)) 1000 eq_refl).
  discriminate.
Defined.

Lemma reach_frequency_params_replace_token_witness :
  exists q,
    firstRequest (createReachFrequencyPrediction
                    (newMetaAdsClientImpl (tokenOnly "TOKEN")) "123"
                    [("objective", PString "REACH"); ("access_token", PString "OTHER")])
    = Some {| url := urlOf (newMetaAdsClientImpl (tokenOnly "TOKEN"))
                       "/act_123/reachfrequencypredictions" q;
              init := jsonInit (Some "POST") |}
    /\ get "access_token" q = Some "OTHER"
    /\ (forall other, In ("access_token", other) q -> other = "OTHER").
Proof.
  apply (@reach_frequency_params_replace_token
           (newMetaAdsClientImpl (tokenOnly "TOKEN")) "123"
           [("objective", PString "REACH"); ("access_token", PString "OTHER")] "OTHER").
  - repeat constructor; cbn; intuition discriminate.
  - right. now left.
Defined.

(** X28. Credentials read from headers never hold an empty optional value:
    an optional header that is missing or empty gives [undefined], and any
    other value is kept as it is; the token is the header's value, or the
    empty string when the header is missing. *)
Theorem parsed_credentials_have_no_empty_option (get : string -> option string) :
  let c := parseTenantCredentials get in
  adAccountId c <> Some "" /\ businessId c <> Some "" /\ appId c <> Some ""
  /\ appSecret c <> Some "" /\ Env.apiVersion c <> Some ""
  /\ (forall v, get "X-Meta-Ad-Account-Id" = Some v -> v <> "" ->
        adAccountId c = Some v)
  /\ (forall v, get "X-Meta-Business-Id" = Some v -> v <> "" ->
        businessId c = Some v)
  /\ (forall v, get "X-Meta-Access-Token" = Some v -> accessToken c = v)
  /\ (get "X-Meta-Access-Token" = None -> accessToken c = "").
Proof.
  cbv zeta. unfold parseTenantCredentials, header_or_undefined, or_default.
  cbn [adAccountId businessId appId appSecret Env.apiVersion accessToken].
  split; [|split; [|split; [|split; [|split; [|split; [|split; [|split]]]]]]].
  1-5: match goal with
       | |- match ?lookup with _ => _ end <> _ =>
           destruct lookup as [[|a s]|]; cbn; discriminate
       end.
  - intros v -> Hv. destruct v; [contradiction|reflexivity].
  - intros v -> Hv. destruct v; [contradiction|reflexivity].
  - intros v ->. destruct v; reflexivity.
  - intros ->. reflexivity.
Qed.

Lemma parsed_credentials_have_no_empty_option_witness :
  adAccountId
    (parseTenantCredentials
       (fun h => if String.eqb h "X-Meta-Ad-Account-Id" then Some "act_123" else None))
  = Some "act_123".
Proof.
  apply (proj1 (proj2 (proj2 (proj2 (proj2 (proj2
           (parsed_credentials_have_no_empty_option
              (fun h => if String.eqb h "X-Meta-Ad-Account-Id"
                        then Some "act_123" else None)))))))).
  - reflexivity.
  - discriminate.
Defined.

(** ** Account ids and audience users *)

Lemma normalizeAccountId_twice (accountId : string) :
  normalizeAccountId (normalizeAccountId accountId) = normalizeAccountId accountId.
Proof.
  unfold normalizeAccountId at 1.
  assert (startsWith (normalizeAccountId accountId) "act_" = true) as ->;
    [|reflexivity].
  unfold normalizeAccountId.
  destruct (startsWith accountId "act_") eqn:H; [exact H|apply startsWith_app].
Qed.

(** X29. The [act_] prefix is optional in every method that takes an account
    id: called with the normalised id, the method behaves as when called
    with the id as given, call for call and result for result.  The
    prediction getter ignores its account id altogether. *)
Theorem account_prefix_optional (this : MetaAdsClientImpl) (accountId : string) :
  let a := normalizeAccountId accountId in
  (forall m params, accountScoped m = true ->
      callList m this a params = callList m this accountId params)
  /\ (forall c, callCreate c this a = callCreate c this accountId)
  /\ (forall fields, getAdAccount this a fields = getAdAccount this accountId fields)
  /\ (forall imageData name,
        uploadAdImage this a imageData name = uploadAdImage this accountId imageData name)
  /\ (forall params,
        getAccountInsights this a params = getAccountInsights this accountId params)
  /\ (forall targeting goal,
        getDeliveryEstimate this a targeting goal
        = getDeliveryEstimate this accountId targeting goal)
  /\ (forall type query,
        searchTargeting this a type query = searchTargeting this accountId type query)
  /\ (forall type,
        getTargetingCategories this a type = getTargetingCategories this accountId type)
  /\ (forall params,
        createReachFrequencyPrediction this a params
        = createReachFrequencyPrediction this accountId params)
  /\ (forall other predictionId,
        getReachFrequencyPrediction this other predictionId
        = getReachFrequencyPrediction this accountId predictionId).
Proof.
  intros a. subst a.
  split; [|split; [|split; [|split; [|split; [|split; [|split; [|split; [|split]]]]]]]].
  - intros m params Hm. destruct m; try discriminate Hm; cbn [callList];
      unfold listCampaigns, listAdSets, listAds, listAdCreatives, listAdImages,
        listAdVideos, listCustomAudiences, listPixels;
      cbv zeta; rewrite normalizeAccountId_twice; reflexivity.
  - intros c. destruct c; cbn [callCreate];
      unfold createCampaign, createAdSet, createAd, createAdCreative,
        createCustomAudience, createPixel;
      cbv zeta; rewrite normalizeAccountId_twice; reflexivity.
  - intros fields. unfold getAdAccount. cbv zeta.
    rewrite normalizeAccountId_twice. reflexivity.
  - intros imageData name. unfold uploadAdImage. cbv zeta.
    rewrite normalizeAccountId_twice. reflexivity.
  - intros params. unfold getAccountInsights. cbv zeta.
    rewrite normalizeAccountId_twice. reflexivity.
  - intros targeting goal. unfold getDeliveryEstimate. cbv zeta.
    rewrite normalizeAccountId_twice. reflexivity.
  - intros type query. unfold searchTargeting. cbv zeta.
    rewrite normalizeAccountId_twice. reflexivity.
  - intros type. unfold getTargetingCategories. cbv zeta.
    rewrite normalizeAccountId_twice. reflexivity.
  - intros params. unfold createReachFrequencyPrediction. cbv zeta.
    rewrite normalizeAccountId_twice. reflexivity.
  - intros other predictionId. reflexivity.
Qed.

Lemma account_prefix_optional_witness :
  callList ListCampaigns (newMetaAdsClientImpl (tokenOnly "TOKEN")) "act_123" None
  = callList ListCampaigns (newMetaAdsClientImpl (tokenOnly "TOKEN")) "123" None.
Proof.
  apply (proj1 (account_prefix_optional (newMetaAdsClientImpl (tokenOnly "TOKEN")) "123")
           ListCampaigns None).
  reflexivity.
Defined.

(** X30. Adding users to an audience and removing them make the same single
    call but for the method, POST or DELETE: the rows travel in the query of
    the URL, as the JSON text of the schema and the data, and the call has no
    body.  Nothing else is sent, whatever the call's outcome. *)
Theorem audience_users_single_call (this : MetaAdsClientImpl) (audienceId : string)
    (schema : list string) (data : list (list string))
    (sent : list HttpRequest) (out : Thrown + option Entity) :
  let u := urlOf this ("/" ++ audienceId ++ "/users")
             [("access_token", accessToken (credentials this));
              ("payload", usersPayload schema data)] in
  (runs (addUsersToAudience this audienceId schema data) sent out ->
     sent = [{| url := u; init := jsonInit (Some "POST") |}])
  /\ (runs (removeUsersFromAudience this audienceId schema data) sent out ->
        sent = [{| url := u; init := jsonInit (Some "DELETE") |}]).
Proof.
  intros u. subst u.
  split; intros (x & sent' & -> & Hrun);
    (assert (sent' = []) as ->; [|reflexivity]);
    (destruct x as [response|reason]; [|now destruct Hrun]);
    (destruct (@handleResponse_stops _ response) as [(a & Ha)|(t & Ht)];
     [rewrite Ha in Hrun|rewrite Ht in Hrun]; now destruct Hrun).
Qed.

Lemma audience_users_single_call_witness :
  [{| url := "https://graph.facebook.com/v21.0/55/users?access_token=TOKEN&payload="
             ++ "%7B%22schema%22%3A%5B%22EMAIL%22%5D%2C%22data%22%3A%5B%5D%7D";
      init := jsonInit (Some "DELETE") |}]
  = [{| url := urlOf (newMetaAdsClientImpl (tokenOnly "TOKEN")) "/55/users"
                 [("access_token", "TOKEN"); ("payload", usersPayload ["EMAIL"] [])];
        init := jsonInit (Some "DELETE") |}].
Proof.
  apply (proj2 (@audience_users_single_call (newMetaAdsClientImpl (tokenOnly "TOKEN"))
                  "55" ["EMAIL"] [] _ (inl (PlainError "TypeError" "fetch failed")))).
  exists (Rejected (PlainError "TypeError" "fetch failed")), [].
  split; [|split; reflexivity].
  vm_compute. reflexivity.
Defined.
